(** * FinSight-RAG frontend: workflow store, status polling hook and status panel

    A shallow embedding of the client-side state machine of the RAG financial
    assistant:

    - [types/index.ts]            the shared data model,
    - [store/useAppStore.ts]      the zustand store (workflow, processing,
                                  chat, company and UI state with its actions),
    - [hooks/useProcessingStatus.ts]  the polling hook (fetchStatus,
                                  stopPolling, cancelProcessing),
    - [components/ProcessingStatusPanel.tsx]  getPhaseProgress and
                                  calculateEstimatedTimeRemaining.

    Conventions of the embedding.

    - JavaScript numbers that count things (documents, chunks, seconds,
      milliseconds) are integers of [Z]; numbers that are ratios or
      percentages are exact rationals of [Q].  Rounding of IEEE doubles, NaN
      and the infinities are outside the model; what is stated of a ratio
      or a percentage is what a correctly rounded evaluation keeps as well:
      orderings, bounds by numbers a double holds exactly, and values that
      are reached without rounding.
    - A [Date] is its epoch time in milliseconds.  Every [new Date()] and
      [Date.now()] of one synchronous stretch of code reads the same instant,
      which the embedded function receives as an argument.
    - An awaited backend call is an argument of type [ApiResult]: the value the
      promise settles with.  Each function returns, next to the new state, the
      list of backend calls it issued.
    - zustand's [set(partial)] is a shallow merge; it is embedded as [set] over
      a list of field assignments, so that every action lists exactly the keys
      its source lists. *)

From Stdlib Require Import ZArith QArith Qminmax Lia Lqa Bool Ascii.
From stdpp Require Import gmap strings list fin_maps pretty.

Local Open Scope Z_scope.
Local Open Scope string_scope.

(** ** Data model ([types/index.ts]) *)

Definition Date := Z.

Inductive WorkflowPhase := Input | Processing | Chat.

Inductive ProcessingPhase :=
  Scraping | Parsing | Chunking | Vectorizing | Complete | Error.

(** The literal type [1 | 3 | 5]. *)
Inductive TimeRange := Years1 | Years3 | Years5.

Inductive MessageType := User | Assistant.

#[global] Instance WorkflowPhase_eq_dec : EqDecision WorkflowPhase.
Proof. solve_decision. Defined.
#[global] Instance ProcessingPhase_eq_dec : EqDecision ProcessingPhase.
Proof. solve_decision. Defined.
#[global] Instance TimeRange_eq_dec : EqDecision TimeRange.
Proof. solve_decision. Defined.

Module Company.
Record t := mk {
    ticker : string;
    name : string;
    exchange : string;
    sector : string;
    industry : string;
    marketCap : option Q
  }.
End Company.
Abbreviation Company := Company.t.

Module Citation.
Record t := mk {
    id : string;
    documentTitle : string;
    section : string;
    pageNumber : option Z;
    excerpt : string;
    confidence : Q;
    url : option string
  }.
End Citation.
Abbreviation Citation := Citation.t.

Module Message.
Record t := mk {
    id : string;
    content : string;
    type : MessageType;
    timestamp : Date;
    citations : option (list Citation);
    isLoading : option bool
  }.
End Message.
Abbreviation Message := Message.t.

Module CompanyProcessingRequest.
Record t := mk {
    ticker : string;
    timeRange : TimeRange
  }.
End CompanyProcessingRequest.
Abbreviation CompanyProcessingRequest := CompanyProcessingRequest.t.

Module ProcessingStatus.
Record t := mk {
    ticker : string;
    phase : ProcessingPhase;
    progress : Q;
    documentsFound : Z;
    documentsProcessed : Z;
    chunksCreated : Z;
    chunksVectorized : Z;
    estimatedTimeRemaining : option Q;
    error : option string;
    startedAt : Date;
    completedAt : option Date
  }.

  (** The object spread [{ ...status, phase: 'error', error }]. *)
Definition withError (s : t) (e : string) : t :=
    mk (ticker s) Error (progress s) (documentsFound s) (documentsProcessed s)
       (chunksCreated s) (chunksVectorized s) (estimatedTimeRemaining s)
       (Some e) (startedAt s) (completedAt s).

Definition withEstimate (s : t) (e : option Q) : t :=
    mk (ticker s) (phase s) (progress s) (documentsFound s)
       (documentsProcessed s) (chunksCreated s) (chunksVectorized s) e
       (error s) (startedAt s) (completedAt s).
End ProcessingStatus.
Abbreviation ProcessingStatus := ProcessingStatus.t.

Module CompanyContext.
Record t := mk {
    ticker : string;
    name : string;
    processingStatus : ProcessingStatus;
    documentsAvailable : Z;
    timeRangeProcessed : Z
  }.
End CompanyContext.
Abbreviation CompanyContext := CompanyContext.t.

(** ** The store ([store/useAppStore.ts]) *)

Module WorkflowError.
Record t := mk {
    phase : WorkflowPhase;
    message : string;
    details : option string;
    timestamp : Date;
    recoverable : bool
  }.
End WorkflowError.
Abbreviation WorkflowError := WorkflowError.t.

Module ProcessingProgress.
Record t := mk {
    phase : ProcessingPhase;
    progress : Q;
    currentStep : string;
    estimatedTimeRemaining : option Q;
    documentsFound : Z;
    documentsProcessed : Z;
    chunksCreated : Z;
    chunksVectorized : Z
  }.

  (** [Partial<ProcessingProgress>]: every key may be absent. *)
Record partial := mkPartial {
    phase' : option ProcessingPhase;
    progress' : option Q;
    currentStep' : option string;
    estimatedTimeRemaining' : option (option Q);
    documentsFound' : option Z;
    documentsProcessed' : option Z;
    chunksCreated' : option Z;
    chunksVectorized' : option Z
  }.

  (** The spread [{ ...old, ...patch }]. *)
Definition merge (old : t) (p : partial) : t :=
    mk (default (phase old) (phase' p))
       (default (progress old) (progress' p))
       (default (currentStep old) (currentStep' p))
       (default (estimatedTimeRemaining old) (estimatedTimeRemaining' p))
       (default (documentsFound old) (documentsFound' p))
       (default (documentsProcessed old) (documentsProcessed' p))
       (default (chunksCreated old) (chunksCreated' p))
       (default (chunksVectorized old) (chunksVectorized' p)).
End ProcessingProgress.
Abbreviation ProcessingProgress := ProcessingProgress.t.

(** The data part of [AppState]; its function-valued keys are the
    definitions below. *)
Record AppState := mkAppState {
  (* Workflow state *)
  currentPhase : WorkflowPhase;
  previousPhase : option WorkflowPhase;
  selectedTicker : string;
  selectedTimeRange : TimeRange;
  workflowError : option WorkflowError;
  (* Processing state *)
  processingStatus : option ProcessingStatus;
  processingProgress : option ProcessingProgress;
  processingJobId : option string;
  processingStartTime : option Date;
  processingEndTime : option Date;
  (* Chat state *)
  messages : list Message;
  currentSession : string;
  isTyping : bool;
  companyContext : option CompanyContext;
  chatEnabled : bool;
  (* Company state *)
  selectedCompanies : list Company;
  companyCache : gmap string Company;
  processedCompanies : gset string;
  (* UI state *)
  sidebarOpen : bool;
  citationPanelOpen : bool;
  currentCitation : option Citation
}.

(** One key of a partial state handed to zustand's [set]. *)
Inductive Field :=
| FcurrentPhase (v : WorkflowPhase)
| FpreviousPhase (v : option WorkflowPhase)
| FselectedTicker (v : string)
| FselectedTimeRange (v : TimeRange)
| FworkflowError (v : option WorkflowError)
| FprocessingStatus (v : option ProcessingStatus)
| FprocessingProgress (v : option ProcessingProgress)
| FprocessingJobId (v : option string)
| FprocessingStartTime (v : option Date)
| FprocessingEndTime (v : option Date)
| Fmessages (v : list Message)
| FcurrentSession (v : string)
| FisTyping (v : bool)
| FcompanyContext (v : option CompanyContext)
| FchatEnabled (v : bool)
| FselectedCompanies (v : list Company)
| FcompanyCache (v : gmap string Company)
| FprocessedCompanies (v : gset string)
| FsidebarOpen (v : bool)
| FcitationPanelOpen (v : bool)
| FcurrentCitation (v : option Citation).

Definition assign (s : AppState) (f : Field) : AppState :=
  let '(mkAppState cp pp tk tr we ps pg jid t0 t1 ms ses ty ctx ce sc cc pc so co cu) := s in
  match f with
  | FcurrentPhase v => mkAppState v pp tk tr we ps pg jid t0 t1 ms ses ty ctx ce sc cc pc so co cu
  | FpreviousPhase v => mkAppState cp v tk tr we ps pg jid t0 t1 ms ses ty ctx ce sc cc pc so co cu
  | FselectedTicker v => mkAppState cp pp v tr we ps pg jid t0 t1 ms ses ty ctx ce sc cc pc so co cu
  | FselectedTimeRange v => mkAppState cp pp tk v we ps pg jid t0 t1 ms ses ty ctx ce sc cc pc so co cu
  | FworkflowError v => mkAppState cp pp tk tr v ps pg jid t0 t1 ms ses ty ctx ce sc cc pc so co cu
  | FprocessingStatus v => mkAppState cp pp tk tr we v pg jid t0 t1 ms ses ty ctx ce sc cc pc so co cu
  | FprocessingProgress v => mkAppState cp pp tk tr we ps v jid t0 t1 ms ses ty ctx ce sc cc pc so co cu
  | FprocessingJobId v => mkAppState cp pp tk tr we ps pg v t0 t1 ms ses ty ctx ce sc cc pc so co cu
  | FprocessingStartTime v => mkAppState cp pp tk tr we ps pg jid v t1 ms ses ty ctx ce sc cc pc so co cu
  | FprocessingEndTime v => mkAppState cp pp tk tr we ps pg jid t0 v ms ses ty ctx ce sc cc pc so co cu
  | Fmessages v => mkAppState cp pp tk tr we ps pg jid t0 t1 v ses ty ctx ce sc cc pc so co cu
  | FcurrentSession v => mkAppState cp pp tk tr we ps pg jid t0 t1 ms v ty ctx ce sc cc pc so co cu
  | FisTyping v => mkAppState cp pp tk tr we ps pg jid t0 t1 ms ses v ctx ce sc cc pc so co cu
  | FcompanyContext v => mkAppState cp pp tk tr we ps pg jid t0 t1 ms ses ty v ce sc cc pc so co cu
  | FchatEnabled v => mkAppState cp pp tk tr we ps pg jid t0 t1 ms ses ty ctx v sc cc pc so co cu
  | FselectedCompanies v => mkAppState cp pp tk tr we ps pg jid t0 t1 ms ses ty ctx ce v cc pc so co cu
  | FcompanyCache v => mkAppState cp pp tk tr we ps pg jid t0 t1 ms ses ty ctx ce sc v pc so co cu
  | FprocessedCompanies v => mkAppState cp pp tk tr we ps pg jid t0 t1 ms ses ty ctx ce sc cc v so co cu
  | FsidebarOpen v => mkAppState cp pp tk tr we ps pg jid t0 t1 ms ses ty ctx ce sc cc pc v co cu
  | FcitationPanelOpen v => mkAppState cp pp tk tr we ps pg jid t0 t1 ms ses ty ctx ce sc cc pc so v cu
  | FcurrentCitation v => mkAppState cp pp tk tr we ps pg jid t0 t1 ms ses ty ctx ce sc cc pc so co v
  end.

(** [set(partial)]: merge the listed keys into the state, left to right. *)
Definition set (s : AppState) (patch : list Field) : AppState :=
  fold_left assign patch s.

(** *** Backend calls and their outcomes ([api/client.ts]) *)

Inductive ApiCall :=
| PostCompaniesProcess (request : CompanyProcessingRequest)
| GetCompanyStatus (ticker : string)
| PostCompanyCancel (ticker : string).

(** What an awaited promise settles with: a value, a thrown [Error] with its
    message, or a thrown value that is not an [Error]. *)
Inductive ApiResult (A : Type) :=
| Resolved (a : A)
| RejectedError (message : string)
| RejectedOther.
Arguments Resolved {A} a.
Arguments RejectedError {A} message.
Arguments RejectedOther {A}.

(** Truthiness of a JavaScript string and of a number. *)
Definition truthyString (s : string) : bool := negb (String.eqb s "").
Definition truthyNumber (q : Q) : bool := negb (Qeq_bool q 0).
Definition truthyInt (z : Z) : bool := negb (Z.eqb z 0).

(** *** Initial state *)

Definition initialState : AppState := {|
  currentPhase := Input;
  previousPhase := None;
  selectedTicker := "";
  selectedTimeRange := Years3;
  workflowError := None;
  processingStatus := None;
  processingProgress := None;
  processingJobId := None;
  processingStartTime := None;
  processingEndTime := None;
  messages := [];
  currentSession := "";
  isTyping := false;
  companyContext := None;
  chatEnabled := false;
  selectedCompanies := [];
  companyCache := ∅;
  processedCompanies := ∅;
  sidebarOpen := false;
  citationPanelOpen := false;
  currentCitation := None
|}.

(** *** Workflow actions *)

Definition canTransitionTo (st : AppState) (phase : WorkflowPhase) : bool :=
  match phase with
  | Input => true
  | Processing => bool_decide (currentPhase st = Input)
  | Chat =>
      bool_decide (currentPhase st = Processing)
      && bool_decide (ProcessingStatus.phase <$> processingStatus st = Some Complete)
      && bool_decide (is_Some (companyContext st))
  end.

Definition failProcessing (st : AppState) (error : string)
    (details : option string) (now : Date) : AppState :=
  let workflowError :=
    WorkflowError.mk Processing error details now true in
  set st [
    FprocessingStatus
      (match processingStatus st with
       | Some ps => Some (ProcessingStatus.withError ps error)
       | None => None
       end);
    FworkflowError (Some workflowError);
    FprocessingEndTime (Some now)
  ].

(** The synchronous first half of [startProcessing]: the guard and the
    [set] that precedes the awaited backend call.  [None] is the early
    return. *)
Definition startProcessing_begin (st : AppState)
    (request : CompanyProcessingRequest) (processingStartTime : Date)
    : option AppState :=
  if negb (canTransitionTo st Processing) then None
  else Some (set st [
    FpreviousPhase (Some (currentPhase st));
    FcurrentPhase Processing;
    FselectedTicker (CompanyProcessingRequest.ticker request);
    FselectedTimeRange (CompanyProcessingRequest.timeRange request);
    FprocessingStartTime (Some processingStartTime);
    FprocessingEndTime None;
    FprocessingJobId None;
    FworkflowError None;
    FprocessingStatus (Some (ProcessingStatus.mk
      (CompanyProcessingRequest.ticker request) Scraping 0 0 0 0 0
      None None processingStartTime None));
    FprocessingProgress (Some (ProcessingProgress.mk
      Scraping 0 "Initializing document scraping..." None 0 0 0 0));
    Fmessages [];
    FcompanyContext None;
    FchatEnabled false
  ]).

(** The second half, run when the promise of
    [companyAPI.startProcessing(request)] settles. *)
Definition startProcessing_settle (st : AppState)
    (response : ApiResult string) (now : Date) : AppState :=
  match response with
  | Resolved jobId => set st [FprocessingJobId (Some jobId)]
  | RejectedError message =>
      failProcessing st message
        (Some "Check your network connection and try again") now
  | RejectedOther =>
      failProcessing st "Failed to start processing"
        (Some "Check your network connection and try again") now
  end.

Definition startProcessing (st : AppState)
    (request : CompanyProcessingRequest) (processingStartTime : Date)
    (response : ApiResult string) (settledAt : Date)
    : AppState * list ApiCall :=
  match startProcessing_begin st request processingStartTime with
  | None => (st, [])
  | Some st1 =>
      (startProcessing_settle st1 response settledAt,
       [PostCompaniesProcess request])
  end.

Definition enableChat (st : AppState) : AppState :=
  set st [FchatEnabled true].

Definition disableChat (st : AppState) : AppState :=
  set st [FchatEnabled false].

Definition setWorkflowPhase (st : AppState) (phase : WorkflowPhase)
    (force : bool) : bool * AppState :=
  if negb force && negb (canTransitionTo st phase) then (false, st)
  else
    (true, set st [
      FpreviousPhase (Some (currentPhase st));
      FcurrentPhase phase;
      FworkflowError None
    ]).

(** [transitionToPhase] is declared [async] but awaits nothing: its body runs
    to completion inside the call.  Nothing in the [try] block can throw in
    this model, so the [catch] branch is not reached. *)
Definition transitionToPhase (st : AppState) (phase : WorkflowPhase)
    : bool * AppState :=
  if negb (canTransitionTo st phase) then (false, st)
  else
    let st1 :=
      match phase with
      | Input =>
          set st [
            FprocessingStatus None;
            FprocessingProgress None;
            FcompanyContext None;
            FchatEnabled false
          ]
      | Processing => st
      | Chat => enableChat st
      end in
    setWorkflowPhase st1 phase false.

Definition updateProcessingStatus (st : AppState) (status : ProcessingStatus)
    : AppState :=
  let st1 := set st [FprocessingStatus (Some status)] in
  if bool_decide (ProcessingStatus.phase status = Complete) then
    match companyContext st1 with
    | Some _ => snd (transitionToPhase st1 Chat)
    | None => st1
    end
  else st1.

Definition updateProcessingProgress (st : AppState)
    (progress : ProcessingProgress.partial) : AppState :=
  set st [
    FprocessingProgress
      (match processingProgress st with
       | Some old => Some (ProcessingProgress.merge old progress)
       | None => None
       end)
  ].

Definition markCompanyAsProcessed (st : AppState) (ticker : string)
    : AppState :=
  set st [FprocessedCompanies (processedCompanies st ∪ {[ticker]})].

Definition isCompanyProcessed (st : AppState) (ticker : string) : bool :=
  bool_decide (ticker ∈ processedCompanies st).

Definition completeProcessing (st : AppState) (companyContext : CompanyContext)
    (processingEndTime : Date) : AppState :=
  let st1 := set st [
    FpreviousPhase (Some (currentPhase st));
    FcurrentPhase Chat;
    FcompanyContext (Some companyContext);
    FprocessingStatus (Some (CompanyContext.processingStatus companyContext));
    FprocessingEndTime (Some processingEndTime);
    FchatEnabled true;
    FworkflowError None
  ] in
  markCompanyAsProcessed st1 (CompanyContext.ticker companyContext).

Definition resetWorkflow (st : AppState) : AppState :=
  set st [
    FcurrentPhase Input;
    FpreviousPhase None;
    FselectedTicker "";
    FselectedTimeRange Years3;
    FprocessingStatus None;
    FprocessingProgress None;
    FprocessingJobId None;
    FprocessingStartTime None;
    FprocessingEndTime None;
    Fmessages [];
    FcompanyContext None;
    FcurrentSession "";
    FchatEnabled false;
    FworkflowError None;
    FprocessedCompanies ∅
  ].

Definition handleWorkflowError (st : AppState) (error : WorkflowError)
    : AppState :=
  set st [FworkflowError (Some error)].

Definition clearWorkflowError (st : AppState) : AppState :=
  set st [FworkflowError None].

Definition retryFromError (st : AppState) (processingStartTime : Date)
    (response : ApiResult string) (settledAt : Date)
    : AppState * list ApiCall :=
  match workflowError st with
  | None => (st, [])
  | Some we =>
      if negb (WorkflowError.recoverable we) then (st, [])
      else
        let st1 := clearWorkflowError st in
        match WorkflowError.phase we with
        | Processing =>
            if truthyString (selectedTicker st) then
              startProcessing st1
                (CompanyProcessingRequest.mk (selectedTicker st)
                   (selectedTimeRange st))
                processingStartTime response settledAt
            else (st1, [])
        | _ => (st1, [])
        end
  end.

(** *** Chat actions *)

Definition addMessage (st : AppState) (message : Message) : AppState :=
  set st [Fmessages (messages st ++ [message])].

Definition setIsTyping (st : AppState) (isTyping : bool) : AppState :=
  set st [FisTyping isTyping].

Definition placeholderResponse : string :=
  "This is a placeholder response. The chat functionality will be implemented in later tasks.".

(** [sendMessage] is declared [async] but its backend call is commented out
    in the source, so it awaits nothing and issues no backend call; the body
    of its [try] cannot throw.  [currentSession] is read and not used. *)
Definition sendMessage (st : AppState) (message : string) (now : Date)
    : AppState :=
  if negb (chatEnabled st) || negb (bool_decide (is_Some (companyContext st)))
  then st
  else
    let userMessage :=
      Message.mk (pretty now) message User now None None in
    let st1 := set st [
      Fmessages (messages st ++ [userMessage]);
      FisTyping true
    ] in
    let assistantMessage :=
      Message.mk (pretty (now + 1)) placeholderResponse Assistant now
        (Some []) None in
    set st1 [
      Fmessages (messages st1 ++ [assistantMessage]);
      FisTyping false
    ].

Definition clearMessages (st : AppState) : AppState :=
  set st [Fmessages []].

Definition setCurrentSession (st : AppState) (sessionId : string) : AppState :=
  set st [FcurrentSession sessionId].

(** *** Company actions *)

(** [Map.prototype.set] updates the map of the old state in place before the
    copy [new Map(...)] is taken; the old state object is not observed again,
    so the copy is the map with the key inserted. *)
Definition selectCompany (st : AppState) (company : Company) : AppState :=
  let isAlreadySelected :=
    existsb (fun c => String.eqb (Company.ticker c) (Company.ticker company))
      (selectedCompanies st) in
  if isAlreadySelected then st
  else
    set st [
      FselectedCompanies (selectedCompanies st ++ [company]);
      FcompanyCache (<[Company.ticker company := company]> (companyCache st))
    ].

Definition removeSelectedCompany (st : AppState) (ticker : string)
    : AppState :=
  set st [
    FselectedCompanies
      (List.filter (fun c => negb (String.eqb (Company.ticker c) ticker))
         (selectedCompanies st))
  ].

Definition clearSelectedCompanies (st : AppState) : AppState :=
  set st [FselectedCompanies []].

Definition cacheCompany (st : AppState) (company : Company) : AppState :=
  set st [
    FcompanyCache (<[Company.ticker company := company]> (companyCache st))
  ].

(** *** UI actions *)

Definition setSidebarOpen (st : AppState) (open : bool) : AppState :=
  set st [FsidebarOpen open].

Definition openCitation (st : AppState) (citation : Citation) : AppState :=
  set st [FcurrentCitation (Some citation); FcitationPanelOpen true].

Definition closeCitationPanel (st : AppState) : AppState :=
  set st [FcitationPanelOpen false; FcurrentCitation None].

(** *** The store as a transition system

    One constructor per action of the store, with the clock readings and
    promise outcomes the action consumes. *)
Inductive Action :=
| AstartProcessing (request : CompanyProcessingRequest) (t0 : Date)
    (response : ApiResult string) (t1 : Date)
| AupdateProcessingStatus (status : ProcessingStatus)
| AupdateProcessingProgress (progress : ProcessingProgress.partial)
| AcompleteProcessing (ctx : CompanyContext) (now : Date)
| AfailProcessing (error : string) (details : option string) (now : Date)
| AresetWorkflow
| AsetWorkflowPhase (phase : WorkflowPhase) (force : bool)
| AtransitionToPhase (phase : WorkflowPhase)
| AhandleWorkflowError (error : WorkflowError)
| AclearWorkflowError
| AretryFromError (t0 : Date) (response : ApiResult string) (t1 : Date)
| AaddMessage (message : Message)
| AsetIsTyping (isTyping : bool)
| AsendMessage (message : string) (now : Date)
| AclearMessages
| AsetCurrentSession (sessionId : string)
| AenableChat
| AdisableChat
| AselectCompany (company : Company)
| AremoveSelectedCompany (ticker : string)
| AclearSelectedCompanies
| AcacheCompany (company : Company)
| AmarkCompanyAsProcessed (ticker : string)
| AsetSidebarOpen (open : bool)
| AopenCitation (citation : Citation)
| AcloseCitationPanel.

Definition dispatch (st : AppState) (a : Action) : AppState :=
  match a with
  | AstartProcessing request t0 response t1 =>
      fst (startProcessing st request t0 response t1)
  | AupdateProcessingStatus status => updateProcessingStatus st status
  | AupdateProcessingProgress progress => updateProcessingProgress st progress
  | AcompleteProcessing ctx now => completeProcessing st ctx now
  | AfailProcessing error details now => failProcessing st error details now
  | AresetWorkflow => resetWorkflow st
  | AsetWorkflowPhase phase force => snd (setWorkflowPhase st phase force)
  | AtransitionToPhase phase => snd (transitionToPhase st phase)
  | AhandleWorkflowError error => handleWorkflowError st error
  | AclearWorkflowError => clearWorkflowError st
  | AretryFromError t0 response t1 => fst (retryFromError st t0 response t1)
  | AaddMessage message => addMessage st message
  | AsetIsTyping isTyping => setIsTyping st isTyping
  | AsendMessage message now => sendMessage st message now
  | AclearMessages => clearMessages st
  | AsetCurrentSession sessionId => setCurrentSession st sessionId
  | AenableChat => enableChat st
  | AdisableChat => disableChat st
  | AselectCompany company => selectCompany st company
  | AremoveSelectedCompany ticker => removeSelectedCompany st ticker
  | AclearSelectedCompanies => clearSelectedCompanies st
  | AcacheCompany company => cacheCompany st company
  | AmarkCompanyAsProcessed ticker => markCompanyAsProcessed st ticker
  | AsetSidebarOpen open => setSidebarOpen st open
  | AopenCitation citation => openCitation st citation
  | AcloseCitationPanel => closeCitationPanel st
  end.

(** The backend calls an action issues. *)
Definition calls (st : AppState) (a : Action) : list ApiCall :=
  match a with
  | AstartProcessing request t0 response t1 =>
      snd (startProcessing st request t0 response t1)
  | AretryFromError t0 response t1 => snd (retryFromError st t0 response t1)
  | _ => []
  end.

(** Running a program of actions: the final state and all backend calls. *)
Fixpoint run (st : AppState) (prog : list Action) : AppState * list ApiCall :=
  match prog with
  | [] => (st, [])
  | a :: rest =>
      let '(st', log) := run (dispatch st a) rest in
      (st', (calls st a ++ log)%list)
  end.

Inductive reachable : AppState -> Prop :=
| reachable_init : reachable initialState
| reachable_step st a : reachable st -> reachable (dispatch st a).

(** ** The polling hook ([hooks/useProcessingStatus.ts]) *)

Module StatusResponse.
(** [response.data] of [GET /companies/:ticker/status].  [status] holds the
    [ProcessingStatus] keys, with [startedAt] and [completedAt] already
    converted by [new Date(...)].  The spread [{ ...response.data }] also
    copies the two extra keys into the status object; no code reads them
    from there. *)
Record t := mk {
  status : ProcessingStatus;
  companyName : option string;
  timeRangeProcessed : option Z
}.
End StatusResponse.
Abbreviation StatusResponse := StatusResponse.t.

(** The two refs of the hook, and the interval timers alive in the browser. *)
Record Refs := mkRefs {
  intervalRef : option nat;
  isPollingRef : bool;
  liveIntervals : gset nat
}.

Definition fetchFailureReason : string := "Failed to fetch processing status".
Definition cancellationReason : string := "Processing cancelled by user".

Definition stopPolling (r : Refs) : Refs :=
  {| intervalRef := None;
     isPollingRef := false;
     liveIntervals :=
       match intervalRef r with
       | Some i => liveIntervals r ∖ {[i]}
       | None => liveIntervals r
       end |}.

(** What a call of a hook function leaves behind: the store, the refs, the
    backend calls issued, and the value the promise settles with ([None]:
    the error was thrown again). *)
Record Outcome (A : Type) := mkOutcome {
  store : AppState;
  refs : Refs;
  issued : list ApiCall;
  settled : option A
}.
Arguments mkOutcome {A} store refs issued settled.
Arguments store {A} o.
Arguments refs {A} o.
Arguments issued {A} o.
Arguments settled {A} o.

(** [rendered] is the [processingStatus] the hook closed over at its last
    render. *)
Definition fetchStatus (st : AppState) (r : Refs)
    (rendered : option ProcessingStatus) (tickerSymbol : string)
    (response : ApiResult StatusResponse) (now : Date)
    : Outcome ProcessingStatus :=
  let issued := [GetCompanyStatus tickerSymbol] in
  match response with
  | Resolved data =>
      let status := StatusResponse.status data in
      let st1 := updateProcessingStatus st status in
      if bool_decide (ProcessingStatus.phase status = Complete) then
        let ctx := CompanyContext.mk
          (ProcessingStatus.ticker status)
          (match StatusResponse.companyName data with
           | Some n => if truthyString n then n
                       else ProcessingStatus.ticker status
           | None => ProcessingStatus.ticker status
           end)
          status
          (ProcessingStatus.documentsProcessed status)
          (match StatusResponse.timeRangeProcessed data with
           | Some y => if truthyInt y then y else 3
           | None => 3
           end) in
        mkOutcome (completeProcessing st1 ctx now) (stopPolling r) issued
          (Some status)
      else if bool_decide (ProcessingStatus.phase status = Error) then
        mkOutcome st1 (stopPolling r) issued (Some status)
      else
        mkOutcome st1 r issued (Some status)
  | _ =>
      let st1 :=
        match rendered with
        | Some ps =>
            updateProcessingStatus st
              (ProcessingStatus.withError ps fetchFailureReason)
        | None => st
        end in
      mkOutcome st1 (stopPolling r) issued None
  end.

(** [startPolling]: the initial [fetchStatus] issues its request at once and
    resumes after [startPolling] has returned, that is after [intervalRef]
    was set to the new timer. *)
Definition startPolling (st : AppState) (r : Refs) (enabled : bool)
    (rendered : option ProcessingStatus) (tickerSymbol : string)
    (timer : nat) (response : ApiResult StatusResponse) (now : Date)
    : Outcome ProcessingStatus :=
  if isPollingRef r || negb enabled then mkOutcome st r [] None
  else
    let r1 := {| intervalRef := Some timer;
                 isPollingRef := true;
                 liveIntervals := liveIntervals r ∪ {[timer]} |} in
    fetchStatus st r1 rendered tickerSymbol response now.

Definition cancelProcessing (st : AppState) (r : Refs)
    (rendered : option ProcessingStatus) (tickerSymbol : string)
    (response : ApiResult unit) : Outcome unit :=
  let issued := [PostCompanyCancel tickerSymbol] in
  match response with
  | Resolved _ =>
      let r1 := stopPolling r in
      let st1 :=
        match rendered with
        | Some ps =>
            updateProcessingStatus st
              (ProcessingStatus.withError ps cancellationReason)
        | None => st
        end in
      mkOutcome st1 r1 issued (Some tt)
  | _ => mkOutcome st r issued None
  end.

(** The guard of the effect that starts or stops polling on each render. *)
Definition shouldPoll (ticker : option string) (enabled : bool)
    (rendered : option ProcessingStatus) : bool :=
  match ticker, rendered with
  | Some t, Some ps =>
      truthyString t && enabled
      && negb (bool_decide (ProcessingStatus.phase ps = Complete))
      && negb (bool_decide (ProcessingStatus.phase ps = Error))
  | _, _ => false
  end.

(** ** The status panel ([components/ProcessingStatusPanel.tsx]) *)

Record PhaseStep := mkPhaseStep {
  key : ProcessingPhase;
  label : string;
  description : string
}.

Definition PHASE_STEPS : list PhaseStep := [
  mkPhaseStep Scraping "Scraping SEC Filings"
    "Downloading documents from SEC EDGAR database";
  mkPhaseStep Parsing "Parsing Documents"
    "Extracting content from various document formats";
  mkPhaseStep Chunking "Creating Chunks"
    "Segmenting documents into searchable chunks";
  mkPhaseStep Vectorizing "Generating Embeddings"
    "Creating vector embeddings for semantic search"
].

(** [Array.prototype.findIndex]: the first index whose element passes, or
    [-1]. *)
Fixpoint findIndexFrom {A : Type} (p : A -> bool) (l : list A) (i : Z) : Z :=
  match l with
  | [] => -1
  | x :: rest => if p x then i else findIndexFrom p rest (i + 1)
  end.

Definition findIndex {A : Type} (p : A -> bool) (l : list A) : Z :=
  findIndexFrom p l 0.

Definition getCurrentStepIndex (status : ProcessingStatus) : Z :=
  findIndex (fun step => bool_decide (key step = ProcessingStatus.phase status))
    PHASE_STEPS.

Definition Qltb (x y : Q) : bool := negb (Qle_bool y x).

Definition stepCount : Q := inject_Z (Z.of_nat (length PHASE_STEPS)).

Definition getPhaseProgress (status : ProcessingStatus) : Q :=
  let stepIndex := getCurrentStepIndex status in
  if Z.eqb stepIndex (-1) then 0%Q
  else
    let baseProgress := (inject_Z stepIndex / stepCount * 100)%Q in
    let found := ProcessingStatus.documentsFound status in
    let processed := ProcessingStatus.documentsProcessed status in
    let created := ProcessingStatus.chunksCreated status in
    let vectorized := ProcessingStatus.chunksVectorized status in
    let phaseProgress :=
      match ProcessingStatus.phase status with
      | Scraping =>
          if Z.ltb 0 found then
            (inject_Z processed / inject_Z found * (100 / stepCount))%Q
          else 0%Q
      | Parsing =>
          if Z.ltb 0 found then
            (inject_Z processed / inject_Z found * (100 / stepCount))%Q
          else 0%Q
      | Chunking =>
          if Z.ltb 0 processed then
            (inject_Z created / inject_Z (processed * 10)
             * (100 / stepCount))%Q
          else 0%Q
      | Vectorizing =>
          if Z.ltb 0 created then
            (inject_Z vectorized / inject_Z created * (100 / stepCount))%Q
          else 0%Q
      | _ => 0%Q
      end in
    Qmin (baseProgress + phaseProgress) 100.

(** The two pieces of component state the estimate reads. *)
Record PanelState := mkPanelState {
  elapsedTime : Z;
  processingRate : Q
}.

(** The body of the one-second interval: whole seconds since [startedAt],
    and items per minute once a second has elapsed. *)
Definition tick (status : ProcessingStatus) (now : Date) (p : PanelState)
    : PanelState :=
  let elapsed := (now - ProcessingStatus.startedAt status) / 1000 in
  if Z.ltb 0 elapsed then
    let totalProcessed :=
      ProcessingStatus.documentsProcessed status
      + ProcessingStatus.chunksCreated status
      + ProcessingStatus.chunksVectorized status in
    mkPanelState elapsed (inject_Z totalProcessed / inject_Z elapsed * 60)%Q
  else mkPanelState elapsed (processingRate p).

(** The part of [calculateEstimatedTimeRemaining] below its first [if]. *)
Definition estimateFromRate (status : ProcessingStatus) (p : PanelState)
    : option Q :=
  if Qltb 0 (processingRate p) && Z.ltb 30 (elapsedTime p) then
    let progress := getPhaseProgress status in
    if Qltb 0 progress && Qltb progress 100 then
      let remainingProgress := (100 - progress)%Q in
      let estimatedSeconds :=
        (remainingProgress / progress * inject_Z (elapsedTime p))%Q in
      Some (Qmax estimatedSeconds 0)
    else None
  else None.

Definition calculateEstimatedTimeRemaining (status : ProcessingStatus)
    (p : PanelState) : option Q :=
  match ProcessingStatus.estimatedTimeRemaining status with
  | Some e => if truthyNumber e then Some e else estimateFromRate status p
  | None => estimateFromRate status p
  end.

(** The value of the progress bar. *)
Definition displayedProgress (status : ProcessingStatus) : Q :=
  if bool_decide (ProcessingStatus.phase status = Complete) then 100%Q
  else getPhaseProgress status.

(** ** Vocabulary of the properties

    Predicates and sample states the statements below are written with. *)

(** A non-terminal job for the identity of [request] is recorded in the
    store. *)
Definition hasNonTerminalJob (st : AppState)
    (request : CompanyProcessingRequest) : bool :=
  match processingStatus st with
  | Some ps =>
      String.eqb (ProcessingStatus.ticker ps)
        (CompanyProcessingRequest.ticker request)
      && bool_decide (selectedTimeRange st
                      = CompanyProcessingRequest.timeRange request)
      && negb (bool_decide (ProcessingStatus.phase ps = Complete))
      && negb (bool_decide (ProcessingStatus.phase ps = Error))
  | None => false
  end.

Definition requestAAPL : CompanyProcessingRequest :=
  CompanyProcessingRequest.mk "AAPL" Years3.

(** A job for (AAPL, 3) was started and answered with handle job-1, then the
    workflow was sent back to the input phase by [setWorkflowPhase('input')],
    which keeps [processingStatus]. *)
Definition backToInput : AppState :=
  dispatch
    (dispatch initialState
       (AstartProcessing requestAAPL 1000 (Resolved "job-1") 1200))
    (AsetWorkflowPhase Input false).

(** The state right after the first accepted submission for (AAPL, 3). *)
Definition submittedAAPL : AppState :=
  dispatch initialState
    (AstartProcessing requestAAPL 1000 (Resolved "job-1") 1200).


(** A run of status updates, as the polling loop delivers them. *)
Definition applyUpdates (st : AppState) (updates : list ProcessingStatus)
    : AppState :=
  fold_left updateProcessingStatus updates st.

(** What [canTransitionTo('chat')] stands for: the workflow is processing, the
    recorded job is complete and a company context exists. *)
Definition completedJobWithContext (st : AppState) : Prop :=
  currentPhase st = Processing
  /\ exists ps ctx,
       processingStatus st = Some ps
       /\ ProcessingStatus.phase ps = Complete
       /\ companyContext st = Some ctx.

(** The chat phase as the polling hook opens it: the recorded job is
    complete, a company context is present and chat is enabled. *)
Definition chatOpenedForCompletedJob (st : AppState) : Prop :=
  exists ps ctx,
    processingStatus st = Some ps
    /\ ProcessingStatus.phase ps = Complete
    /\ companyContext st = Some ctx
    /\ chatEnabled st = true.

(** The refs agree with the timers alive: the one interval of the hook, if
    any, is the one [intervalRef] holds. *)
Definition wellFormedRefs (r : Refs) : Prop :=
  liveIntervals r
  = match intervalRef r with
    | Some i => {[i]}
    | None => ∅
    end.

Definition scrapingAAPL (found processed : Z) : ProcessingStatus :=
  ProcessingStatus.mk "AAPL" Scraping 25 found processed 0 0 None None 1000
    None.

(** The snapshots a poller observes: the recorded status after each update
    of the run. *)
Fixpoint observedStatuses (st : AppState) (updates : list ProcessingStatus)
    : list (option ProcessingStatus) :=
  match updates with
  | [] => []
  | s :: rest =>
      let st' := updateProcessingStatus st s in
      processingStatus st' :: observedStatuses st' rest
  end.

Definition observedPhases (st : AppState) (updates : list ProcessingStatus)
    : list ProcessingPhase :=
  omap (fun o => ProcessingStatus.phase <$> o) (observedStatuses st updates).

(** The fixed order scraping, parsing, chunking, vectorizing, then complete or
    error: a report may repeat the phase, move to the next one, or fail. *)
Definition forwardStep (p q : ProcessingPhase) : bool :=
  match p, q with
  | Scraping, (Scraping | Parsing | Error) => true
  | Parsing, (Parsing | Chunking | Error) => true
  | Chunking, (Chunking | Vectorizing | Error) => true
  | Vectorizing, (Vectorizing | Complete | Error) => true
  | Complete, Complete => true
  | Error, Error => true
  | _, _ => false
  end.

Fixpoint forwardOnly (phases : list ProcessingPhase) : bool :=
  match phases with
  | p :: (q :: _) as rest => forwardStep p q && forwardOnly rest
  | _ => true
  end.

Definition countersConsistent (s : ProcessingStatus) : bool :=
  Z.leb (ProcessingStatus.documentsProcessed s)
    (ProcessingStatus.documentsFound s)
  && Z.leb (ProcessingStatus.chunksVectorized s)
       (ProcessingStatus.chunksCreated s).

Definition snapshotConsistent (st : AppState) : bool :=
  match processingStatus st with
  | Some ps => countersConsistent ps
  | None => true
  end.

Definition parsingAAPL (found processed : Z) : ProcessingStatus :=
  ProcessingStatus.mk "AAPL" Parsing 40 found processed 0 0 None None 1000
    None.

Definition vectorizingAAPL (created vectorized : Z) : ProcessingStatus :=
  ProcessingStatus.mk "AAPL" Vectorizing 80 10 10 created vectorized None None
    1000 None.

(** The number of citations a message carries (none when the key is
    absent). *)
Definition citationCount (m : Message) : nat :=
  length (default [] (Message.citations m)).

(** The last message of the transcript after [sendMessage]. *)
Definition reply (st : AppState) (message : string) (now : Date)
    : option Message :=
  last (messages (sendMessage st message now)).

(** ACME was processed to completion from one 10-K that gave one chunk. *)
Definition completeACME : ProcessingStatus :=
  ProcessingStatus.mk "ACME" Complete 100 1 1 1 1 None None 1000 (Some 4000).

Definition contextACME : CompanyContext :=
  CompanyContext.mk "ACME" "Acme Corp." completeACME 1 3.

Definition chatACME : AppState :=
  dispatch
    (dispatch initialState
       (AstartProcessing (CompanyProcessingRequest.mk "ACME" Years3) 1000
          (Resolved "job-7") 1200))
    (AcompleteProcessing contextACME 4000).

(** The ratio of two counters, with 0 when there is nothing to divide by. *)
Definition counterRatio (num den : Z) : Q :=
  if Z.ltb 0 den then (inject_Z num / inject_Z den)%Q else 0%Q.

(** Phase and counters are all that [getPhaseProgress] reads. *)
Definition sameCounters (s s' : ProcessingStatus) : Prop :=
  ProcessingStatus.phase s = ProcessingStatus.phase s'
  /\ ProcessingStatus.documentsFound s = ProcessingStatus.documentsFound s'
  /\ ProcessingStatus.documentsProcessed s
     = ProcessingStatus.documentsProcessed s'
  /\ ProcessingStatus.chunksCreated s = ProcessingStatus.chunksCreated s'
  /\ ProcessingStatus.chunksVectorized s
     = ProcessingStatus.chunksVectorized s'.

(** The counters the progress of a phase follows, as numerator and
    denominator: documents while scraping and parsing, chunks while
    vectorizing. *)
Definition phaseCounters (s : ProcessingStatus) : option (Z * Z) :=
  match ProcessingStatus.phase s with
  | Scraping | Parsing =>
      Some (ProcessingStatus.documentsProcessed s,
            ProcessingStatus.documentsFound s)
  | Vectorizing =>
      Some (ProcessingStatus.chunksVectorized s,
            ProcessingStatus.chunksCreated s)
  | _ => None
  end.

(** Where the quarter of a phase starts on the scale of the bar. *)
Definition phaseBase (phase : ProcessingPhase) : Q :=
  match phase with
  | Scraping => 0
  | Parsing => 25
  | Chunking => 50
  | Vectorizing => 75
  | _ => 0
  end.

(** The panel has counted 40 seconds and a rate of 3 items per minute. *)
Definition panelAfter40s : PanelState := mkPanelState 40 3.

(** Two panels at 41000 on the AAPL job started at 1000: one whose last
    tick saw 1 document scraped, one that ticked again after the second. *)
Definition slowPanel : PanelState :=
  tick (scrapingAAPL 4 1) 41000 (mkPanelState 0 0).

Definition fastPanel : PanelState := tick (scrapingAAPL 4 2) 41000 slowPanel.

(** What the workflow decides on: the phase, the chat gate and the
    transitions that are open. *)
Definition sameDecisions (a b : AppState) : Prop :=
  currentPhase a = currentPhase b
  /\ previousPhase a = previousPhase b
  /\ chatEnabled a = chatEnabled b
  /\ (ProcessingStatus.phase <$> processingStatus a)
     = (ProcessingStatus.phase <$> processingStatus b)
  /\ forall phase : WorkflowPhase,
       canTransitionTo a phase = canTransitionTo b phase.

(** The tickers of the selected companies, in order. *)
Definition selectedTickers (st : AppState) : list string :=
  map Company.ticker (selectedCompanies st).

Definition apple : Company :=
  Company.mk "AAPL" "Apple Inc." "NASDAQ" "Technology" "Consumer Electronics"
    None.

(** A second record with the ticker of [apple]. *)
Definition appleAgain : Company :=
  Company.mk "AAPL" "Apple" "NASDAQ" "Tech" "Hardware" None.

(** * Further code: the rest of the panel and of the hook, and the components
    around the store *)

(** ** The status panel, continued ([components/ProcessingStatusPanel.tsx]) *)

(** [String.prototype.padStart] with a pad string of one character. *)
Definition padStart (targetLength : nat) (pad : Ascii.ascii) (s : string)
    : string :=
  String.string_of_list_ascii
    (List.repeat pad (targetLength - String.length s)) ++ s.

(** [seconds] is a whole number of seconds, so [Math.floor(seconds / 60)] is
    the floor division; [%] is the remainder with the sign of the dividend. *)
Definition formatTime (seconds : Z) : string :=
  let mins := seconds / 60 in
  let secs := Z.rem seconds 60 in
  pretty mins ++ ":" ++ padStart 2 "0"%char (pretty secs).

(** The flags of one step of the stepper, for the step at [index] of
    [PHASE_STEPS]. *)
Definition isActive (status : ProcessingStatus) (index : Z) : bool :=
  Z.eqb index (getCurrentStepIndex status).

Definition isCompleted (status : ProcessingStatus) (index : Z) : bool :=
  Z.ltb index (getCurrentStepIndex status)
  || bool_decide (ProcessingStatus.phase status = Complete).

Definition hasError (status : ProcessingStatus) (index : Z) : bool :=
  bool_decide (ProcessingStatus.phase status = Error) && isActive status index.

(** The value of the small bar inside the active step. *)
Definition progressValue (step : PhaseStep) (status : ProcessingStatus) : Q :=
  let found := ProcessingStatus.documentsFound status in
  let processed := ProcessingStatus.documentsProcessed status in
  let created := ProcessingStatus.chunksCreated status in
  let vectorized := ProcessingStatus.chunksVectorized status in
  match key step with
  | Scraping =>
      if Z.ltb 0 found then (inject_Z processed / inject_Z found * 100)%Q
      else 0%Q
  | Parsing =>
      if Z.ltb 0 found then (inject_Z processed / inject_Z found * 100)%Q
      else 0%Q
  | Chunking => 0%Q
  | Vectorizing =>
      if Z.ltb 0 created then (inject_Z vectorized / inject_Z created * 100)%Q
      else 0%Q
  | _ => 0%Q
  end.

(** [handleCancel] of the panel: the hook's [cancelProcessing] for the ticker
    of the [status] prop, then the [onCancel] prop if there is one; a failed
    cancel request is caught and logged, and [onCancel] is not called. *)
Definition handleCancel (st : AppState) (r : Refs)
    (rendered : option ProcessingStatus) (status : ProcessingStatus)
    (response : ApiResult unit) (onCancel : option (AppState -> AppState))
    : Outcome unit :=
  let o :=
    cancelProcessing st r rendered (ProcessingStatus.ticker status) response in
  match settled o with
  | Some _ =>
      mkOutcome
        (match onCancel with
         | Some f => f (store o)
         | None => store o
         end)
        (refs o) (issued o) (Some tt)
  | None => mkOutcome (store o) (refs o) (issued o) (Some tt)
  end.

(** ** The application shell ([App.tsx]) *)

(** The [onCancel] the shell hands to the panel. *)
Definition handleCancelProcessing (st : AppState) : AppState :=
  resetWorkflow st.

(** The [onSubmit] the shell hands to the input form. *)
Definition handleProcessingRequest (st : AppState)
    (request : CompanyProcessingRequest) (processingStartTime : Date)
    (response : ApiResult string) (settledAt : Date)
    : AppState * list ApiCall :=
  startProcessing st request processingStartTime response settledAt.

(** The panel is on screen in the processing phase with a status recorded. *)
Definition panelShown (st : AppState) : bool :=
  bool_decide (currentPhase st = Processing)
  && bool_decide (is_Some (processingStatus st)).

(** ** The polling hook, continued *)

Definition initialRefs : Refs := mkRefs None false ∅.

(** The effect that runs after a render: start polling when the guard holds,
    stop otherwise. *)
Definition pollingEffect (st : AppState) (r : Refs) (ticker : option string)
    (enabled : bool) (rendered : option ProcessingStatus) (timer : nat)
    (response : ApiResult StatusResponse) (now : Date)
    : Outcome ProcessingStatus :=
  match ticker with
  | Some t =>
      if shouldPoll ticker enabled rendered then
        startPolling st r enabled rendered t timer response now
      else mkOutcome st (stopPolling r) [] None
  | None => mkOutcome st (stopPolling r) [] None
  end.

(** The calls a component can make on the hook, with what each consumes. *)
Inductive HookOp :=
| HstartPolling (enabled : bool) (rendered : option ProcessingStatus)
    (tickerSymbol : string) (timer : nat)
    (response : ApiResult StatusResponse) (now : Date)
| HstopPolling
| HfetchStatus (rendered : option ProcessingStatus) (tickerSymbol : string)
    (response : ApiResult StatusResponse) (now : Date)
| HcancelProcessing (rendered : option ProcessingStatus)
    (tickerSymbol : string) (response : ApiResult unit)
| HpollingEffect (ticker : option string) (enabled : bool)
    (rendered : option ProcessingStatus) (timer : nat)
    (response : ApiResult StatusResponse) (now : Date).

Definition hookStep (w : AppState * Refs) (op : HookOp) : AppState * Refs :=
  let '(st, r) := w in
  match op with
  | HstartPolling enabled rendered tickerSymbol timer response now =>
      let o := startPolling st r enabled rendered tickerSymbol timer response
                 now in
      (store o, refs o)
  | HstopPolling => (st, stopPolling r)
  | HfetchStatus rendered tickerSymbol response now =>
      let o := fetchStatus st r rendered tickerSymbol response now in
      (store o, refs o)
  | HcancelProcessing rendered tickerSymbol response =>
      let o := cancelProcessing st r rendered tickerSymbol response in
      (store o, refs o)
  | HpollingEffect ticker enabled rendered timer response now =>
      let o := pollingEffect st r ticker enabled rendered timer response now in
      (store o, refs o)
  end.

Definition hookRun (w : AppState * Refs) (ops : list HookOp)
    : AppState * Refs :=
  fold_left hookStep ops w.

(** ** The input form ([components/CompanyInputForm.tsx]) *)

Module TickerValidationResponse.
Record t := mk {
  ticker : string;
  isValid : bool;
  companyName : option string;
  suggestions : list string
}.
End TickerValidationResponse.
Abbreviation TickerValidationResponse := TickerValidationResponse.t.

Module CompanyInputForm.
Section WithStringMethods.

(** [String.prototype.toUpperCase] and [String.prototype.trim] of the
    JavaScript runtime. *)
Variable toUpperCase : string -> string.
Variable trim : string -> string.

(** The five pieces of component state. *)
Record State := mkState {
  ticker : string;
  timeRange : TimeRange;
  isValidating : bool;
  validationResult : option TickerValidationResponse;
  error : option string
}.

Definition initial : State := mkState "" Years3 false None None.

Definition handleTickerChange (s : State) (value : string) : State :=
  mkState (toUpperCase value) (timeRange s) (isValidating s)
    (validationResult s) None.

Definition handleTimeRangeChange (s : State) (value : TimeRange) : State :=
  mkState (ticker s) value (isValidating s) (validationResult s) (error s).

(** [validationResult?.isValid]. *)
Definition validated (s : State) : bool :=
  match validationResult s with
  | Some v => TickerValidationResponse.isValid v
  | None => false
  end.

(** The new state and the request handed to [onSubmit], if any. *)
Definition handleSubmit (s : State)
    : State * option CompanyProcessingRequest :=
  if negb (validated s) then
    (mkState (ticker s) (timeRange s) (isValidating s) (validationResult s)
       (Some "Please enter a valid company ticker"),
     None)
  else
    (s, Some (CompanyProcessingRequest.mk (toUpperCase (ticker s))
                (timeRange s))).

Definition isFormValid (s : State) (isProcessing : bool) : bool :=
  validated s && negb (isValidating s) && negb isProcessing.

(** The effect on a new debounced ticker, run to its end: the state, and the
    ticker whose validation was requested from the backend, if any. *)
Definition validateTicker (s : State) (debouncedTicker : string)
    (response : ApiResult TickerValidationResponse)
    : State * option string :=
  if negb (truthyString (trim debouncedTicker)) then
    (mkState (ticker s) (timeRange s) (isValidating s) None (error s), None)
  else
    match response with
    | Resolved data =>
        (mkState (ticker s) (timeRange s) false (Some data) None,
         Some (toUpperCase debouncedTicker))
    | _ =>
        (mkState (ticker s) (timeRange s) false None
           (Some "Failed to validate ticker. Please try again."),
         Some (toUpperCase debouncedTicker))
    end.

(** The suggestion chips: at most three, and only under an invalid result. *)
Definition shownSuggestions (s : State) : list string :=
  match validationResult s with
  | Some v =>
      if negb (TickerValidationResponse.isValid v) then
        take 3 (TickerValidationResponse.suggestions v)
      else []
  | None => []
  end.

End WithStringMethods.
End CompanyInputForm.

(** ** The company selector ([components/CompanySelector.tsx]) *)

Module CompanySelector.

(** The store, the companies reported through [onCompanySelect], and the
    text of the search box. *)
Record Result := mkResult {
  store : AppState;
  notified : list Company;
  inputValue : string
}.

(** One round of the [forEach] of the multiple branch.  [rendered] is the
    [selectedCompanies] the component closed over at its last render. *)
Definition selectOne (rendered : list Company) (acc : Result)
    (company : Company) : Result :=
  if negb (existsb
             (fun c => String.eqb (Company.ticker c) (Company.ticker company))
             rendered)
  then mkResult (selectCompany (store acc) company)
         (notified acc ++ [company]) (inputValue acc)
  else acc.

(** [handleCompanySelect] with [multiple] set: [value] is the array handed
    over by the autocomplete, or [null]. *)
Definition handleCompanySelect_multiple (st : AppState)
    (rendered : list Company) (inputValue : string)
    (value : option (list Company)) : Result :=
  match value with
  | Some newCompanies =>
      fold_left (selectOne rendered) newCompanies (mkResult st [] inputValue)
  | None => mkResult st [] inputValue
  end.

(** [handleCompanySelect] without [multiple]: [value] is one company, or
    [null]. *)
Definition handleCompanySelect_single (st : AppState) (inputValue : string)
    (value : option Company) : Result :=
  match value with
  | Some company => mkResult (selectCompany st company) [company] ""
  | None => mkResult st [] inputValue
  end.

Definition handleChipDelete (st : AppState) (ticker : string) : AppState :=
  removeSelectedCompany st ticker.

End CompanySelector.

(** ** The chat box ([components/ChatInterface.tsx]) *)

Module ChatInterface.
Section WithStringMethods.

Variable trim : string -> string.

(** The store and the text of the input box after [handleSendMessage];
    [isTyping] is the flag the component closed over. *)
Definition handleSendMessage (st : AppState) (isTyping : bool)
    (inputMessage : string) (now : Date) : AppState * string :=
  if negb (truthyString (trim inputMessage)) || isTyping then
    (st, inputMessage)
  else (sendMessage st (trim inputMessage) now, "").

End WithStringMethods.
End ChatInterface.

(** ** Vocabulary of the further properties *)

(** The hook is polling exactly when it holds a timer, and that timer is the
    only one alive. *)
Definition pollingCoherent (r : Refs) : Prop :=
  wellFormedRefs r
  /\ (isPollingRef r = true <-> is_Some (intervalRef r)).

(** A run of questions, each with the instant it is sent at. *)
Definition sendAll (st : AppState) (questions : list (string * Date))
    : AppState :=
  fold_left (fun s q => sendMessage s (fst q) (snd q)) questions st.

(** Every selected company has an entry in the cache. *)
Definition selectionCached (st : AppState) : Prop :=
  forall c : Company,
    c ∈ selectedCompanies st ->
    is_Some (companyCache st !! Company.ticker c).

(** Two partial progress records laid over one another: a key of [later]
    wins over the same key of [earlier]. *)
Definition overridePartial (earlier later : ProcessingProgress.partial)
    : ProcessingProgress.partial :=
  let pick {A : Type} (a b : option A) : option A :=
    match b with
    | Some _ => b
    | None => a
    end in
  ProcessingProgress.mkPartial
    (pick (ProcessingProgress.phase' earlier) (ProcessingProgress.phase' later))
    (pick (ProcessingProgress.progress' earlier)
       (ProcessingProgress.progress' later))
    (pick (ProcessingProgress.currentStep' earlier)
       (ProcessingProgress.currentStep' later))
    (pick (ProcessingProgress.estimatedTimeRemaining' earlier)
       (ProcessingProgress.estimatedTimeRemaining' later))
    (pick (ProcessingProgress.documentsFound' earlier)
       (ProcessingProgress.documentsFound' later))
    (pick (ProcessingProgress.documentsProcessed' earlier)
       (ProcessingProgress.documentsProcessed' later))
    (pick (ProcessingProgress.chunksCreated' earlier)
       (ProcessingProgress.chunksCreated' later))
    (pick (ProcessingProgress.chunksVectorized' earlier)
       (ProcessingProgress.chunksVectorized' later)).

Definition emptyPartial : ProcessingProgress.partial :=
  ProcessingProgress.mkPartial None None None None None None None None.

(** The two messages one accepted [sendMessage] appends. *)
Definition exchange (q : string * Date) : list Message :=
  [Message.mk (pretty (snd q)) (fst q) User (snd q) None None;
   Message.mk (pretty (snd q + 1)) placeholderResponse Assistant (snd q)
     (Some []) None].

(** The instants are in increasing order and at least two milliseconds
    apart. *)
Fixpoint spaced (times : list Date) : Prop :=
  match times with
  | t :: ((u :: _) as rest) => t + 2 <= u /\ spaced rest
  | _ => True
  end.

Definition chunkingAAPL (processed created : Z) : ProcessingStatus :=
  ProcessingStatus.mk "AAPL" Chunking 60 processed processed created 0 None
    None 1000 None.

(** The seconds field of [formatTime]. *)
Definition secondsField (r : Z) : string := padStart 2 "0"%char (pretty r).

(** The citation panel is open exactly when a citation is current. *)
Definition citationPanelCoherent (st : AppState) : Prop :=
  citationPanelOpen st = true <-> is_Some (currentCitation st).

(** * Properties *)

(** ** Basic facts about the guards *)

Lemma canTransitionTo_processing_iff (st : AppState) :
  canTransitionTo st Processing = true <-> currentPhase st = Input.
Proof. unfold canTransitionTo. apply bool_decide_eq_true. Qed.

Lemma canTransitionTo_chat_inv (st : AppState) :
  canTransitionTo st Chat = true ->
  currentPhase st = Processing
  /\ exists ps ctx,
       processingStatus st = Some ps
       /\ ProcessingStatus.phase ps = Complete
       /\ companyContext st = Some ctx.
Proof.
  unfold canTransitionTo.
  rewrite !andb_true_iff, !bool_decide_eq_true.
  intros [[Hphase Hstatus] [ctx Hctx]].
  split; [exact Hphase |].
  destruct (processingStatus st) as [ps |] eqn:Hps; [| discriminate].
  exists ps, ctx. simpl in Hstatus. repeat split; congruence.
Qed.

Lemma startProcessing_begin_refused (st : AppState)
    (request : CompanyProcessingRequest) (t0 : Date) :
  currentPhase st <> Input -> startProcessing_begin st request t0 = None.
Proof.
  intros Hne. unfold startProcessing_begin.
  destruct (canTransitionTo st Processing) eqn:Hcan; [| reflexivity].
  apply canTransitionTo_processing_iff in Hcan. contradiction.
Qed.

Lemma startProcessing_begin_accepted (st : AppState)
    (request : CompanyProcessingRequest) (t0 : Date) :
  currentPhase st = Input ->
  exists st1,
    startProcessing_begin st request t0 = Some st1
    /\ currentPhase st1 = Processing
    /\ chatEnabled st1 = false
    /\ companyContext st1 = None.
Proof.
  intros Hin. unfold startProcessing_begin.
  apply canTransitionTo_processing_iff in Hin as Hcan. rewrite Hcan. simpl.
  eexists. split; [reflexivity |]. destruct st; simpl. auto.
Qed.

(** Settling the backend call changes neither the workflow phase nor what
    gates the chat. *)
Lemma startProcessing_settle_frame (st : AppState) (response : ApiResult string)
    (now : Date) :
  let st' := startProcessing_settle st response now in
  currentPhase st' = currentPhase st
  /\ chatEnabled st' = chatEnabled st
  /\ companyContext st' = companyContext st.
Proof. destruct st, response; simpl; auto. Qed.

(** ** What the actions record *)

(** Splits on the guards met while an action is unfolded. *)
Ltac split_guards :=
  repeat match goal with
         | |- context [if ?b then _ else _] => destruct b; simpl
         | |- context [match ?x with _ => _ end] => destruct x; simpl
         end.

Lemma updateProcessingStatus_incomplete (st : AppState)
    (status : ProcessingStatus) :
  ProcessingStatus.phase status <> Complete ->
  updateProcessingStatus st status = set st [FprocessingStatus (Some status)].
Proof.
  intros Hne. unfold updateProcessingStatus.
  rewrite bool_decide_eq_false_2 by exact Hne. reflexivity.
Qed.

Lemma transitionToPhase_processingStatus (st : AppState)
    (phase : WorkflowPhase) :
  phase <> Input ->
  processingStatus (snd (transitionToPhase st phase)) = processingStatus st.
Proof.
  intros Hne. unfold transitionToPhase, setWorkflowPhase.
  destruct (canTransitionTo st phase) eqn:Hcan; simpl; [| reflexivity].
  destruct phase; [contradiction | |].
  - rewrite Hcan. destruct st; reflexivity.
  - destruct (canTransitionTo (enableChat st) Chat); destruct st; reflexivity.
Qed.

Lemma updateProcessingStatus_records (st : AppState)
    (status : ProcessingStatus) :
  processingStatus (updateProcessingStatus st status) = Some status.
Proof.
  unfold updateProcessingStatus.
  destruct (bool_decide (ProcessingStatus.phase status = Complete)).
  - destruct (companyContext _).
    + rewrite transitionToPhase_processingStatus by discriminate.
      destruct st; reflexivity.
    + destruct st; reflexivity.
  - destruct st; reflexivity.
Qed.

Lemma completeProcessing_records (st : AppState) (ctx : CompanyContext)
    (now : Date) :
  processingStatus (completeProcessing st ctx now)
  = Some (CompanyContext.processingStatus ctx).
Proof. destruct st; reflexivity. Qed.

Lemma fetchStatus_resolved_records (st : AppState) (r : Refs)
    (rendered : option ProcessingStatus) (tickerSymbol : string)
    (data : StatusResponse) (now : Date) :
  processingStatus
    (store (fetchStatus st r rendered tickerSymbol (Resolved data) now))
  = Some (StatusResponse.status data).
Proof.
  unfold fetchStatus.
  destruct (bool_decide (ProcessingStatus.phase (StatusResponse.status data)
                         = Complete)); simpl.
  - apply completeProcessing_records.
  - destruct (bool_decide _); simpl; apply updateProcessingStatus_records.
Qed.

(** ** C1: resubmission *)

(** C1, counterexample: in the reachable state [backToInput] the store holds
    a non-terminal (scraping) job for (AAPL, 3) with handle job-1, and yet
    [startProcessing] for the same identity posts a second processing
    request and replaces the handle by job-2: the run issues two processing
    requests for (AAPL, 3). *)
Lemma C1_counterexample_second_job_started :
  reachable backToInput
  /\ hasNonTerminalJob backToInput requestAAPL = true
  /\ processingJobId backToInput = Some "job-1"
  /\ snd (startProcessing backToInput requestAAPL 5000 (Resolved "job-2") 5200)
     = [PostCompaniesProcess requestAAPL]
  /\ processingJobId
       (fst (startProcessing backToInput requestAAPL 5000
               (Resolved "job-2") 5200))
     = Some "job-2"
  /\ snd (run initialState [
            AstartProcessing requestAAPL 1000 (Resolved "job-1") 1200;
            AsetWorkflowPhase Input false;
            AstartProcessing requestAAPL 5000 (Resolved "job-2") 5200])
     = [PostCompaniesProcess requestAAPL; PostCompaniesProcess requestAAPL].
Proof.
  split; [unfold backToInput; do 2 apply reachable_step; apply reachable_init |].
  repeat split; vm_compute; reflexivity.
Qed.

(** C1, amended: [startProcessing] is gated by the workflow phase, not by the
    job identity.  It returns without touching the store (so the recorded
    job handle stays) and without a backend call exactly when the workflow is
    not in the input phase, which is exactly when [canTransitionTo
    ('processing')] fails; in the input phase it posts a processing request.
    A call that follows another call of [startProcessing], be it after the
    backend answered or while its answer is still awaited, is therefore
    always refused and never starts a second job. *)
Theorem C1_startProcessing_gated_by_workflow_phase :
  forall (st : AppState) (request : CompanyProcessingRequest) (t0 : Date)
         (response : ApiResult string) (t1 : Date),
    (startProcessing st request t0 response t1 = (st, [])
     <-> currentPhase st <> Input)
    /\ (canTransitionTo st Processing = false <-> currentPhase st <> Input)
    /\ (currentPhase st = Input ->
        snd (startProcessing st request t0 response t1)
        = [PostCompaniesProcess request])
    /\ (forall (request' : CompanyProcessingRequest) (t0' : Date)
               (response' : ApiResult string) (t1' : Date),
          let st' := fst (startProcessing st request t0 response t1) in
          startProcessing st' request' t0' response' t1' = (st', [])
          /\ processingJobId
               (fst (startProcessing st' request' t0' response' t1'))
             = processingJobId st')
    /\ forall (pending : AppState) (request' : CompanyProcessingRequest)
              (t0' : Date) (response' : ApiResult string) (t1' : Date),
         startProcessing_begin st request t0 = Some pending ->
         startProcessing pending request' t0' response' t1' = (pending, []).
Proof.
  intros st request t0 response t1.
  assert (Hcan : canTransitionTo st Processing = false
                 <-> currentPhase st <> Input).
  { rewrite <- canTransitionTo_processing_iff.
    destruct (canTransitionTo st Processing); split; congruence. }
  assert (Hrefuse : forall s rq a rs b,
             currentPhase s <> Input -> startProcessing s rq a rs b = (s, [])).
  { intros s rq a rs b Hne. unfold startProcessing.
    rewrite startProcessing_begin_refused by exact Hne. reflexivity. }
  assert (Hstart : currentPhase st = Input ->
             snd (startProcessing st request t0 response t1)
             = [PostCompaniesProcess request]
             /\ currentPhase (fst (startProcessing st request t0 response t1))
                = Processing).
  { intros Hin. unfold startProcessing.
    destruct (startProcessing_begin_accepted st request t0 Hin)
      as (st1 & -> & Hphase & _).
    simpl. split; [reflexivity |].
    destruct (startProcessing_settle_frame st1 response t1) as [-> _].
    exact Hphase. }
  split; [| split; [exact Hcan | split; [intros Hin; apply Hstart, Hin |]]].
  - split.
    + intros Heq Hin. apply Hstart in Hin as [Hlog _].
      rewrite Heq in Hlog. discriminate.
    + apply Hrefuse.
  - split.
    + intros request' t0' response' t1' st'.
      assert (Hne : currentPhase st' <> Input).
      { subst st'. destruct (decide (currentPhase st = Input)) as [Hin | Hne].
        - apply Hstart in Hin as [_ ->]. discriminate.
        - rewrite Hrefuse by exact Hne. exact Hne. }
      rewrite Hrefuse by exact Hne. split; reflexivity.
    + intros pending request' t0' response' t1' Hbegin.
      apply Hrefuse.
      destruct (decide (currentPhase st = Input)) as [Hin | Hne].
      * destruct (startProcessing_begin_accepted st request t0 Hin)
          as (st1 & Hst1 & Hphase & _).
        rewrite Hbegin in Hst1. injection Hst1 as <-.
        rewrite Hphase. discriminate.
      * rewrite startProcessing_begin_refused in Hbegin by exact Hne.
        discriminate.
Qed.

(** Witness for C1: after the first accepted submission for (AAPL, 3) the
    second one is refused and job-1 stays the recorded handle. *)
Lemma C1_witness_resubmission_refused :
  currentPhase submittedAAPL <> Input
  /\ startProcessing submittedAAPL requestAAPL 5000 (Resolved "job-2") 5200
     = (submittedAAPL, [])
  /\ processingJobId submittedAAPL = Some "job-1".
Proof.
  assert (Hne : currentPhase submittedAAPL <> Input)
    by (vm_compute; discriminate).
  split; [exact Hne |]. split; [| vm_compute; reflexivity].
  apply (proj1 (C1_startProcessing_gated_by_workflow_phase
                  submittedAAPL requestAAPL 5000 (Resolved "job-2") 5200)).
  exact Hne.
Defined.

(** ** C2: chat needs a completed job *)

Lemma applyUpdates_incomplete_frame (updates : list ProcessingStatus) :
  forall st : AppState,
    Forall (fun s => ProcessingStatus.phase s <> Complete) updates ->
    currentPhase (applyUpdates st updates) = currentPhase st
    /\ chatEnabled (applyUpdates st updates) = chatEnabled st
    /\ companyContext (applyUpdates st updates) = companyContext st.
Proof.
  induction updates as [| s rest IH]; intros st Hall; simpl.
  - auto.
  - inversion Hall as [| ? ? Hs Hrest]; subst.
    destruct (IH (updateProcessingStatus st s) Hrest) as (-> & -> & ->).
    rewrite updateProcessingStatus_incomplete by exact Hs.
    destruct st; simpl; auto.
Qed.

Lemma sendMessage_rejected (st : AppState) (message : string) (now : Date) :
  chatEnabled st = false \/ companyContext st = None ->
  sendMessage st message now = st.
Proof.
  intros [Hoff | Hnone]; unfold sendMessage.
  - rewrite Hoff. reflexivity.
  - rewrite Hnone. simpl. rewrite orb_true_r. reflexivity.
Qed.

(** C2: the transition to the chat phase is permitted only for a complete job
    with a company context ([canTransitionTo], and with it the guarded
    transitions [transitionToPhase] and [setWorkflowPhase] without force);
    [sendMessage] with chat disabled or without company context returns the
    state as it was, so no message is added; and while a submitted job is
    still being processed (status updates that are not complete), every
    [sendMessage] is rejected in that way.  The polling hook, for its part,
    moves the workflow into the chat phase only on a complete status, and
    then with the company context set. *)
Theorem C2_chat_requires_completed_job :
  forall st : AppState,
    (canTransitionTo st Chat = true -> completedJobWithContext st)
    /\ (fst (transitionToPhase st Chat) = true -> completedJobWithContext st)
    /\ (fst (setWorkflowPhase st Chat false) = true ->
        completedJobWithContext st)
    /\ (forall (message : string) (now : Date),
          chatEnabled st = false \/ companyContext st = None ->
          sendMessage st message now = st
          /\ messages (sendMessage st message now) = messages st)
    /\ (forall (request : CompanyProcessingRequest) (t0 : Date)
               (response : ApiResult string) (t1 : Date)
               (updates : list ProcessingStatus) (message : string)
               (now : Date),
          currentPhase st = Input ->
          Forall (fun s => ProcessingStatus.phase s <> Complete) updates ->
          let st' :=
            applyUpdates (fst (startProcessing st request t0 response t1))
              updates in
          currentPhase st' = Processing
          /\ sendMessage st' message now = st')
    /\ (forall (r : Refs) (rendered : option ProcessingStatus)
               (tickerSymbol : string) (response : ApiResult StatusResponse)
               (now : Date),
          currentPhase st <> Chat ->
          currentPhase
            (store (fetchStatus st r rendered tickerSymbol response now))
          = Chat ->
          chatOpenedForCompletedJob
            (store (fetchStatus st r rendered tickerSymbol response now))).
Proof.
  intros st.
  assert (Hcan : canTransitionTo st Chat = true -> completedJobWithContext st)
    by apply canTransitionTo_chat_inv.
  split; [exact Hcan |]. split; [| split; [| split; [| split]]].
  - unfold transitionToPhase.
    destruct (canTransitionTo st Chat) eqn:E; simpl; [auto | discriminate].
  - unfold setWorkflowPhase.
    destruct (canTransitionTo st Chat) eqn:E; simpl; [auto | discriminate].
  - intros message now H. rewrite sendMessage_rejected by exact H. auto.
  - intros request t0 response t1 updates message now Hin Hall st'.
    subst st'. unfold startProcessing.
    destruct (startProcessing_begin_accepted st request t0 Hin)
      as (st1 & -> & Hphase & Hchat & Hctx).
    simpl.
    destruct (startProcessing_settle_frame st1 response t1)
      as (Hp & Hc & _).
    destruct (applyUpdates_incomplete_frame updates
                (startProcessing_settle st1 response t1) Hall)
      as (Hp' & Hc' & _).
    split; [congruence |].
    apply sendMessage_rejected. left. congruence.
  - intros r rendered tickerSymbol response now Hnot.
    assert (Hkeep : forall s : ProcessingStatus,
              ProcessingStatus.phase s <> Complete ->
              currentPhase (updateProcessingStatus st s) = currentPhase st).
    { intros s Hs. rewrite updateProcessingStatus_incomplete by exact Hs.
      destruct st; reflexivity. }
    unfold fetchStatus. destruct response as [data | message |].
    + destruct (decide (ProcessingStatus.phase (StatusResponse.status data)
                        = Complete)) as [Hdone | Hgoing].
      * rewrite bool_decide_eq_true_2 by exact Hdone. simpl. intros _.
        eexists _, _. rewrite completeProcessing_records. simpl.
        split; [reflexivity |]. split; [exact Hdone |].
        destruct (updateProcessingStatus st (StatusResponse.status data)).
        split; reflexivity.
      * rewrite bool_decide_eq_false_2 by exact Hgoing.
        destruct (bool_decide _); simpl; rewrite Hkeep by exact Hgoing;
          intros Hchat; contradiction.
    + simpl. destruct rendered as [ps |]; [rewrite Hkeep by discriminate |];
        intros Hchat; contradiction.
    + simpl. destruct rendered as [ps |]; [rewrite Hkeep by discriminate |];
        intros Hchat; contradiction.
Qed.

(** Witness for C2: AAPL was submitted and is being scraped (3 of 10
    documents); a question sent now adds no message. *)
Lemma C2_witness_query_during_processing :
  currentPhase initialState = Input
  /\ Forall (fun s => ProcessingStatus.phase s <> Complete)
       [scrapingAAPL 10 3]
  /\ sendMessage (applyUpdates submittedAAPL [scrapingAAPL 10 3])
       "What was revenue last year?" 9000
     = applyUpdates submittedAAPL [scrapingAAPL 10 3].
Proof.
  assert (Hin : currentPhase initialState = Input) by reflexivity.
  assert (Hall : Forall (fun s => ProcessingStatus.phase s <> Complete)
                   [scrapingAAPL 10 3]).
  { constructor; [simpl; discriminate | constructor]. }
  split; [exact Hin |]. split; [exact Hall |].
  exact (proj2 (proj1 (proj2 (proj2 (proj2 (proj2
           (C2_chat_requires_completed_job initialState)))))
           requestAAPL 1000 (Resolved "job-1") 1200 [scrapingAAPL 10 3]
           "What was revenue last year?" 9000 Hin Hall)).
Defined.

(** ** C3 and C4: the store mirrors the reported status *)

Lemma observedStatuses_mirror (updates : list ProcessingStatus) :
  forall st : AppState, observedStatuses st updates = map Some updates.
Proof.
  induction updates as [| s rest IH]; intros st; simpl.
  - reflexivity.
  - rewrite updateProcessingStatus_records, IH. reflexivity.
Qed.

Lemma observedPhases_mirror (st : AppState) (updates : list ProcessingStatus) :
  observedPhases st updates = map ProcessingStatus.phase updates.
Proof.
  unfold observedPhases. rewrite observedStatuses_mirror.
  induction updates as [| s rest IH]; simpl; [reflexivity |].
  f_equal. exact IH.
Qed.

(** C3, counterexample: on the submitted AAPL job (recorded phase scraping)
    the updates parsing, scraping are both recorded as given, so the second
    snapshot reports a phase earlier than the first; and a single update
    vectorizing is recorded right after scraping, skipping two phases. *)
Lemma C3_counterexample_phase_regression :
  (ProcessingStatus.phase <$> processingStatus submittedAAPL) = Some Scraping
  /\ observedPhases submittedAAPL [parsingAAPL 10 3; scrapingAAPL 10 3]
     = [Parsing; Scraping]
  /\ forwardOnly
       (Scraping
        :: observedPhases submittedAAPL [parsingAAPL 10 3; scrapingAAPL 10 3])
     = false
  /\ observedPhases submittedAAPL [vectorizingAAPL 100 5] = [Vectorizing]
  /\ forwardStep Scraping Vectorizing = false.
Proof. repeat split; vm_compute; reflexivity. Qed.

(** C3, amended: the store records every reported status as it is given.
    After each [updateProcessingStatus] (and after a [fetchStatus] whose
    request succeeded) the observed snapshot is exactly the supplied status,
    so the observed phases are the supplied phases in the supplied order:
    they move forward without skipping exactly when the reports of the
    backend do.  The store does not enforce the order. *)
Theorem C3_observed_phases_are_the_reported_phases :
  forall (st : AppState) (updates : list ProcessingStatus),
    observedStatuses st updates = map Some updates
    /\ observedPhases st updates = map ProcessingStatus.phase updates
    /\ forwardOnly (observedPhases st updates)
       = forwardOnly (map ProcessingStatus.phase updates)
    /\ (forall (r : Refs) (rendered : option ProcessingStatus)
               (tickerSymbol : string) (data : StatusResponse) (now : Date),
          processingStatus
            (store (fetchStatus st r rendered tickerSymbol (Resolved data) now))
          = Some (StatusResponse.status data)).
Proof.
  intros st updates.
  split; [apply observedStatuses_mirror |].
  split; [apply observedPhases_mirror |].
  split; [rewrite observedPhases_mirror; reflexivity |].
  intros; apply fetchStatus_resolved_records.
Qed.

(** C4, counterexample: a report with 5 documents processed out of 3 found
    (and one with 7 chunks vectorized out of 4 created) is recorded as given,
    and the observed snapshot breaks the inequalities. *)
Lemma C4_counterexample_counters_recorded_as_given :
  processingStatus (updateProcessingStatus submittedAAPL (scrapingAAPL 3 5))
  = Some (scrapingAAPL 3 5)
  /\ snapshotConsistent
       (updateProcessingStatus submittedAAPL (scrapingAAPL 3 5)) = false
  /\ snapshotConsistent
       (updateProcessingStatus submittedAAPL (vectorizingAAPL 4 7)) = false
  /\ snapshotConsistent
       (store (fetchStatus submittedAAPL (mkRefs (Some 1%nat) true {[1%nat]})
                 (processingStatus submittedAAPL) "AAPL"
                 (Resolved (StatusResponse.mk (scrapingAAPL 3 5) None None))
                 2000))
     = false.
Proof. repeat split; vm_compute; reflexivity. Qed.

(** C4, amended: the snapshot written by [startProcessing] has all four
    counters at 0 and satisfies both inequalities; [updateProcessingStatus]
    and a successful [fetchStatus] record the reported counters unchanged, so
    the observed snapshot satisfies the inequalities exactly when the report
    does; the statuses the client writes by itself (error and cancellation)
    keep the counters they had. *)
Theorem C4_counters_recorded_as_reported :
  forall (st : AppState) (status : ProcessingStatus),
    snapshotConsistent (updateProcessingStatus st status)
    = countersConsistent status
    /\ (forall (r : Refs) (rendered : option ProcessingStatus)
               (tickerSymbol : string) (companyName : option string)
               (timeRangeProcessed : option Z) (now : Date),
          snapshotConsistent
            (store (fetchStatus st r rendered tickerSymbol
                      (Resolved (StatusResponse.mk status companyName
                                   timeRangeProcessed)) now))
          = countersConsistent status)
    /\ (forall (request : CompanyProcessingRequest) (t0 : Date)
               (st1 : AppState),
          startProcessing_begin st request t0 = Some st1 ->
          snapshotConsistent st1 = true)
    /\ (forall reason : string,
          countersConsistent (ProcessingStatus.withError status reason)
          = countersConsistent status)
    /\ (forall (error : string) (details : option string) (now : Date),
          snapshotConsistent (failProcessing st error details now)
          = snapshotConsistent st).
Proof.
  intros st status. unfold snapshotConsistent.
  split; [rewrite updateProcessingStatus_records; reflexivity |].
  split; [intros; rewrite fetchStatus_resolved_records; reflexivity |].
  split; [| split; [reflexivity |]].
  - intros request t0 st1. unfold startProcessing_begin.
    destruct (canTransitionTo st Processing); simpl; [| discriminate].
    intros [= <-]. destruct st; reflexivity.
  - intros error details now.
    destruct st as [? ? ? ? ? [ps |] ? ? ? ? ? ? ? ? ? ? ? ? ? ? ?];
      reflexivity.
Qed.

(** Witness for C4: the snapshot of the first accepted submission. *)
Lemma C4_witness_initial_snapshot :
  startProcessing_begin initialState requestAAPL 1000
  = Some (set initialState [
      FpreviousPhase (Some Input); FcurrentPhase Processing;
      FselectedTicker "AAPL"; FselectedTimeRange Years3;
      FprocessingStartTime (Some 1000); FprocessingEndTime None;
      FprocessingJobId None; FworkflowError None;
      FprocessingStatus (Some (ProcessingStatus.mk "AAPL" Scraping 0 0 0 0 0
                                 None None 1000 None));
      FprocessingProgress (Some (ProcessingProgress.mk Scraping 0
                                   "Initializing document scraping..." None
                                   0 0 0 0));
      Fmessages []; FcompanyContext None; FchatEnabled false])
  /\ snapshotConsistent
       (set initialState [
          FpreviousPhase (Some Input); FcurrentPhase Processing;
          FselectedTicker "AAPL"; FselectedTimeRange Years3;
          FprocessingStartTime (Some 1000); FprocessingEndTime None;
          FprocessingJobId None; FworkflowError None;
          FprocessingStatus (Some (ProcessingStatus.mk "AAPL" Scraping 0 0 0 0
                                     0 None None 1000 None));
          FprocessingProgress (Some (ProcessingProgress.mk Scraping 0
                                       "Initializing document scraping..."
                                       None 0 0 0 0));
          Fmessages []; FcompanyContext None; FchatEnabled false])
     = true.
Proof.
  split; [reflexivity |].
  apply (proj1 (proj2 (proj2
           (C4_counters_recorded_as_reported initialState
              (scrapingAAPL 10 3))))
         requestAAPL 1000).
  reflexivity.
Defined.

(** ** C5: cancellation *)

(** The refs stay well formed: the hook never holds more than the one
    interval it started last. *)
Lemma stopPolling_wellFormed (r : Refs) :
  wellFormedRefs r -> liveIntervals (stopPolling r) = ∅.
Proof.
  unfold wellFormedRefs, stopPolling. simpl. intros ->.
  destruct (intervalRef r); [apply difference_diag_L | reflexivity].
Qed.

Lemma fetchStatus_wellFormed (st : AppState) (r : Refs)
    (rendered : option ProcessingStatus) (tickerSymbol : string)
    (response : ApiResult StatusResponse) (now : Date) :
  wellFormedRefs r ->
  wellFormedRefs (refs (fetchStatus st r rendered tickerSymbol response now)).
Proof.
  intros Hwf. unfold fetchStatus.
  destruct response as [data | message |]; simpl;
    repeat (destruct (bool_decide _); simpl);
    try exact Hwf;
    unfold wellFormedRefs; simpl; apply stopPolling_wellFormed, Hwf.
Qed.

Lemma startPolling_wellFormed (st : AppState) (r : Refs) (enabled : bool)
    (rendered : option ProcessingStatus) (tickerSymbol : string)
    (timer : nat) (response : ApiResult StatusResponse) (now : Date) :
  wellFormedRefs r ->
  (isPollingRef r = false -> intervalRef r = None) ->
  wellFormedRefs
    (refs (startPolling st r enabled rendered tickerSymbol timer response
             now)).
Proof.
  intros Hwf Hidle. unfold startPolling.
  destruct (isPollingRef r) eqn:Hpolling; simpl; [exact Hwf |].
  destruct enabled; simpl; [| exact Hwf].
  apply fetchStatus_wellFormed. unfold wellFormedRefs in *. simpl.
  rewrite Hwf, (Hidle eq_refl). apply (left_id_L ∅ (∪)).
Qed.

(** C5: when the cancel request succeeds for a job whose status the hook
    holds (in particular every job in progress), the recorded status becomes
    that status with the terminal phase error and the reason "Processing
    cancelled by user", which differs from the reasons written on a failed
    status fetch and on a failed start; the interval timer is cleared, both
    refs are reset (no interval of the hook stays alive), and the polling
    guard is off for the new status. *)
Theorem C5_cancel_ends_job_with_cancellation_reason :
  forall (st : AppState) (r : Refs) (ps : ProcessingStatus)
         (tickerSymbol : string),
    let o := cancelProcessing st r (Some ps) tickerSymbol (Resolved tt) in
    processingStatus (store o)
    = Some (ProcessingStatus.withError ps cancellationReason)
    /\ (ProcessingStatus.phase <$> processingStatus (store o)) = Some Error
    /\ (ProcessingStatus.error <$> processingStatus (store o))
       = Some (Some "Processing cancelled by user")
    /\ cancellationReason <> fetchFailureReason
    /\ cancellationReason <> "Failed to start processing"
    /\ intervalRef (refs o) = None
    /\ isPollingRef (refs o) = false
    /\ (forall i : nat, intervalRef r = Some i -> i ∉ liveIntervals (refs o))
    /\ (wellFormedRefs r -> liveIntervals (refs o) = ∅)
    /\ (forall (ticker : option string) (enabled : bool),
          shouldPoll ticker enabled (processingStatus (store o)) = false)
    /\ issued o = [PostCompanyCancel tickerSymbol]
    /\ settled o = Some tt.
Proof.
  intros st r ps tickerSymbol o. subst o. simpl.
  rewrite updateProcessingStatus_records. simpl.
  repeat split; try done.
  - intros i Hi. rewrite Hi. intros [_ Hout]%elem_of_difference.
    apply Hout, elem_of_singleton. reflexivity.
  - unfold wellFormedRefs. intros ->.
    destruct (intervalRef r) as [i |]; [| reflexivity].
    apply difference_diag_L.
  - intros [t |] enabled; simpl; [| reflexivity].
    rewrite !andb_false_r. reflexivity.
Qed.

(** Witness for C5: the hook polls with timer 7 while AAPL is being parsed;
    after the cancel request succeeded no timer is alive. *)
Lemma C5_witness_cancel_while_parsing :
  wellFormedRefs (mkRefs (Some 7%nat) true {[7%nat]})
  /\ liveIntervals
       (refs (cancelProcessing
                (updateProcessingStatus submittedAAPL (parsingAAPL 10 3))
                (mkRefs (Some 7%nat) true {[7%nat]})
                (Some (parsingAAPL 10 3)) "AAPL" (Resolved tt)))
     = ∅
  /\ (ProcessingStatus.error
       <$> processingStatus
             (store (cancelProcessing
                       (updateProcessingStatus submittedAAPL
                          (parsingAAPL 10 3))
                       (mkRefs (Some 7%nat) true {[7%nat]})
                       (Some (parsingAAPL 10 3)) "AAPL" (Resolved tt))))
     = Some (Some "Processing cancelled by user").
Proof.
  assert (Hwf : wellFormedRefs (mkRefs (Some 7%nat) true {[7%nat]}))
    by reflexivity.
  pose proof (C5_cancel_ends_job_with_cancellation_reason
                (updateProcessingStatus submittedAAPL (parsingAAPL 10 3))
                (mkRefs (Some 7%nat) true {[7%nat]})
                (parsingAAPL 10 3) "AAPL")
    as (_ & _ & Herror & _ & _ & _ & _ & _ & Hlive & _).
  split; [exact Hwf |]. split; [exact (Hlive Hwf) | exact Herror].
Defined.

(** ** The reply of [sendMessage] *)

(** With chat enabled and a company context, [sendMessage] appends the
    user's message and then one assistant message, the fixed placeholder
    text with an empty list of citations, and clears the typing flag.  The
    call of the chat API is not written yet: the store retrieves nothing and
    calls no backend. *)
Lemma sendMessage_placeholder_reply (st : AppState) (message : string)
    (now : Date) :
  chatEnabled st = true ->
  is_Some (companyContext st) ->
  messages (sendMessage st message now)
  = (messages st
     ++ [Message.mk (pretty now) message User now None None;
         Message.mk (pretty (now + 1)) placeholderResponse Assistant now
           (Some []) None])%list
  /\ reply st message now
     = Some (Message.mk (pretty (now + 1)) placeholderResponse Assistant now
               (Some []) None)
  /\ (citationCount <$> reply st message now) = Some 0%nat
  /\ isTyping (sendMessage st message now) = false.
Proof.
  intros Hon Hctx.
  assert (Hmsgs :
    messages (sendMessage st message now)
    = (messages st
       ++ [Message.mk (pretty now) message User now None None;
           Message.mk (pretty (now + 1)) placeholderResponse Assistant now
             (Some []) None])%list).
  { unfold sendMessage. rewrite Hon.
    rewrite bool_decide_eq_true_2 by exact Hctx.
    destruct st; simpl. rewrite <- app_assoc. reflexivity. }
  split; [exact Hmsgs |].
  assert (Hreply :
    reply st message now
    = Some (Message.mk (pretty (now + 1)) placeholderResponse Assistant now
              (Some []) None)).
  { unfold reply. rewrite Hmsgs.
    rewrite cons_middle, app_assoc. apply last_snoc. }
  split; [exact Hreply |]. split; [rewrite Hreply; reflexivity |].
  unfold sendMessage. rewrite Hon.
  rewrite bool_decide_eq_true_2 by exact Hctx.
  destruct st; reflexivity.
Qed.

(** ** C9: frame of [resetWorkflow] *)

(** C9: [resetWorkflow] puts the workflow, processing and chat keys it lists
    and [processedCompanies] back to their initial values and leaves
    [selectedCompanies], [companyCache], [sidebarOpen], [citationPanelOpen]
    and [currentCitation] (and the typing flag) as they were. *)
Theorem C9_resetWorkflow_frame :
  forall st : AppState,
    let st' := resetWorkflow st in
    currentPhase st' = Input
    /\ previousPhase st' = None
    /\ selectedTicker st' = ""
    /\ selectedTimeRange st' = Years3
    /\ processingStatus st' = None
    /\ processingProgress st' = None
    /\ processingJobId st' = None
    /\ processingStartTime st' = None
    /\ processingEndTime st' = None
    /\ messages st' = []
    /\ companyContext st' = None
    /\ currentSession st' = ""
    /\ chatEnabled st' = false
    /\ workflowError st' = None
    /\ processedCompanies st' = ∅
    /\ selectedCompanies st' = selectedCompanies st
    /\ companyCache st' = companyCache st
    /\ sidebarOpen st' = sidebarOpen st
    /\ citationPanelOpen st' = citationPanelOpen st
    /\ currentCitation st' = currentCitation st
    /\ isTyping st' = isTyping st
    /\ st' = {|
         currentPhase := Input;
         previousPhase := None;
         selectedTicker := "";
         selectedTimeRange := Years3;
         workflowError := None;
         processingStatus := None;
         processingProgress := None;
         processingJobId := None;
         processingStartTime := None;
         processingEndTime := None;
         messages := [];
         currentSession := "";
         isTyping := isTyping st;
         companyContext := None;
         chatEnabled := false;
         selectedCompanies := selectedCompanies st;
         companyCache := companyCache st;
         processedCompanies := ∅;
         sidebarOpen := sidebarOpen st;
         citationPanelOpen := citationPanelOpen st;
         currentCitation := currentCitation st
       |}.
Proof. intros st. destruct st. simpl. repeat split. Qed.

(** ** C7: progress from counters *)

Lemma counterRatio_bounds (num den : Z) :
  0 <= num <= den -> (0 <= counterRatio num den <= 1)%Q.
Proof.
  intros [Hnum Hden]. unfold counterRatio.
  destruct (Z.ltb_spec 0 den) as [Hpos | Hle].
  - assert (Hq : (0 < inject_Z den)%Q)
      by (change 0%Q with (inject_Z 0); rewrite <- Zlt_Qlt; exact Hpos).
    split.
    + apply Qle_shift_div_l; [exact Hq |]. rewrite Qmult_0_l.
      change 0%Q with (inject_Z 0). rewrite <- Zle_Qle. exact Hnum.
    + apply Qle_shift_div_r; [exact Hq |]. rewrite Qmult_1_l.
      rewrite <- Zle_Qle. exact Hden.
  - split; lra.
Qed.

Lemma ratio_nonneg (num den : Z) :
  0 <= num -> 0 < den -> (0 <= inject_Z num / inject_Z den)%Q.
Proof.
  intros Hnum Hden.
  apply Qle_shift_div_l.
  - change 0%Q with (inject_Z 0). rewrite <- Zlt_Qlt. exact Hden.
  - rewrite Qmult_0_l. change 0%Q with (inject_Z 0). rewrite <- Zle_Qle.
    exact Hnum.
Qed.

Lemma counterRatio_nonneg (num den : Z) :
  0 <= num -> (0 <= counterRatio num den)%Q.
Proof.
  intros Hnum. unfold counterRatio.
  destruct (Z.ltb_spec 0 den) as [Hpos | _]; [| lra].
  apply ratio_nonneg; assumption.
Qed.

Lemma counterRatio_no_denominator (num den : Z) :
  den <= 0 -> counterRatio num den = 0%Q.
Proof.
  intros Hden. unfold counterRatio.
  destruct (Z.ltb_spec 0 den) as [Hpos | _]; [lia | reflexivity].
Qed.

Lemma counterRatio_nothing_done (den : Z) : (counterRatio 0 den == 0)%Q.
Proof.
  unfold counterRatio. destruct (Z.ltb 0 den); [| reflexivity].
  unfold Qdiv. rewrite Qmult_0_l. reflexivity.
Qed.

Lemma counterRatio_all_done (den : Z) :
  0 < den -> (counterRatio den den == 1)%Q.
Proof.
  intros Hden. unfold counterRatio.
  destruct (Z.ltb_spec 0 den) as [_ | Hle]; [| lia].
  assert (Hq : (0 < inject_Z den)%Q)
    by (change 0%Q with (inject_Z 0); rewrite <- Zlt_Qlt; exact Hden).
  field. intros H0. rewrite H0 in Hq. lra.
Qed.

(** The ratios are ordered as the fractions are: by cross multiplication. *)
Lemma counterRatio_le (num den num' den' : Z) :
  0 < den -> 0 < den' -> num * den' <= num' * den ->
  (counterRatio num den <= counterRatio num' den')%Q.
Proof.
  intros Hden Hden' Hcross. unfold counterRatio.
  destruct (Z.ltb_spec 0 den) as [_ | Hle]; [| lia].
  destruct (Z.ltb_spec 0 den') as [_ | Hle]; [| lia].
  assert (Hq : (0 < inject_Z den)%Q)
    by (change 0%Q with (inject_Z 0); rewrite <- Zlt_Qlt; exact Hden).
  assert (Hq' : (0 < inject_Z den')%Q)
    by (change 0%Q with (inject_Z 0); rewrite <- Zlt_Qlt; exact Hden').
  apply Qle_shift_div_r; [exact Hq |].
  assert (Hre : (inject_Z num' / inject_Z den' * inject_Z den
                 == inject_Z num' * inject_Z den / inject_Z den')%Q).
  { field. intros H0. rewrite H0 in Hq'. lra. }
  rewrite Hre. apply Qle_shift_div_l; [exact Hq' |].
  rewrite <- !inject_Z_mult, <- Zle_Qle. exact Hcross.
Qed.

Lemma counterRatio_pos (num den : Z) :
  0 < den -> ((0 < counterRatio num den)%Q <-> 0 < num).
Proof.
  intros Hden. unfold counterRatio.
  destruct (Z.ltb_spec 0 den) as [_ | Hle]; [| lia].
  assert (Hq : (0 < inject_Z den)%Q)
    by (change 0%Q with (inject_Z 0); rewrite <- Zlt_Qlt; exact Hden).
  split.
  - intros Hpos. destruct (Z.lt_ge_cases 0 num) as [Hnum | Hnum];
      [exact Hnum | exfalso].
    assert (Hle : (inject_Z num / inject_Z den <= 0)%Q).
    { apply Qle_shift_div_r; [exact Hq |]. rewrite Qmult_0_l.
      change 0%Q with (inject_Z 0). rewrite <- Zle_Qle. exact Hnum. }
    lra.
  - intros Hnum. apply Qlt_shift_div_l; [exact Hq |]. rewrite Qmult_0_l.
    change 0%Q with (inject_Z 0). rewrite <- Zlt_Qlt. exact Hnum.
Qed.

(** The value of [getPhaseProgress] in each phase, before the cap. *)
Lemma getPhaseProgress_cases (s : ProcessingStatus) :
  let found := ProcessingStatus.documentsFound s in
  let processed := ProcessingStatus.documentsProcessed s in
  let created := ProcessingStatus.chunksCreated s in
  let vectorized := ProcessingStatus.chunksVectorized s in
  match ProcessingStatus.phase s with
  | Scraping =>
      (getPhaseProgress s
       == Qmin (0 + 25 * counterRatio processed found) 100)%Q
  | Parsing =>
      (getPhaseProgress s
       == Qmin (25 + 25 * counterRatio processed found) 100)%Q
  | Chunking =>
      (getPhaseProgress s
       == Qmin (50 + 25 * counterRatio created (processed * 10)) 100)%Q
  | Vectorizing =>
      (getPhaseProgress s
       == Qmin (75 + 25 * counterRatio vectorized created) 100)%Q
  | Complete | Error => getPhaseProgress s = 0%Q
  end.
Proof.
  assert (Hfold : forall num den : Z,
    ((if Z.ltb 0 den
      then inject_Z num / inject_Z den * (100 / stepCount)
      else 0)
     == 25 * counterRatio num den)%Q).
  { intros num den. unfold counterRatio. destruct (Z.ltb 0 den).
    - assert (Hshare : (100 / stepCount == 25)%Q) by reflexivity.
      rewrite Hshare. ring.
    - ring. }
  assert (Hchunk : forall processed : Z,
            Z.ltb 0 (processed * 10) = Z.ltb 0 processed).
  { intros processed.
    destruct (Z.ltb_spec 0 processed), (Z.ltb_spec 0 (processed * 10));
      try reflexivity; lia. }
  cbv zeta. unfold getPhaseProgress, getCurrentStepIndex.
  destruct (ProcessingStatus.phase s);
    cbn [findIndex findIndexFrom PHASE_STEPS key bool_decide]; simpl;
    try reflexivity.
  - rewrite Hfold. apply Q.min_compat; [| reflexivity].
    apply Qplus_comp; reflexivity.
  - rewrite Hfold. apply Q.min_compat; [| reflexivity].
    apply Qplus_comp; reflexivity.
  - rewrite <- Hchunk, Hfold. apply Q.min_compat; [| reflexivity].
    apply Qplus_comp; reflexivity.
  - rewrite Hfold. apply Q.min_compat; [| reflexivity].
    apply Qplus_comp; reflexivity.
Qed.

Lemma getPhaseProgress_ratio (s : ProcessingStatus) (num den : Z) :
  phaseCounters s = Some (num, den) ->
  (getPhaseProgress s
   == Qmin (phaseBase (ProcessingStatus.phase s) + 25 * counterRatio num den)
        100)%Q.
Proof.
  intros Hc. pose proof (getPhaseProgress_cases s) as Hcases.
  cbv zeta in Hcases. unfold phaseCounters in Hc.
  destruct (ProcessingStatus.phase s); try discriminate Hc;
    injection Hc as <- <-; exact Hcases.
Qed.

Lemma phaseBase_bounds (phase : ProcessingPhase) :
  (0 <= phaseBase phase <= 75)%Q.
Proof. destruct phase; split; vm_compute; discriminate. Qed.

Lemma getPhaseProgress_sameCounters (s s' : ProcessingStatus) :
  sameCounters s s' -> getPhaseProgress s' = getPhaseProgress s.
Proof.
  intros (Hphase & Hfound & Hprocessed & Hcreated & Hvectorized).
  unfold getPhaseProgress, getCurrentStepIndex.
  rewrite Hphase, Hfound, Hprocessed, Hcreated, Hvectorized. reflexivity.
Qed.

(** C7, counterexample: while scraping with 1 document processed out of 2
    found, [getPhaseProgress] is 12.5, neither the ratio 1/2 nor 50 percent;
    while parsing with no document found it is 25, not 0. *)
Lemma C7_counterexample_progress_is_not_the_ratio :
  (getPhaseProgress (scrapingAAPL 2 1) == 25 # 2)%Q
  /\ ~ (getPhaseProgress (scrapingAAPL 2 1) == 1 # 2)%Q
  /\ ~ (getPhaseProgress (scrapingAAPL 2 1) == 50)%Q
  /\ (getPhaseProgress (parsingAAPL 0 0) == 25)%Q
  /\ ~ (getPhaseProgress (parsingAAPL 0 0) == 0)%Q.
Proof.
  repeat split; try (vm_compute; reflexivity);
    intros H; vm_compute in H; discriminate H.
Qed.

(** C7, amended: [getPhaseProgress], the value the progress bar shows until
    the job is complete, reads nothing but the phase and the four counters
    (no clock).  It is not the ratio of the counters but follows it inside
    the quarter of the scale that belongs to the phase, which starts at the
    base 0 while scraping, 25 while parsing and 75 while vectorizing.  For
    every snapshot of these phases, with documentsProcessed over
    documentsFound (chunksVectorized over chunksCreated while vectorizing)
    as numerator and denominator: the value is the base when the denominator
    is not positive or the numerator is 0, the base plus 25 when numerator
    and denominator are equal, between the two when the counters are in
    range, and of two snapshots of one phase the one with the larger
    fraction never shows less. *)
Theorem C7_progress_follows_the_counter_ratio :
  forall (s : ProcessingStatus) (num den : Z),
    phaseCounters s = Some (num, den) ->
    (forall s' : ProcessingStatus,
       sameCounters s s' -> getPhaseProgress s' = getPhaseProgress s)
    /\ displayedProgress s = getPhaseProgress s
    /\ (den <= 0 ->
        (getPhaseProgress s == phaseBase (ProcessingStatus.phase s))%Q)
    /\ (0 < den -> num = 0 ->
        (getPhaseProgress s == phaseBase (ProcessingStatus.phase s))%Q)
    /\ (0 < den -> num = den ->
        (getPhaseProgress s == phaseBase (ProcessingStatus.phase s) + 25)%Q)
    /\ (0 <= num <= den ->
        (phaseBase (ProcessingStatus.phase s) <= getPhaseProgress s
         <= phaseBase (ProcessingStatus.phase s) + 25)%Q)
    /\ (forall (s' : ProcessingStatus) (num' den' : Z),
          ProcessingStatus.phase s' = ProcessingStatus.phase s ->
          phaseCounters s' = Some (num', den') ->
          0 < den -> 0 < den' ->
          num * den' <= num' * den ->
          (getPhaseProgress s <= getPhaseProgress s')%Q).
Proof.
  intros s num den Hc.
  pose proof (getPhaseProgress_ratio s num den Hc) as Hg.
  pose proof (phaseBase_bounds (ProcessingStatus.phase s)) as [Hb0 Hb1].
  split; [apply getPhaseProgress_sameCounters |].
  split.
  { unfold displayedProgress. rewrite bool_decide_eq_false_2; [reflexivity |].
    intros Hcomplete. unfold phaseCounters in Hc. rewrite Hcomplete in Hc.
    discriminate Hc. }
  split.
  { intros Hden. rewrite Hg, (counterRatio_no_denominator num den Hden).
    rewrite Q.min_l by lra. ring. }
  split.
  { intros _ ->. rewrite Hg, counterRatio_nothing_done.
    rewrite Q.min_l by lra. ring. }
  split.
  { intros Hden ->. rewrite Hg, (counterRatio_all_done den Hden).
    rewrite Q.min_l by lra. ring. }
  split.
  { intros Hcount.
    pose proof (counterRatio_bounds num den Hcount) as [Hr0 Hr1].
    rewrite Hg. rewrite Q.min_l by lra. lra. }
  intros s' num' den' Hphase Hc' Hden Hden' Hcross.
  rewrite Hg, (getPhaseProgress_ratio s' num' den' Hc'), Hphase.
  apply Q.min_le_compat_r.
  pose proof (counterRatio_le num den num' den' Hden Hden' Hcross). lra.
Qed.

(** Witness for C7: parsing with 3 of 10 documents processed lies in the
    second quarter of the scale. *)
Lemma C7_witness_parsing_three_of_ten :
  phaseCounters (parsingAAPL 10 3) = Some (3, 10)
  /\ 0 <= 3 <= 10
  /\ (25 <= getPhaseProgress (parsingAAPL 10 3) <= 50)%Q.
Proof.
  assert (Hc : phaseCounters (parsingAAPL 10 3) = Some (3, 10))
    by reflexivity.
  assert (Hcount : 0 <= 3 <= 10) by lia.
  split; [exact Hc |]. split; [exact Hcount |].
  exact (proj1 (proj2 (proj2 (proj2 (proj2 (proj2
           (C7_progress_follows_the_counter_ratio (parsingAAPL 10 3) 3 10
              Hc)))))) Hcount).
Defined.

(** ** C8: the estimate of the remaining time *)

Lemma Qltb_lt (x y : Q) : Qltb x y = true <-> (x < y)%Q.
Proof.
  unfold Qltb. rewrite negb_true_iff. split.
  - intros Hb. apply Qnot_le_lt. intros Hle.
    apply Qle_bool_iff in Hle. congruence.
  - intros Hlt. destruct (Qle_bool y x) eqn:Hb; [| reflexivity].
    apply Qle_bool_iff in Hb. exfalso. exact (Qlt_not_le _ _ Hlt Hb).
Qed.

Lemma estimateFromRate_some (s : ProcessingStatus) (p : PanelState) (e : Q) :
  estimateFromRate s p = Some e <->
  30 < elapsedTime p
  /\ (0 < processingRate p)%Q
  /\ (0 < getPhaseProgress s)%Q
  /\ (getPhaseProgress s < 100)%Q
  /\ e = Qmax ((100 - getPhaseProgress s) / getPhaseProgress s
               * inject_Z (elapsedTime p)) 0.
Proof.
  unfold estimateFromRate.
  destruct (Qltb 0 (processingRate p)) eqn:Hrate;
    destruct (Z.ltb_spec 30 (elapsedTime p)) as [Hel | Hel];
    destruct (Qltb 0 (getPhaseProgress s)) eqn:Hlo;
    destruct (Qltb (getPhaseProgress s) 100) eqn:Hhi; simpl;
    try apply Qltb_lt in Hrate; try apply Qltb_lt in Hlo;
    try apply Qltb_lt in Hhi;
    (split; [intros [= <-] | intros (H1 & H2 & H3 & H4 & ->)]);
    try (repeat split; assumption || reflexivity);
    exfalso;
    try lia;
    try (apply Qltb_lt in H2; congruence);
    try (apply Qltb_lt in H3; congruence);
    try (apply Qltb_lt in H4; congruence).
Qed.

Lemma updateProcessingStatus_estimate (st : AppState) (s : ProcessingStatus)
    (e : option Q) :
  sameDecisions (updateProcessingStatus st s)
    (updateProcessingStatus st (ProcessingStatus.withEstimate s e)).
Proof.
  unfold sameDecisions, updateProcessingStatus, transitionToPhase,
    setWorkflowPhase, canTransitionTo.
  destruct st, s as [? ph ? ? ? ? ? ? ? ? ?]. simpl.
  destruct ph, companyContext0, currentPhase0; simpl;
    repeat split; try reflexivity; intros []; reflexivity.
Qed.

Lemma fetchStatus_estimate (st : AppState) (r : Refs)
    (rendered : option ProcessingStatus) (tickerSymbol : string)
    (s : ProcessingStatus) (companyName : option string)
    (timeRangeProcessed : option Z) (now : Date) (e : option Q) :
  let o := fetchStatus st r rendered tickerSymbol
             (Resolved (StatusResponse.mk s companyName timeRangeProcessed))
             now in
  let o' := fetchStatus st r rendered tickerSymbol
              (Resolved (StatusResponse.mk (ProcessingStatus.withEstimate s e)
                           companyName timeRangeProcessed)) now in
  refs o = refs o'
  /\ issued o = issued o'
  /\ currentPhase (store o) = currentPhase (store o')
  /\ chatEnabled (store o) = chatEnabled (store o').
Proof.
  unfold fetchStatus, updateProcessingStatus, transitionToPhase,
    setWorkflowPhase, canTransitionTo.
  destruct st, s as [? ph ? ? ? ? ? ? ? ? ?]. simpl.
  destruct ph, companyContext0, currentPhase0; simpl; repeat split.
Qed.

(** The processing rate only gates the estimate. *)
Lemma estimateFromRate_any_positive_rate (s : ProcessingStatus)
    (p p' : PanelState) :
  elapsedTime p' = elapsedTime p ->
  (0 < processingRate p)%Q ->
  (0 < processingRate p')%Q ->
  estimateFromRate s p' = estimateFromRate s p.
Proof.
  intros Hel Hrate Hrate'. unfold estimateFromRate.
  apply Qltb_lt in Hrate. apply Qltb_lt in Hrate'.
  rewrite Hrate, Hrate', Hel. reflexivity.
Qed.

Lemma estimateFromRate_no_rate (s : ProcessingStatus) (p : PanelState) :
  (processingRate p <= 0)%Q -> estimateFromRate s p = None.
Proof.
  intros Hrate. destruct (estimateFromRate s p) as [e |] eqn:He;
    [| reflexivity].
  apply estimateFromRate_some in He as (_ & Hpos & _). lra.
Qed.

(** The sign of the rate the tick computes is the sign of the number of
    items. *)
Lemma rate_sign (items elapsed : Z) :
  0 < elapsed ->
  ((0 < inject_Z items / inject_Z elapsed * 60)%Q <-> 0 < items).
Proof.
  intros Hel.
  assert (Hq : (0 < inject_Z elapsed)%Q)
    by (change 0%Q with (inject_Z 0); rewrite <- Zlt_Qlt; exact Hel).
  split.
  - intros Hpos. destruct (Z.lt_ge_cases 0 items) as [Hitems | Hitems];
      [exact Hitems | exfalso].
    assert (Hle : (inject_Z items / inject_Z elapsed <= 0)%Q).
    { apply Qle_shift_div_r; [exact Hq |]. rewrite Qmult_0_l.
      change 0%Q with (inject_Z 0). rewrite <- Zle_Qle. exact Hitems. }
    lra.
  - intros Hitems.
    assert (Hlt : (0 < inject_Z items / inject_Z elapsed)%Q).
    { apply Qlt_shift_div_l; [exact Hq |]. rewrite Qmult_0_l.
      change 0%Q with (inject_Z 0). rewrite <- Zlt_Qlt. exact Hitems. }
    lra.
Qed.

(** C8, counterexample: the estimate is not computed from the observed item
    throughput.  The AAPL job started at 1000 is scraping with 2 of 4
    documents at 41000.  A panel whose last tick still saw 1 document has
    measured 1.5 items per minute, a panel that ticked again on the current
    status 3 items per minute; both have counted 40 seconds, and both show
    the same estimate, 280 seconds, for the current status. *)
Lemma C8_counterexample_estimate_ignores_the_item_rate :
  ProcessingStatus.estimatedTimeRemaining (scrapingAAPL 4 2) = None
  /\ elapsedTime slowPanel = 40
  /\ elapsedTime fastPanel = 40
  /\ (processingRate slowPanel == 3 # 2)%Q
  /\ (processingRate fastPanel == 3)%Q
  /\ (processingRate slowPanel < processingRate fastPanel)%Q
  /\ calculateEstimatedTimeRemaining (scrapingAAPL 4 2) slowPanel
     = calculateEstimatedTimeRemaining (scrapingAAPL 4 2) fastPanel
  /\ exists e : Q,
       calculateEstimatedTimeRemaining (scrapingAAPL 4 2) fastPanel = Some e
       /\ (e == 280)%Q.
Proof.
  split; [reflexivity |]. split; [reflexivity |]. split; [reflexivity |].
  split; [reflexivity |]. split; [reflexivity |]. split; [reflexivity |].
  split; [reflexivity |].
  eexists. split; reflexivity.
Qed.

(** C8, amended: without an estimate from the server,
    [calculateEstimatedTimeRemaining] gives an estimate only when more than
    30 seconds have elapsed, the processing rate is positive and the
    progress lies strictly between 0 and 100, and the estimate is then
    positive.  The estimate is computed from the progress and the elapsed
    time, not from the item throughput: the processing rate only gates it
    (none when the rate is not positive, the same estimate for any two
    positive rates), the status enters through the phase and the counters
    that [getPhaseProgress] reads, and at the same status a longer elapsed
    time never gives a smaller estimate.  The elapsed time is the number of
    whole seconds since [startedAt] taken by the one-second tick, and with
    counters that are not negative the rate of that tick is positive exactly
    when some item has been counted.
    The estimate plays no part in the decisions of the workflow: a status
    that differs only in its [estimatedTimeRemaining] leads to the same
    phase, the same open transitions, the same chat gate and the same
    polling decisions. *)
Theorem C8_estimate_is_advisory_and_progress_based :
  forall (s : ProcessingStatus) (p : PanelState),
    (ProcessingStatus.estimatedTimeRemaining s = None ->
     (forall e : Q,
        calculateEstimatedTimeRemaining s p = Some e ->
        30 < elapsedTime p
        /\ (0 < processingRate p)%Q
        /\ (0 < getPhaseProgress s)%Q
        /\ (getPhaseProgress s < 100)%Q
        /\ (0 < e)%Q)
     /\ (elapsedTime p <= 30 -> calculateEstimatedTimeRemaining s p = None)
     /\ ((processingRate p <= 0)%Q ->
         calculateEstimatedTimeRemaining s p = None)
     /\ (forall p' : PanelState,
           elapsedTime p' = elapsedTime p ->
           (0 < processingRate p)%Q ->
           (0 < processingRate p')%Q ->
           calculateEstimatedTimeRemaining s p'
           = calculateEstimatedTimeRemaining s p)
     /\ (forall s' : ProcessingStatus,
           ProcessingStatus.estimatedTimeRemaining s' = None ->
           sameCounters s s' ->
           calculateEstimatedTimeRemaining s' p
           = calculateEstimatedTimeRemaining s p)
     /\ (forall (p' : PanelState) (e e' : Q),
           calculateEstimatedTimeRemaining s p = Some e ->
           calculateEstimatedTimeRemaining s p' = Some e' ->
           elapsedTime p <= elapsedTime p' ->
           (e <= e')%Q))
    /\ (forall (now : Date) (before : PanelState),
          let items :=
            ProcessingStatus.documentsProcessed s
            + ProcessingStatus.chunksCreated s
            + ProcessingStatus.chunksVectorized s in
          let p' := tick s now before in
          elapsedTime p' = (now - ProcessingStatus.startedAt s) / 1000
          /\ (0 < elapsedTime p' ->
              0 <= ProcessingStatus.documentsProcessed s ->
              0 <= ProcessingStatus.chunksCreated s ->
              0 <= ProcessingStatus.chunksVectorized s ->
              ((0 < processingRate p')%Q <-> 0 < items)))
    /\ forall (st : AppState) (e : option Q),
         sameDecisions (updateProcessingStatus st s)
           (updateProcessingStatus st (ProcessingStatus.withEstimate s e))
         /\ (forall (ticker : option string) (enabled : bool),
               shouldPoll ticker enabled (Some s)
               = shouldPoll ticker enabled
                   (Some (ProcessingStatus.withEstimate s e)))
         /\ (forall (r : Refs) (rendered : option ProcessingStatus)
                    (tickerSymbol : string) (companyName : option string)
                    (timeRangeProcessed : option Z) (now : Date),
               let o := fetchStatus st r rendered tickerSymbol
                          (Resolved (StatusResponse.mk s companyName
                                       timeRangeProcessed)) now in
               let o' := fetchStatus st r rendered tickerSymbol
                           (Resolved (StatusResponse.mk
                                        (ProcessingStatus.withEstimate s e)
                                        companyName timeRangeProcessed))
                           now in
               refs o = refs o'
               /\ currentPhase (store o) = currentPhase (store o')
               /\ chatEnabled (store o) = chatEnabled (store o')).
Proof.
  intros s p. split.
  - intros Hnone. unfold calculateEstimatedTimeRemaining. rewrite Hnone.
    split; [| split; [| split; [| split; [| split]]]].
    + intros e He. apply estimateFromRate_some in He
        as (Hel & Hrate & Hlo & Hhi & ->).
      set (g := getPhaseProgress s) in *.
      set (t := inject_Z (elapsedTime p)).
      assert (Ht : (0 < t)%Q).
      { subst t. change 0%Q with (inject_Z 0). rewrite <- Zlt_Qlt. lia. }
      assert (Hpos : (0 < (100 - g) / g * t)%Q).
      { apply Qmult_lt_0_compat; [| exact Ht].
        apply Qlt_shift_div_l; [exact Hlo | lra]. }
      assert (Hmax : (Qmax ((100 - g) / g * t) 0 == (100 - g) / g * t)%Q)
        by (apply Q.max_l; apply Qlt_le_weak; exact Hpos).
      repeat split; try assumption.
      rewrite Hmax. exact Hpos.
    + intros Hel. destruct (estimateFromRate s p) as [e |] eqn:He;
        [| reflexivity].
      apply estimateFromRate_some in He as (Hgt & _). lia.
    + apply estimateFromRate_no_rate.
    + intros p' Hel Hrate Hrate'.
      apply estimateFromRate_any_positive_rate; assumption.
    + intros s' Hnone' Hsame. rewrite Hnone'.
      unfold estimateFromRate.
      rewrite (getPhaseProgress_sameCounters s s' Hsame). reflexivity.
    + intros p' e e' He He' Hel.
      apply estimateFromRate_some in He as (Ht & _ & Hlo & Hhi & ->).
      apply estimateFromRate_some in He' as (_ & _ & _ & _ & ->).
      set (g := getPhaseProgress s) in *.
      assert (Hratio : (0 <= (100 - g) / g)%Q).
      { apply Qle_shift_div_l; [exact Hlo | lra]. }
      apply Q.max_le_compat_r.
      rewrite (Qmult_comm _ (inject_Z (elapsedTime p))),
        (Qmult_comm _ (inject_Z (elapsedTime p'))).
      apply Qmult_le_compat_r; [| exact Hratio].
      rewrite <- Zle_Qle. exact Hel.
  - split.
    { intros now before items p'. subst items p'. unfold tick.
      destruct (Z.ltb_spec 0 ((now - ProcessingStatus.startedAt s) / 1000))
        as [Hpos | Hle]; simpl.
      - split; [reflexivity |]. intros _ _ _ _. apply rate_sign. exact Hpos.
      - split; [reflexivity |]. intros Hpos. lia. }
    intros st e. split; [apply updateProcessingStatus_estimate |]. split.
    + intros [t |] enabled; reflexivity.
    + intros r rendered tickerSymbol companyName timeRangeProcessed now o o'.
      destruct (fetchStatus_estimate st r rendered tickerSymbol s companyName
                  timeRangeProcessed now e) as (Hr & _ & Hp & Hc).
      auto.
Qed.

(** Witness for C8: scraping with 2 of 4 documents after 40 seconds at 3
    items per minute; the progress is 12.5 and an estimate is shown. *)
Lemma C8_witness_estimate_after_40_seconds :
  ProcessingStatus.estimatedTimeRemaining (scrapingAAPL 4 2) = None
  /\ calculateEstimatedTimeRemaining (scrapingAAPL 4 2) fastPanel
     = Some (14336000 # 51200)
  /\ 30 < elapsedTime fastPanel
  /\ (0 < getPhaseProgress (scrapingAAPL 4 2))%Q
  /\ (getPhaseProgress (scrapingAAPL 4 2) < 100)%Q.
Proof.
  assert (Hnone :
    ProcessingStatus.estimatedTimeRemaining (scrapingAAPL 4 2) = None)
    by reflexivity.
  assert (Hsome :
    calculateEstimatedTimeRemaining (scrapingAAPL 4 2) fastPanel
    = Some (14336000 # 51200)) by reflexivity.
  split; [exact Hnone |]. split; [exact Hsome |].
  destruct (proj1 (proj1 (C8_estimate_is_advisory_and_progress_based
                            (scrapingAAPL 4 2) fastPanel) Hnone)
              (14336000 # 51200) Hsome) as (Hel & _ & Hlo & Hhi & _).
  split; [exact Hel |]. split; [exact Hlo | exact Hhi].
Defined.

(** ** C10: selecting a company *)

Lemma isAlreadySelected_iff (l : list Company) (company : Company) :
  existsb (fun c => String.eqb (Company.ticker c) (Company.ticker company)) l
  = true
  <-> exists c, c ∈ l /\ Company.ticker c = Company.ticker company.
Proof.
  rewrite existsb_exists. split; intros (c & Hin & Heq); exists c.
  - split; [apply list_elem_of_In, Hin | apply String.eqb_eq, Heq].
  - split; [apply list_elem_of_In, Hin | apply String.eqb_eq, Heq].
Qed.

Lemma selectCompany_selected (st : AppState) (company : Company) :
  exists c, c ∈ selectedCompanies (selectCompany st company)
            /\ Company.ticker c = Company.ticker company.
Proof.
  unfold selectCompany.
  destruct (existsb _ (selectedCompanies st)) eqn:Hsel.
  - apply isAlreadySelected_iff, Hsel.
  - exists company. split; [| reflexivity].
    destruct st; simpl. apply elem_of_app. right. apply list_elem_of_singleton.
    reflexivity.
Qed.

Lemma selectCompany_NoDup (st : AppState) (company : Company) :
  NoDup (selectedTickers st) ->
  NoDup (selectedTickers (selectCompany st company)).
Proof.
  intros Hnd. unfold selectCompany.
  destruct (existsb _ (selectedCompanies st)) eqn:Hsel; [exact Hnd |].
  assert (Hfresh : Company.ticker company ∉ selectedTickers st).
  { intros Hin. unfold selectedTickers in Hin.
    apply list_elem_of_In, in_map_iff in Hin as (c & Heq & Hc).
    assert (Hyes : existsb
              (fun c => String.eqb (Company.ticker c) (Company.ticker company))
              (selectedCompanies st) = true).
    { apply isAlreadySelected_iff. exists c.
      split; [apply list_elem_of_In, Hc | exact Heq]. }
    congruence. }
  unfold selectedTickers in *. destruct st; simpl in *.
  rewrite map_app. simpl. apply NoDup_app. split; [exact Hnd |].
  split; [| apply NoDup_singleton].
  intros x Hx Hx'. apply list_elem_of_singleton in Hx'. subst x.
  exact (Hfresh Hx).
Qed.

Lemma filter_tickers_NoDup (p : Company -> bool) (l : list Company) :
  NoDup (map Company.ticker l) ->
  NoDup (map Company.ticker (List.filter p l)).
Proof.
  induction l as [| c rest IH]; simpl; intros Hnd; [exact Hnd |].
  apply NoDup_cons in Hnd as [Hfresh Hrest].
  destruct (p c); simpl; [| exact (IH Hrest)].
  apply NoDup_cons. split; [| exact (IH Hrest)].
  intros Hin. apply Hfresh.
  apply list_elem_of_In, in_map_iff in Hin as (c' & Heq & Hc').
  apply filter_In in Hc' as [Hc' _].
  apply list_elem_of_In, in_map_iff. exists c'. auto.
Qed.

(** Every action other than the three that edit the selection leaves
    [selectedCompanies] as it was. *)
Lemma dispatch_selectedCompanies (st : AppState) (a : Action) :
  selectedCompanies (dispatch st a)
  = match a with
    | AselectCompany company => selectedCompanies (selectCompany st company)
    | AremoveSelectedCompany ticker =>
        List.filter (fun c => negb (String.eqb (Company.ticker c) ticker))
          (selectedCompanies st)
    | AclearSelectedCompanies => []
    | _ => selectedCompanies st
    end.
Proof.
  destruct a; try reflexivity;
    unfold dispatch, startProcessing, startProcessing_begin,
      startProcessing_settle, retryFromError, startProcessing,
      startProcessing_begin, startProcessing_settle, updateProcessingStatus,
      transitionToPhase, setWorkflowPhase, sendMessage, failProcessing,
      completeProcessing, updateProcessingProgress, clearWorkflowError,
      enableChat;
    destruct st; simpl; split_guards; reflexivity.
Qed.

Lemma reachable_NoDup (st : AppState) :
  reachable st -> NoDup (selectedTickers st).
Proof.
  induction 1 as [| st a Hreach IH].
  - apply NoDup_nil. exact I.
  - unfold selectedTickers. rewrite dispatch_selectedCompanies.
    destruct a; try exact IH.
    + apply selectCompany_NoDup, IH.
    + apply filter_tickers_NoDup, IH.
    + apply NoDup_nil. exact I.
Qed.

(** C10: when a company with the same ticker is already selected,
    [selectCompany] returns the state as it is; selecting the same company a
    second time therefore changes nothing, the list of selected companies
    included; and in every state the store can reach, no two selected
    companies share a ticker. *)
Theorem C10_selectCompany_idempotent_on_ticker :
  forall (st : AppState) (company : Company),
    ((exists c, c ∈ selectedCompanies st
                /\ Company.ticker c = Company.ticker company) ->
     selectCompany st company = st)
    /\ selectCompany (selectCompany st company) company
       = selectCompany st company
    /\ selectedCompanies (selectCompany (selectCompany st company) company)
       = selectedCompanies (selectCompany st company)
    /\ (NoDup (selectedTickers st) ->
        NoDup (selectedTickers (selectCompany st company)))
    /\ (reachable st -> NoDup (selectedTickers st)).
Proof.
  intros st company.
  assert (Hsame : forall s : AppState,
            (exists c, c ∈ selectedCompanies s
                       /\ Company.ticker c = Company.ticker company) ->
            selectCompany s company = s).
  { intros s Hsel. apply isAlreadySelected_iff in Hsel.
    unfold selectCompany. rewrite Hsel. reflexivity. }
  assert (Htwice : selectCompany (selectCompany st company) company
                   = selectCompany st company)
    by apply Hsame, selectCompany_selected.
  split; [apply Hsame |]. split; [exact Htwice |].
  split; [rewrite Htwice; reflexivity |].
  split; [apply selectCompany_NoDup | apply reachable_NoDup].
Qed.

(** Witness for C10: with Apple selected, selecting another record with the
    ticker AAPL leaves the state as it is. *)
Lemma C10_witness_same_ticker_twice :
  (exists c, c ∈ selectedCompanies (selectCompany initialState apple)
             /\ Company.ticker c = Company.ticker appleAgain)
  /\ selectCompany (selectCompany initialState apple) appleAgain
     = selectCompany initialState apple
  /\ selectedTickers (selectCompany initialState apple) = ["AAPL"].
Proof.
  assert (Hsel : exists c,
            c ∈ selectedCompanies (selectCompany initialState apple)
            /\ Company.ticker c = Company.ticker appleAgain).
  { exists apple. split; [apply list_elem_of_singleton |]; reflexivity. }
  split; [exact Hsel |]. split; [| reflexivity].
  exact (proj1 (C10_selectCompany_idempotent_on_ticker
                  (selectCompany initialState apple) appleAgain) Hsel).
Defined.

(** * Further properties of the store *)

(** ** Retrying and going back *)

Lemma failProcessing_frame (st : AppState) (error : string)
    (details : option string) (now : Date) :
  let st' := failProcessing st error details now in
  currentPhase st' = currentPhase st
  /\ selectedTicker st' = selectedTicker st
  /\ selectedTimeRange st' = selectedTimeRange st
  /\ processingJobId st' = processingJobId st
  /\ workflowError st'
     = Some (WorkflowError.mk Processing error details now true)
  /\ processingStatus st'
     = (fun ps => ProcessingStatus.withError ps error) <$> processingStatus st.
Proof.
  destruct st as [? ? ? ? ? [ps |] ? ? ? ? ? ? ? ? ? ? ? ? ? ? ?];
    simpl; repeat split.
Qed.

Lemma startProcessing_refused (st : AppState)
    (request : CompanyProcessingRequest) (t0 : Date)
    (response : ApiResult string) (t1 : Date) :
  currentPhase st <> Input ->
  startProcessing st request t0 response t1 = (st, []).
Proof.
  intros Hne. unfold startProcessing.
  rewrite startProcessing_begin_refused by exact Hne. reflexivity.
Qed.

Lemma startProcessing_accepted (st : AppState)
    (request : CompanyProcessingRequest) (t0 : Date)
    (response : ApiResult string) (t1 : Date) :
  currentPhase st = Input ->
  snd (startProcessing st request t0 response t1)
  = [PostCompaniesProcess request]
  /\ currentPhase (fst (startProcessing st request t0 response t1))
     = Processing
  /\ (ProcessingStatus.ticker
      <$> processingStatus (fst (startProcessing st request t0 response t1)))
     = Some (CompanyProcessingRequest.ticker request).
Proof.
  intros Hin. unfold startProcessing, startProcessing_begin.
  apply canTransitionTo_processing_iff in Hin as ->.
  cbn [negb fst snd].
  split; [reflexivity |].
  destruct st, response; split; reflexivity.
Qed.

(** X1: outside the input phase [retryFromError] never reaches the backend:
    it leaves the state as it is or only clears the workflow error.  In
    particular, after a start whose backend call was rejected, the workflow
    is still in the processing phase, so the retry clears the error, posts
    nothing, and the job stays in the error phase. *)
Theorem X1_retry_after_failed_start_posts_nothing :
  forall (st : AppState) (request : CompanyProcessingRequest) (t0 : Date)
         (message : string) (t1 : Date) (t0' : Date)
         (response' : ApiResult string) (t1' : Date),
    currentPhase st = Input ->
    let failed :=
      fst (startProcessing st request t0 (RejectedError message) t1) in
    workflowError failed
    = Some (WorkflowError.mk Processing message
              (Some "Check your network connection and try again") t1 true)
    /\ currentPhase failed = Processing
    /\ retryFromError failed t0' response' t1'
       = (clearWorkflowError failed, [])
    /\ (ProcessingStatus.phase
        <$> processingStatus (clearWorkflowError failed)) = Some Error
    /\ (ProcessingStatus.error
        <$> processingStatus (clearWorkflowError failed))
       = Some (Some message)
    /\ forall (other : AppState),
         currentPhase other <> Input ->
         snd (retryFromError other t0' response' t1') = []
         /\ (fst (retryFromError other t0' response' t1') = other
             \/ fst (retryFromError other t0' response' t1')
                = clearWorkflowError other).
Proof.
  intros st request t0 message t1 t0' response' t1' Hin failed.
  assert (Hgeneral : forall other : AppState,
            currentPhase other <> Input ->
            snd (retryFromError other t0' response' t1') = []
            /\ (fst (retryFromError other t0' response' t1') = other
                \/ fst (retryFromError other t0' response' t1')
                   = clearWorkflowError other)).
  { intros other Hne. unfold retryFromError.
    destruct (workflowError other) as [we |]; [| auto].
    destruct (WorkflowError.recoverable we); simpl; [| auto].
    destruct (WorkflowError.phase we); simpl; auto.
    destruct (truthyString (selectedTicker other)); simpl; auto.
    rewrite startProcessing_refused; [auto |].
    destruct other; exact Hne. }
  assert (Hfailed : exists st1,
            startProcessing_begin st request t0 = Some st1
            /\ currentPhase st1 = Processing
            /\ failed = failProcessing st1 message
                 (Some "Check your network connection and try again") t1
            /\ is_Some (processingStatus st1)).
  { subst failed. unfold startProcessing, startProcessing_begin.
    apply canTransitionTo_processing_iff in Hin as ->. simpl.
    eexists. split; [reflexivity |].
    destruct st; simpl. repeat split. eexists. reflexivity. }
  destruct Hfailed as (st1 & _ & Hphase & Hfailed & [ps Hps]).
  destruct (failProcessing_frame st1 message
              (Some "Check your network connection and try again") t1)
    as (Hp & _ & _ & _ & Hwe & Hstatus).
  rewrite <- Hfailed in Hp, Hwe, Hstatus.
  assert (Hfphase : currentPhase failed = Processing) by congruence.
  split; [exact Hwe |]. split; [exact Hfphase |].
  split; [| split; [| split; [| exact Hgeneral]]].
  - unfold retryFromError. rewrite Hwe. simpl.
    destruct (truthyString (selectedTicker failed)); [| reflexivity].
    apply startProcessing_refused.
    destruct failed; simpl in *. rewrite Hfphase. discriminate.
  - destruct failed; simpl in *. rewrite Hstatus, Hps. reflexivity.
  - destruct failed; simpl in *. rewrite Hstatus, Hps. reflexivity.
Qed.

(** Witness for X1: the first submission of AAPL is rejected by the backend
    and retried. *)
Lemma X1_witness_retry_after_network_error :
  currentPhase initialState = Input
  /\ retryFromError
       (fst (startProcessing initialState requestAAPL 1000
               (RejectedError "Network Error") 1200))
       2000 (Resolved "job-2") 2200
     = (clearWorkflowError
          (fst (startProcessing initialState requestAAPL 1000
                  (RejectedError "Network Error") 1200)),
        []).
Proof.
  assert (Hin : currentPhase initialState = Input) by reflexivity.
  split; [exact Hin |].
  exact (proj1 (proj2 (proj2
           (X1_retry_after_failed_start_posts_nothing initialState requestAAPL
              1000 "Network Error" 1200 2000 (Resolved "job-2") 2200 Hin)))).
Defined.

(** X2: the guarded transitions follow [canTransitionTo].  The result of
    [transitionToPhase] and of [setWorkflowPhase] without force is the value
    of [canTransitionTo]; a refused transition leaves the state as it is; an
    accepted one ends in the requested phase with the former phase recorded
    and the workflow error cleared.  With force, [setWorkflowPhase] always
    succeeds. *)
Theorem X2_guarded_transitions_follow_canTransitionTo :
  forall (st : AppState) (phase : WorkflowPhase),
    fst (transitionToPhase st phase) = canTransitionTo st phase
    /\ fst (setWorkflowPhase st phase false) = canTransitionTo st phase
    /\ fst (setWorkflowPhase st phase true) = true
    /\ (canTransitionTo st phase = false ->
        snd (transitionToPhase st phase) = st
        /\ snd (setWorkflowPhase st phase false) = st)
    /\ (canTransitionTo st phase = true ->
        currentPhase (snd (transitionToPhase st phase)) = phase
        /\ previousPhase (snd (transitionToPhase st phase))
           = Some (currentPhase st)
        /\ workflowError (snd (transitionToPhase st phase)) = None)
    /\ currentPhase (snd (setWorkflowPhase st phase true)) = phase.
Proof.
  intros st phase.
  assert (Hchat : canTransitionTo (enableChat st) Chat = canTransitionTo st Chat)
    by (destruct st; reflexivity).
  assert (Hinput : forall s : AppState, canTransitionTo s Input = true)
    by reflexivity.
  unfold transitionToPhase, setWorkflowPhase.
  destruct (canTransitionTo st phase) eqn:Hcan; simpl.
  - destruct phase.
    + simpl. repeat split; try discriminate; destruct st; reflexivity.
    + rewrite Hcan. simpl.
      repeat split; try discriminate; destruct st; reflexivity.
    + rewrite Hchat, Hcan. simpl.
      repeat split; try discriminate; destruct st; reflexivity.
  - repeat split; try discriminate; destruct st; reflexivity.
Qed.

(** Witness for X2: from the initial state the chat phase is refused and the
    processing phase is accepted. *)
Lemma X2_witness_initial_state :
  canTransitionTo initialState Chat = false
  /\ snd (transitionToPhase initialState Chat) = initialState
  /\ canTransitionTo initialState Processing = true
  /\ currentPhase (snd (transitionToPhase initialState Processing))
     = Processing.
Proof.
  assert (Hno : canTransitionTo initialState Chat = false) by reflexivity.
  assert (Hyes : canTransitionTo initialState Processing = true)
    by reflexivity.
  split; [exact Hno |].
  split; [exact (proj1 (proj1 (proj2 (proj2 (proj2
                   (X2_guarded_transitions_follow_canTransitionTo
                      initialState Chat)))) Hno)) |].
  split; [exact Hyes |].
  exact (proj1 (proj1 (proj2 (proj2 (proj2 (proj2
           (X2_guarded_transitions_follow_canTransitionTo
              initialState Processing))))) Hyes)).
Defined.

(** X3: going back always reopens the form.  From every state,
    [transitionToPhase('input')] succeeds and [resetWorkflow] ends in the
    input phase; both drop the recorded status, the company context and the
    chat gate, and a [startProcessing] that follows is accepted and posts
    its request.  They differ in what they keep: the transition keeps the
    transcript, the job handle and the selected ticker, the reset clears
    them. *)
Theorem X3_going_back_reopens_submission :
  forall (st : AppState) (request : CompanyProcessingRequest) (t0 : Date)
         (response : ApiResult string) (t1 : Date),
    let back := snd (transitionToPhase st Input) in
    let fresh := resetWorkflow st in
    fst (transitionToPhase st Input) = true
    /\ currentPhase back = Input
    /\ processingStatus back = None
    /\ companyContext back = None
    /\ chatEnabled back = false
    /\ messages back = messages st
    /\ processingJobId back = processingJobId st
    /\ selectedTicker back = selectedTicker st
    /\ snd (startProcessing back request t0 response t1)
       = [PostCompaniesProcess request]
    /\ snd (startProcessing fresh request t0 response t1)
       = [PostCompaniesProcess request]
    /\ (ProcessingStatus.ticker
        <$> processingStatus (fst (startProcessing fresh request t0
                                     (Resolved "job") t1)))
       = Some (CompanyProcessingRequest.ticker request)
    /\ messages fresh = []
    /\ processingJobId fresh = None.
Proof.
  intros st request t0 response t1 back fresh. subst back fresh.
  assert (Hback : currentPhase (snd (transitionToPhase st Input)) = Input)
    by (destruct st; reflexivity).
  assert (Hfresh : currentPhase (resetWorkflow st) = Input)
    by (destruct st; reflexivity).
  split; [reflexivity |].
  split; [exact Hback |].
  do 6 (split; [destruct st; reflexivity |]).
  split; [apply startProcessing_accepted, Hback |].
  split; [apply startProcessing_accepted, Hfresh |].
  split; [| split; destruct st; reflexivity].
  destruct (startProcessing_accepted (resetWorkflow st) request t0
              (Resolved "job") t1 Hfresh) as (_ & _ & Hticker).
  exact Hticker.
Qed.

(** ** Status updates and the workflow phase *)

(** X4: [updateProcessingStatus] moves the workflow only from processing to
    chat, and only for a complete status while a company context is present;
    it then enables the chat and clears the workflow error.  In every other
    case it changes nothing but the recorded status.  It never touches the
    transcript, the company context, the job handle or the selection. *)
Theorem X4_updateProcessingStatus_phase_change :
  forall (st : AppState) (status : ProcessingStatus),
    let st' := updateProcessingStatus st status in
    let opens :=
      bool_decide (ProcessingStatus.phase status = Complete)
      && bool_decide (is_Some (companyContext st))
      && bool_decide (currentPhase st = Processing) in
    (opens = true ->
     currentPhase st' = Chat
     /\ previousPhase st' = Some Processing
     /\ chatEnabled st' = true
     /\ workflowError st' = None)
    /\ (opens = false -> st' = set st [FprocessingStatus (Some status)])
    /\ messages st' = messages st
    /\ companyContext st' = companyContext st
    /\ processingJobId st' = processingJobId st
    /\ selectedTicker st' = selectedTicker st
    /\ selectedCompanies st' = selectedCompanies st
    /\ processedCompanies st' = processedCompanies st.
Proof.
  intros st status st' opens. subst st' opens.
  unfold updateProcessingStatus, transitionToPhase, setWorkflowPhase,
    canTransitionTo.
  destruct st, status as [? ph ? ? ? ? ? ? ? ? ?]. simpl.
  destruct ph, companyContext0, currentPhase0; simpl;
    repeat split; intros; try discriminate; try reflexivity.
Qed.

(** Witness for X4: a complete report arrives while ACME is in the chat
    phase already; nothing but the status changes. *)
Lemma X4_witness_complete_report_in_chat :
  bool_decide (ProcessingStatus.phase completeACME = Complete)
  && bool_decide (is_Some (companyContext chatACME))
  && bool_decide (currentPhase chatACME = Processing) = false
  /\ updateProcessingStatus chatACME completeACME
     = set chatACME [FprocessingStatus (Some completeACME)].
Proof.
  assert (Hno :
    bool_decide (ProcessingStatus.phase completeACME = Complete)
    && bool_decide (is_Some (companyContext chatACME))
    && bool_decide (currentPhase chatACME = Processing) = false)
    by reflexivity.
  split; [exact Hno |].
  exact (proj1 (proj2
           (X4_updateProcessingStatus_phase_change chatACME completeACME))
           Hno).
Defined.

(** X5: the whole way from submission to chat.  After an accepted
    submission, a status fetch that returns a complete status opens the chat
    phase: the status is recorded, the company context is built from it
    (ticker of the status, the documents processed as documents available,
    the company name or else the ticker, the reported range or else 3), the
    company is marked as processed, polling stops, and the first question
    then adds its two messages to the empty transcript. *)
Theorem X5_complete_fetch_opens_chat :
  forall (st : AppState) (request : CompanyProcessingRequest) (t0 : Date)
         (jobId : string) (t1 : Date) (r : Refs)
         (rendered : option ProcessingStatus) (tickerSymbol : string)
         (data : StatusResponse) (now : Date) (question : string)
         (later : Date),
    currentPhase st = Input ->
    ProcessingStatus.phase (StatusResponse.status data) = Complete ->
    let status := StatusResponse.status data in
    let submitted := fst (startProcessing st request t0 (Resolved jobId) t1) in
    let o := fetchStatus submitted r rendered tickerSymbol (Resolved data)
               now in
    currentPhase (store o) = Chat
    /\ previousPhase (store o) = Some Processing
    /\ chatEnabled (store o) = true
    /\ processingStatus (store o) = Some status
    /\ processingEndTime (store o) = Some now
    /\ processingJobId (store o) = Some jobId
    /\ (exists ctx,
          companyContext (store o) = Some ctx
          /\ CompanyContext.ticker ctx = ProcessingStatus.ticker status
          /\ CompanyContext.processingStatus ctx = status
          /\ CompanyContext.documentsAvailable ctx
             = ProcessingStatus.documentsProcessed status
          /\ (StatusResponse.companyName data = None ->
              CompanyContext.name ctx = ProcessingStatus.ticker status)
          /\ (StatusResponse.timeRangeProcessed data = None ->
              CompanyContext.timeRangeProcessed ctx = 3))
    /\ isCompanyProcessed (store o) (ProcessingStatus.ticker status) = true
    /\ isPollingRef (refs o) = false
    /\ intervalRef (refs o) = None
    /\ settled o = Some status
    /\ length (messages (sendMessage (store o) question later)) = 2%nat.
Proof.
  intros st request t0 jobId t1 r rendered tickerSymbol data now question
    later Hin Hdone status submitted o.
  subst status submitted o.
  unfold startProcessing, startProcessing_begin, fetchStatus.
  apply canTransitionTo_processing_iff in Hin as Hcan. rewrite Hcan. simpl.
  rewrite bool_decide_eq_true_2 by exact Hdone.
  unfold updateProcessingStatus.
  rewrite bool_decide_eq_true_2 by exact Hdone.
  destruct st; simpl.
  repeat split.
  - eexists. split; [reflexivity |]. simpl. repeat split.
    + intros ->. reflexivity.
    + intros ->. reflexivity.
  - unfold isCompanyProcessed. simpl. apply bool_decide_eq_true_2.
    apply elem_of_union_r, elem_of_singleton. reflexivity.
Qed.

(** Witness for X5: ACME, submitted from the initial state, is reported
    complete. *)
Lemma X5_witness_acme_complete :
  currentPhase initialState = Input
  /\ ProcessingStatus.phase
       (StatusResponse.status (StatusResponse.mk completeACME None None))
     = Complete
  /\ currentPhase
       (store (fetchStatus
                 (fst (startProcessing initialState
                         (CompanyProcessingRequest.mk "ACME" Years3) 1000
                         (Resolved "job-7") 1200))
                 initialRefs None "ACME"
                 (Resolved (StatusResponse.mk completeACME None None)) 4000))
     = Chat.
Proof.
  assert (Hin : currentPhase initialState = Input) by reflexivity.
  assert (Hdone :
    ProcessingStatus.phase
      (StatusResponse.status (StatusResponse.mk completeACME None None))
    = Complete) by reflexivity.
  split; [exact Hin |]. split; [exact Hdone |].
  exact (proj1
           (X5_complete_fetch_opens_chat initialState
              (CompanyProcessingRequest.mk "ACME" Years3) 1000 "job-7" 1200
              initialRefs None "ACME"
              (StatusResponse.mk completeACME None None) 4000
              "What was revenue last year?" 9000 Hin Hdone)).
Defined.

(** X6: a status fetch whose request fails is thrown again, stops polling,
    and records the error phase with the fetch failure reason on the status
    the hook holds, leaving the workflow phase, the workflow error and the
    job handle as they were; without a held status the store is not touched.
    The polling guard is off for the recorded status, and no workflow error
    is raised, so [retryFromError] finds nothing to retry unless an error was
    there before. *)
Theorem X6_failed_fetch_marks_error_and_stops :
  forall (st : AppState) (r : Refs) (rendered : option ProcessingStatus)
         (tickerSymbol : string) (response : ApiResult StatusResponse)
         (now : Date),
    (forall data, response <> Resolved data) ->
    let o := fetchStatus st r rendered tickerSymbol response now in
    settled o = None
    /\ issued o = [GetCompanyStatus tickerSymbol]
    /\ isPollingRef (refs o) = false
    /\ intervalRef (refs o) = None
    /\ currentPhase (store o) = currentPhase st
    /\ workflowError (store o) = workflowError st
    /\ processingJobId (store o) = processingJobId st
    /\ chatEnabled (store o) = chatEnabled st
    /\ (rendered = None -> store o = st)
    /\ (forall ps : ProcessingStatus,
          rendered = Some ps ->
          processingStatus (store o)
          = Some (ProcessingStatus.withError ps fetchFailureReason)
          /\ forall (ticker : option string) (enabled : bool),
               shouldPoll ticker enabled (processingStatus (store o)) = false)
    /\ (workflowError st = None ->
        forall (t0 : Date) (retry : ApiResult string) (t1 : Date),
          retryFromError (store o) t0 retry t1 = (store o, [])).
Proof.
  intros st r rendered tickerSymbol response now Hfail o. subst o.
  assert (Hshape :
    fetchStatus st r rendered tickerSymbol response now
    = mkOutcome
        (match rendered with
         | Some ps =>
             set st [FprocessingStatus
                       (Some (ProcessingStatus.withError ps
                                fetchFailureReason))]
         | None => st
         end)
        (stopPolling r) [GetCompanyStatus tickerSymbol] None).
  { unfold fetchStatus.
    destruct response as [data | message |];
      [exfalso; exact (Hfail data eq_refl) | |];
      destruct rendered as [ps |]; try reflexivity;
      rewrite updateProcessingStatus_incomplete by discriminate;
      reflexivity. }
  rewrite Hshape. clear Hshape. cbn [store refs issued settled].
  do 4 (split; [reflexivity |]).
  do 4 (split; [destruct rendered, st; reflexivity |]).
  split; [intros ->; reflexivity |].
  split.
  - intros ps ->. split; [destruct st; reflexivity |].
    intros [t |] enabled; [| reflexivity].
    destruct st; cbn. rewrite !andb_false_r. reflexivity.
  - intros Hnone t0 retry t1. unfold retryFromError.
    assert (Hkeep :
      workflowError
        (match rendered with
         | Some ps =>
             set st [FprocessingStatus
                       (Some (ProcessingStatus.withError ps
                                fetchFailureReason))]
         | None => st
         end) = None)
      by (destruct rendered, st; exact Hnone).
    rewrite Hkeep. reflexivity.
Qed.

(** Witness for X6: the status request for AAPL fails while it is being
    parsed. *)
Lemma X6_witness_network_error_while_parsing :
  (forall data : StatusResponse,
     RejectedError "Network Error" <> Resolved data)
  /\ processingStatus
       (store (fetchStatus
                 (updateProcessingStatus submittedAAPL (parsingAAPL 10 3))
                 (mkRefs (Some 7%nat) true {[7%nat]})
                 (Some (parsingAAPL 10 3)) "AAPL"
                 (RejectedError "Network Error") 3000))
     = Some (ProcessingStatus.withError (parsingAAPL 10 3)
               "Failed to fetch processing status").
Proof.
  assert (Hfail : forall data : StatusResponse,
            RejectedError "Network Error" <> Resolved data)
    by (intros data; discriminate).
  split; [exact Hfail |].
  exact (proj1 (proj1 (proj2 (proj2 (proj2 (proj2 (proj2 (proj2 (proj2
           (proj2 (proj2
           (X6_failed_fetch_marks_error_and_stops
              (updateProcessingStatus submittedAAPL (parsingAAPL 10 3))
              (mkRefs (Some 7%nat) true {[7%nat]})
              (Some (parsingAAPL 10 3)) "AAPL"
              (RejectedError "Network Error") 3000 Hfail))))))))))
           (parsingAAPL 10 3) eq_refl)).
Defined.

(** ** The timers of the polling hook *)

Lemma stopPolling_coherent (r : Refs) :
  wellFormedRefs r -> pollingCoherent (stopPolling r).
Proof.
  intros Hwf. split.
  - unfold wellFormedRefs. simpl. apply stopPolling_wellFormed, Hwf.
  - simpl. split; [discriminate | intros [i Hi]; discriminate].
Qed.

Lemma fetchStatus_coherent (st : AppState) (r : Refs)
    (rendered : option ProcessingStatus) (tickerSymbol : string)
    (response : ApiResult StatusResponse) (now : Date) :
  pollingCoherent r ->
  pollingCoherent (refs (fetchStatus st r rendered tickerSymbol response now)).
Proof.
  intros Hco. pose proof Hco as [Hwf _]. unfold fetchStatus.
  destruct response as [data | message |]; simpl;
    repeat (destruct (bool_decide _); simpl);
    try exact Hco; apply stopPolling_coherent, Hwf.
Qed.

Lemma startPolling_coherent (st : AppState) (r : Refs) (enabled : bool)
    (rendered : option ProcessingStatus) (tickerSymbol : string)
    (timer : nat) (response : ApiResult StatusResponse) (now : Date) :
  pollingCoherent r ->
  pollingCoherent
    (refs (startPolling st r enabled rendered tickerSymbol timer response
             now)).
Proof.
  intros Hco. pose proof Hco as [Hwf Hiff]. unfold startPolling.
  assert (Hidle : isPollingRef r = false -> intervalRef r = None).
  { intros Hoff. destruct (intervalRef r) as [i |] eqn:Hi; [| reflexivity].
    assert (Hyes : isPollingRef r = true) by (apply Hiff; eauto).
    congruence. }
  destruct (isPollingRef r) eqn:Hpolling; simpl; [exact Hco |].
  destruct enabled; simpl; [| exact Hco].
  apply fetchStatus_coherent.
  pose proof (Hidle eq_refl) as Hnone.
  split.
  - unfold wellFormedRefs in *. simpl. rewrite Hwf, Hnone.
    apply (left_id_L ∅ (∪)).
  - simpl. split; eauto.
Qed.

Lemma hookStep_coherent (st : AppState) (r : Refs) (op : HookOp) :
  pollingCoherent r -> pollingCoherent (snd (hookStep (st, r) op)).
Proof.
  intros Hco. pose proof Hco as [Hwf _].
  destruct op as [enabled rendered tickerSymbol timer response now
                 | | rendered tickerSymbol response now
                 | rendered tickerSymbol response
                 | ticker enabled rendered timer response now]; simpl.
  - apply startPolling_coherent, Hco.
  - apply stopPolling_coherent, Hwf.
  - apply fetchStatus_coherent, Hco.
  - unfold cancelProcessing. destruct response; simpl;
      [apply stopPolling_coherent, Hwf | exact Hco | exact Hco].
  - unfold pollingEffect. destruct ticker as [t |];
      [| apply stopPolling_coherent, Hwf].
    destruct (shouldPoll (Some t) enabled rendered);
      [apply startPolling_coherent, Hco | apply stopPolling_coherent, Hwf].
Qed.

Lemma hookRun_coherent (ops : list HookOp) :
  forall (st : AppState) (r : Refs),
    pollingCoherent r -> pollingCoherent (snd (hookRun (st, r) ops)).
Proof.
  induction ops as [| op rest IH]; intros st r Hco; [exact Hco |].
  change (pollingCoherent (snd (hookRun (hookStep (st, r) op) rest))).
  pose proof (hookStep_coherent st r op Hco) as Hnext.
  destruct (hookStep (st, r) op) as [st' r']. apply IH. exact Hnext.
Qed.

(** X7: the hook never runs two polling loops.  Whatever sequence of
    [startPolling], [stopPolling], [fetchStatus], [cancelProcessing] and
    effect runs is made from the initial refs, with whatever responses, at
    most one interval timer is alive, it is the one [intervalRef] holds,
    [isPollingRef] is set exactly when there is one, and a [startPolling]
    made while polling issues no request and changes nothing. *)
Theorem X7_at_most_one_polling_timer :
  forall (st : AppState) (ops : list HookOp),
    let r := snd (hookRun (st, initialRefs) ops) in
    let st' := fst (hookRun (st, initialRefs) ops) in
    pollingCoherent r
    /\ (size (liveIntervals r) <= 1)%nat
    /\ (isPollingRef r = false -> liveIntervals r = ∅)
    /\ (isPollingRef r = true ->
        forall (enabled : bool) (rendered : option ProcessingStatus)
               (tickerSymbol : string) (timer : nat)
               (response : ApiResult StatusResponse) (now : Date),
          startPolling st' r enabled rendered tickerSymbol timer response now
          = mkOutcome st' r [] None).
Proof.
  intros st ops r st'.
  assert (Hco : pollingCoherent r).
  { subst r. apply hookRun_coherent. split; [reflexivity |].
    simpl. split; [discriminate | intros [i Hi]; discriminate]. }
  split; [exact Hco |]. destruct Hco as [Hwf Hiff].
  unfold wellFormedRefs in Hwf. split; [| split].
  - rewrite Hwf. destruct (intervalRef r).
    + rewrite size_singleton. lia.
    + rewrite size_empty. lia.
  - intros Hidle. rewrite Hwf.
    destruct (intervalRef r) as [i |] eqn:Hi; [| reflexivity].
    assert (Hyes : isPollingRef r = true) by (apply Hiff; eauto).
    congruence.
  - intros Hpolling enabled rendered tickerSymbol timer response now.
    unfold startPolling. rewrite Hpolling. reflexivity.
Qed.

(** Witness for X7: polling is started twice in a row for AAPL. *)
Lemma X7_witness_second_start_is_ignored :
  isPollingRef
    (snd (hookRun (submittedAAPL, initialRefs)
            [HstartPolling true (processingStatus submittedAAPL) "AAPL" 7
               (Resolved (StatusResponse.mk (scrapingAAPL 10 3) None None))
               2000]))
  = true
  /\ le (size (liveIntervals
                 (snd (hookRun (submittedAAPL, initialRefs)
                         [HstartPolling true (processingStatus submittedAAPL)
                            "AAPL" 7
                            (Resolved (StatusResponse.mk (scrapingAAPL 10 3)
                                         None None)) 2000;
                          HstartPolling true (Some (scrapingAAPL 10 3))
                            "AAPL" 8
                            (Resolved (StatusResponse.mk (parsingAAPL 10 3)
                                         None None)) 2100]))))
       1%nat.
Proof.
  split; [reflexivity |].
  exact (proj1 (proj2
           (X7_at_most_one_polling_timer submittedAAPL
              [HstartPolling true (processingStatus submittedAAPL) "AAPL" 7
                 (Resolved (StatusResponse.mk (scrapingAAPL 10 3) None None))
                 2000;
               HstartPolling true (Some (scrapingAAPL 10 3)) "AAPL" 8
                 (Resolved (StatusResponse.mk (parsingAAPL 10 3) None None))
                 2100]))).
Defined.

(** ** The processed set and the company cache *)

Lemma dispatch_processedCompanies (st : AppState) (a : Action) :
  processedCompanies (dispatch st a)
  = match a with
    | AresetWorkflow => ∅
    | AcompleteProcessing ctx _ =>
        processedCompanies st ∪ {[CompanyContext.ticker ctx]}
    | AmarkCompanyAsProcessed ticker => processedCompanies st ∪ {[ticker]}
    | _ => processedCompanies st
    end.
Proof.
  destruct a;
    unfold dispatch, startProcessing, startProcessing_begin,
      startProcessing_settle, retryFromError, startProcessing,
      startProcessing_begin, startProcessing_settle, updateProcessingStatus,
      transitionToPhase, setWorkflowPhase, sendMessage, failProcessing,
      completeProcessing, updateProcessingProgress, clearWorkflowError,
      enableChat, selectCompany, markCompanyAsProcessed;
    destruct st; cbn; split_guards; reflexivity.
Qed.

(** X8: the set of processed companies.  A ticker is processed after
    [markCompanyAsProcessed] exactly if it is the marked one or was processed
    before; marking twice is marking once; [completeProcessing] marks the
    ticker of its context.  No action other than [resetWorkflow] ever
    unmarks a ticker, and [resetWorkflow] unmarks all of them. *)
Theorem X8_processed_set :
  forall (st : AppState) (ticker other : string),
    isCompanyProcessed (markCompanyAsProcessed st ticker) other
    = bool_decide (other = ticker) || isCompanyProcessed st other
    /\ markCompanyAsProcessed (markCompanyAsProcessed st ticker) ticker
       = markCompanyAsProcessed st ticker
    /\ (forall (ctx : CompanyContext) (now : Date),
          isCompanyProcessed (completeProcessing st ctx now)
            (CompanyContext.ticker ctx) = true)
    /\ isCompanyProcessed (resetWorkflow st) other = false
    /\ isCompanyProcessed initialState other = false
    /\ (forall a : Action,
          a <> AresetWorkflow ->
          isCompanyProcessed st other = true ->
          isCompanyProcessed (dispatch st a) other = true).
Proof.
  intros st ticker other. unfold isCompanyProcessed.
  assert (Hmark : forall (s : AppState) (t : string),
            processedCompanies (markCompanyAsProcessed s t)
            = processedCompanies s ∪ {[t]})
    by (intros s t; destruct s; reflexivity).
  split; [| split; [| split; [| split; [| split]]]].
  - rewrite Hmark.
    destruct (decide (other = ticker)) as [-> | Hne].
    + rewrite (bool_decide_eq_true_2 (ticker = ticker)) by reflexivity.
      rewrite orb_true_l. apply bool_decide_eq_true_2.
      apply elem_of_union_r, elem_of_singleton. reflexivity.
    + rewrite (bool_decide_eq_false_2 (other = ticker)) by exact Hne.
      rewrite orb_false_l. apply bool_decide_ext.
      rewrite elem_of_union, elem_of_singleton. tauto.
  - assert (Hset : processedCompanies st ∪ {[ticker]} ∪ {[ticker]}
                   = processedCompanies st ∪ {[ticker]}).
    { rewrite <- (assoc_L (∪)). f_equal. apply (idemp_L (∪)). }
    destruct st. unfold markCompanyAsProcessed, set. simpl in *.
    rewrite Hset. reflexivity.
  - intros ctx now. apply bool_decide_eq_true_2.
    change (completeProcessing st ctx now)
      with (dispatch st (AcompleteProcessing ctx now)).
    rewrite dispatch_processedCompanies.
    apply elem_of_union_r, elem_of_singleton. reflexivity.
  - apply bool_decide_eq_false_2.
    change (resetWorkflow st) with (dispatch st AresetWorkflow).
    rewrite dispatch_processedCompanies. apply not_elem_of_empty.
  - apply bool_decide_eq_false_2. apply not_elem_of_empty.
  - intros a Hne Hin. apply bool_decide_eq_true in Hin.
    apply bool_decide_eq_true_2. rewrite dispatch_processedCompanies.
    destruct a; try exact Hin; try contradiction;
      apply elem_of_union_l, Hin.
Qed.

(** Witness for X8: a processed AAPL survives a new submission. *)
Lemma X8_witness_processed_survives_submission :
  AstartProcessing requestAAPL 1000 (Resolved "job-1") 1200 <> AresetWorkflow
  /\ isCompanyProcessed (markCompanyAsProcessed initialState "AAPL") "AAPL"
     = true
  /\ isCompanyProcessed
       (dispatch (markCompanyAsProcessed initialState "AAPL")
          (AstartProcessing requestAAPL 1000 (Resolved "job-1") 1200))
       "AAPL"
     = true.
Proof.
  assert (Hne : AstartProcessing requestAAPL 1000 (Resolved "job-1") 1200
                <> AresetWorkflow) by discriminate.
  assert (Hin : isCompanyProcessed
                  (markCompanyAsProcessed initialState "AAPL") "AAPL" = true)
    by reflexivity.
  split; [exact Hne |]. split; [exact Hin |].
  exact (proj2 (proj2 (proj2 (proj2 (proj2
           (X8_processed_set (markCompanyAsProcessed initialState "AAPL")
              "AAPL" "AAPL")))))
           (AstartProcessing requestAAPL 1000 (Resolved "job-1") 1200)
           Hne Hin).
Defined.

Lemma dispatch_companyCache (st : AppState) (a : Action) :
  companyCache (dispatch st a)
  = match a with
    | AselectCompany company => companyCache (selectCompany st company)
    | AcacheCompany company =>
        <[Company.ticker company := company]> (companyCache st)
    | _ => companyCache st
    end.
Proof.
  destruct a; try reflexivity;
    unfold dispatch, startProcessing, startProcessing_begin,
      startProcessing_settle, retryFromError, startProcessing,
      startProcessing_begin, startProcessing_settle, updateProcessingStatus,
      transitionToPhase, setWorkflowPhase, sendMessage, failProcessing,
      completeProcessing, updateProcessingProgress, clearWorkflowError,
      enableChat, markCompanyAsProcessed;
    destruct st; cbn; split_guards; reflexivity.
Qed.

Lemma selectCompany_companyCache (st : AppState) (company : Company)
    (ticker : string) :
  is_Some (companyCache st !! ticker) ->
  is_Some (companyCache (selectCompany st company) !! ticker).
Proof.
  intros Hin. unfold selectCompany.
  destruct (existsb _ (selectedCompanies st)); [exact Hin |].
  destruct st; cbn in *.
  destruct (decide (Company.ticker company = ticker)) as [<- | Hne].
  - rewrite lookup_insert_eq. eauto.
  - rewrite lookup_insert_ne by exact Hne. exact Hin.
Qed.

Lemma dispatch_selectionCached (st : AppState) (a : Action) :
  selectionCached st -> selectionCached (dispatch st a).
Proof.
  intros Hinv. unfold selectionCached.
  rewrite dispatch_selectedCompanies, dispatch_companyCache.
  destruct a; try exact Hinv.
  - unfold selectCompany.
    destruct (existsb _ (selectedCompanies st)); [exact Hinv |].
    destruct st; cbn [set fold_left assign selectedCompanies companyCache]
      in *.
    intros c [Hold | Hnew%list_elem_of_singleton]%elem_of_app.
    + destruct (decide (Company.ticker company = Company.ticker c))
        as [Heq | Hne].
      * rewrite Heq, lookup_insert_eq. eauto.
      * rewrite lookup_insert_ne by exact Hne. apply Hinv, Hold.
    + subst c. rewrite lookup_insert_eq. eauto.
  - intros c Hin. apply list_elem_of_In, filter_In in Hin as [Hin _].
    apply Hinv, list_elem_of_In, Hin.
  - intros c Hin. inversion Hin.
  - intros c Hin.
    destruct (decide (Company.ticker company = Company.ticker c))
      as [Heq | Hne].
    + rewrite Heq, lookup_insert_eq. eauto.
    + rewrite lookup_insert_ne by exact Hne. apply Hinv, Hin.
Qed.

(** X9: the company cache.  [cacheCompany] stores the company under its
    ticker and leaves the other entries alone; [selectCompany] caches the
    company it adds, and leaves the cache alone when the ticker is selected
    already.  No action ever evicts an entry, removing a selection and
    [resetWorkflow] included; and in every reachable state each selected
    company has a cache entry under its ticker. *)
Theorem X9_company_cache :
  forall (st : AppState) (company : Company) (ticker : string),
    companyCache (cacheCompany st company) !! ticker
    = (if decide (ticker = Company.ticker company) then Some company
       else companyCache st !! ticker)
    /\ (Company.ticker company ∉ selectedTickers st ->
        companyCache (selectCompany st company) !! Company.ticker company
        = Some company)
    /\ (Company.ticker company ∈ selectedTickers st ->
        companyCache (selectCompany st company) = companyCache st)
    /\ (forall a : Action,
          is_Some (companyCache st !! ticker) ->
          is_Some (companyCache (dispatch st a) !! ticker))
    /\ (reachable st -> selectionCached st).
Proof.
  intros st company ticker.
  assert (Hsel : existsb
            (fun c => String.eqb (Company.ticker c) (Company.ticker company))
            (selectedCompanies st) = true
            <-> Company.ticker company ∈ selectedTickers st).
  { rewrite isAlreadySelected_iff. unfold selectedTickers.
    rewrite list_elem_of_In, in_map_iff. split.
    - intros (c & Hc & Heq). exists c.
      split; [exact Heq | apply list_elem_of_In, Hc].
    - intros (c & Heq & Hc). exists c.
      split; [apply list_elem_of_In, Hc | exact Heq]. }
  split; [| split; [| split; [| split]]].
  - destruct st; cbn [cacheCompany set fold_left assign companyCache].
    destruct (decide (ticker = Company.ticker company)) as [-> | Hne].
    + apply lookup_insert_eq.
    + apply lookup_insert_ne. congruence.
  - intros Hfresh. unfold selectCompany.
    destruct (existsb _ (selectedCompanies st)) eqn:Hex.
    + exfalso. apply Hfresh, Hsel. reflexivity.
    + destruct st; cbn [set fold_left assign companyCache].
      apply lookup_insert_eq.
  - intros Hold. unfold selectCompany.
    apply Hsel in Hold. rewrite Hold. reflexivity.
  - intros a Hin. rewrite dispatch_companyCache.
    destruct a; try exact Hin.
    + apply selectCompany_companyCache, Hin.
    + destruct (decide (Company.ticker company0 = ticker)) as [<- | Hne].
      * rewrite lookup_insert_eq. eauto.
      * rewrite lookup_insert_ne by exact Hne. exact Hin.
  - clear Hsel. induction 1 as [| s a Hreach IH].
    + intros c Hin. inversion Hin.
    + apply dispatch_selectionCached, IH.
Qed.

(** Witness for X9: Apple is selected, then removed, then the workflow is
    reset; its cache entry is still there. *)
Lemma X9_witness_cache_outlives_selection :
  (Company.ticker apple ∉ selectedTickers initialState)
  /\ companyCache (selectCompany initialState apple) !! "AAPL" = Some apple
  /\ is_Some
       (companyCache
          (dispatch
             (dispatch (selectCompany initialState apple)
                (AremoveSelectedCompany "AAPL"))
             AresetWorkflow)
        !! "AAPL").
Proof.
  assert (Hfresh : Company.ticker apple ∉ selectedTickers initialState)
    by (intros Hin; inversion Hin).
  pose proof (proj1 (proj2 (X9_company_cache initialState apple "AAPL"))
                Hfresh) as Hcached.
  split; [exact Hfresh |]. split; [exact Hcached |].
  apply (proj1 (proj2 (proj2 (proj2
           (X9_company_cache
              (dispatch (selectCompany initialState apple)
                 (AremoveSelectedCompany "AAPL"))
              apple "AAPL"))))).
  apply (proj1 (proj2 (proj2 (proj2
           (X9_company_cache (selectCompany initialState apple)
              apple "AAPL"))))).
  exists apple. exact Hcached.
Defined.

(** ** Removing a selection *)

Lemma filter_other_tickers (ticker : string) (l : list Company) :
  ticker ∉ map Company.ticker l ->
  List.filter (fun c => negb (String.eqb (Company.ticker c) ticker)) l = l.
Proof.
  induction l as [| c rest IH]; simpl; intros Hfresh; [reflexivity |].
  apply not_elem_of_cons in Hfresh as [Hne Hrest].
  destruct (String.eqb_spec (Company.ticker c) ticker) as [Heq | _];
    [congruence |].
  simpl. f_equal. apply IH, Hrest.
Qed.

(** X10: [removeSelectedCompany] removes exactly the companies with the
    given ticker and keeps the others in their order; it changes nothing
    when the ticker is not selected, and never touches the cache.
    Selecting a company whose ticker was not selected and removing that
    ticker gives the former selection back, while the cache keeps the
    company; after a removal the ticker can be selected again. *)
Theorem X10_removeSelectedCompany :
  forall (st : AppState) (ticker : string),
    (ticker ∉ selectedTickers (removeSelectedCompany st ticker))
    /\ (forall c : Company,
          c ∈ selectedCompanies (removeSelectedCompany st ticker)
          <-> c ∈ selectedCompanies st /\ Company.ticker c <> ticker)
    /\ (ticker ∉ selectedTickers st -> removeSelectedCompany st ticker = st)
    /\ companyCache (removeSelectedCompany st ticker) = companyCache st
    /\ (forall company : Company,
          Company.ticker company = ticker ->
          company
          ∈ selectedCompanies
              (selectCompany (removeSelectedCompany st ticker) company))
    /\ (forall company : Company,
          Company.ticker company = ticker ->
          ticker ∉ selectedTickers st ->
          selectedCompanies
            (removeSelectedCompany (selectCompany st company) ticker)
          = selectedCompanies st
          /\ companyCache
               (removeSelectedCompany (selectCompany st company) ticker)
             !! ticker
             = Some company).
Proof.
  intros st ticker.
  assert (Hremoved : selectedCompanies (removeSelectedCompany st ticker)
            = List.filter
                (fun c => negb (String.eqb (Company.ticker c) ticker))
                (selectedCompanies st))
    by (destruct st; reflexivity).
  assert (Hmem : forall c : Company,
            c ∈ selectedCompanies (removeSelectedCompany st ticker)
            <-> c ∈ selectedCompanies st /\ Company.ticker c <> ticker).
  { intros c. rewrite Hremoved, !list_elem_of_In, filter_In.
    rewrite negb_true_iff, String.eqb_neq. reflexivity. }
  assert (Hgone : ticker ∉ selectedTickers (removeSelectedCompany st ticker)).
  { unfold selectedTickers. intros Hin.
    apply list_elem_of_In, in_map_iff in Hin as (c & Heq & Hc).
    apply list_elem_of_In, Hmem in Hc as [_ Hne]. contradiction. }
  split; [exact Hgone |]. split; [exact Hmem |].
  split; [| split; [destruct st; reflexivity | split]].
  - intros Hfresh. destruct st; unfold removeSelectedCompany, set. simpl.
    f_equal. apply filter_other_tickers, Hfresh.
  - intros company Hticker. unfold selectCompany.
    destruct (existsb _ (selectedCompanies (removeSelectedCompany st ticker)))
      eqn:Hex.
    + exfalso. apply isAlreadySelected_iff in Hex as (c & Hc & Heq).
      apply Hmem in Hc as [_ Hne]. congruence.
    + destruct (removeSelectedCompany st ticker); simpl.
      apply elem_of_app. right. apply list_elem_of_singleton. reflexivity.
  - intros company Hticker Hfresh.
    assert (Hex : existsb
              (fun c => String.eqb (Company.ticker c) (Company.ticker company))
              (selectedCompanies st) = false).
    { destruct (existsb _ (selectedCompanies st)) eqn:Hex; [| reflexivity].
      exfalso. apply isAlreadySelected_iff in Hex as (c & Hc & Heq).
      apply Hfresh. unfold selectedTickers.
      apply list_elem_of_In, in_map_iff. exists c.
      split; [congruence | apply list_elem_of_In, Hc]. }
    unfold selectCompany. rewrite Hex. destruct st; simpl in *.
    split.
    + rewrite List.filter_app. simpl.
      rewrite Hticker, String.eqb_refl. simpl.
      rewrite app_nil_r. apply filter_other_tickers, Hfresh.
    + rewrite Hticker. apply lookup_insert_eq.
Qed.

(** Witness for X10: Apple is selected and removed again. *)
Lemma X10_witness_select_then_remove :
  Company.ticker apple = "AAPL"
  /\ ("AAPL" ∉ selectedTickers initialState)
  /\ selectedCompanies
       (removeSelectedCompany (selectCompany initialState apple) "AAPL")
     = [].
Proof.
  assert (Hticker : Company.ticker apple = "AAPL") by reflexivity.
  assert (Hfresh : "AAPL" ∉ selectedTickers initialState)
    by (intros Hin; inversion Hin).
  split; [exact Hticker |]. split; [exact Hfresh |].
  exact (proj1 (proj2 (proj2 (proj2 (proj2 (proj2
           (X10_removeSelectedCompany initialState "AAPL")))))
           apple Hticker Hfresh)).
Defined.

(** ** Progress patches *)

(** X11: [updateProcessingProgress] does nothing while no progress record
    exists; on a record it overwrites exactly the keys present in the patch,
    so the empty patch changes nothing and two updates in a row amount to one
    update with the later patch laid over the earlier.  It never touches the
    recorded status. *)
Theorem X11_updateProcessingProgress_patches :
  forall (st : AppState) (p q : ProcessingProgress.partial),
    (processingProgress st = None -> updateProcessingProgress st p = st)
    /\ updateProcessingProgress st emptyPartial = st
    /\ updateProcessingProgress (updateProcessingProgress st p) q
       = updateProcessingProgress st (overridePartial p q)
    /\ processingStatus (updateProcessingProgress st p) = processingStatus st
    /\ (forall (old : ProcessingProgress) (step : string),
          processingProgress st = Some old ->
          ProcessingProgress.currentStep' p = Some step ->
          ProcessingProgress.phase' p = None ->
          exists new,
            processingProgress (updateProcessingProgress st p) = Some new
            /\ ProcessingProgress.currentStep new = step
            /\ ProcessingProgress.phase new = ProcessingProgress.phase old).
Proof.
  intros st p q.
  split; [| split; [| split; [| split]]].
  - intros Hnone. destruct st; simpl in *. subst. reflexivity.
  - destruct st as [? ? ? ? ? ? [[]|] ? ? ? ? ? ? ? ? ? ? ? ? ? ?];
      reflexivity.
  - destruct st as [? ? ? ? ? ? [old |] ? ? ? ? ? ? ? ? ? ? ? ? ? ?];
      [| reflexivity].
    unfold updateProcessingProgress, set. simpl. do 2 f_equal.
    destruct old, p, q. unfold ProcessingProgress.merge, overridePartial.
    simpl. f_equal;
      match goal with
      | |- default (default _ _) ?later = _ => destruct later; reflexivity
      end.
  - destruct st; reflexivity.
  - intros old step Hold Hstep Hphase.
    destruct st; simpl in *. subst. eexists. split; [reflexivity |].
    unfold ProcessingProgress.merge. simpl. rewrite Hstep, Hphase.
    split; reflexivity.
Qed.

(** Witness for X11: the store has no progress record at the start. *)
Lemma X11_witness_no_record :
  processingProgress initialState = None
  /\ updateProcessingProgress initialState
       (ProcessingProgress.mkPartial None (Some 50%Q)
          (Some "Processing documents...") None (Some 10) (Some 5) None None)
     = initialState.
Proof.
  assert (Hnone : processingProgress initialState = None) by reflexivity.
  split; [exact Hnone |].
  exact (proj1 (X11_updateProcessingProgress_patches initialState
                  (ProcessingProgress.mkPartial None (Some 50%Q)
                     (Some "Processing documents...") None (Some 10) (Some 5)
                     None None)
                  emptyPartial) Hnone).
Defined.

(** ** Transcripts *)

Lemma sendMessage_accepted (st : AppState) (message : string) (now : Date) :
  chatEnabled st = true ->
  is_Some (companyContext st) ->
  messages (sendMessage st message now)
  = (messages st ++ exchange (message, now))%list
  /\ chatEnabled (sendMessage st message now) = true
  /\ companyContext (sendMessage st message now) = companyContext st.
Proof.
  intros Hon Hctx. unfold sendMessage. rewrite Hon.
  rewrite bool_decide_eq_true_2 by exact Hctx.
  destruct st; simpl in *. rewrite <- app_assoc. auto.
Qed.

Lemma sendAll_messages (questions : list (string * Date)) :
  forall st : AppState,
    chatEnabled st = true ->
    is_Some (companyContext st) ->
    messages (sendAll st questions)
    = (messages st ++ flat_map exchange questions)%list
    /\ chatEnabled (sendAll st questions) = true.
Proof.
  induction questions as [| [message now] rest IH]; intros st Hon Hctx.
  - simpl. rewrite app_nil_r. auto.
  - destruct (sendMessage_accepted st message now Hon Hctx)
      as (Hmsgs & Hon' & Hctx').
    change (sendAll st ((message, now) :: rest))
      with (sendAll (sendMessage st message now) rest).
    destruct (IH (sendMessage st message now) Hon') as [-> ->].
    + rewrite Hctx'. exact Hctx.
    + rewrite Hmsgs, <- app_assoc. auto.
Qed.

Lemma spaced_lower_bound (times : list Date) (t : Date) :
  spaced (t :: times) ->
  forall x, x ∈ flat_map (fun u => [u; u + 1]) times -> t + 2 <= x.
Proof.
  revert t. induction times as [| u rest IH]; intros t Hsp x Hx.
  - inversion Hx.
  - destruct Hsp as [Hgap Hrest]. simpl in Hx.
    apply elem_of_cons in Hx as [-> | Hx]; [lia |].
    apply elem_of_cons in Hx as [-> | Hx]; [lia |].
    pose proof (IH u Hrest x Hx). lia.
Qed.

Lemma spaced_NoDup (times : list Date) :
  spaced times -> NoDup (flat_map (fun u => [u; u + 1]) times).
Proof.
  induction times as [| t rest IH]; intros Hsp; [apply NoDup_nil; exact I |].
  assert (Hrest : spaced rest) by (destruct rest; [exact I | apply Hsp]).
  simpl. apply NoDup_cons. split.
  - intros Hin. apply elem_of_cons in Hin as [Heq | Hin]; [lia |].
    pose proof (spaced_lower_bound rest t Hsp t Hin). lia.
  - apply NoDup_cons. split; [| exact (IH Hrest)].
    intros Hin. pose proof (spaced_lower_bound rest t Hsp (t + 1) Hin). lia.
Qed.

Lemma exchange_ids (questions : list (string * Date)) :
  map Message.id (flat_map exchange questions)
  = map pretty (flat_map (fun u => [u; u + 1]) (map snd questions)).
Proof.
  induction questions as [| [message now] rest IH]; [reflexivity |].
  simpl. rewrite IH. reflexivity.
Qed.

(** X12: the transcript of a run of questions.  With chat enabled and a
    company context, every question is accepted: the transcript grows by the
    question and the placeholder reply, in order, two messages per question,
    and the chat stays enabled.  Starting from an empty transcript, the ids
    of all messages are pairwise distinct when the questions are sent at
    least two milliseconds apart; two questions one millisecond apart do
    share an id, that of the first reply and of the second question.  With
    chat disabled the whole run changes nothing. *)
Theorem X12_transcript_of_a_run :
  forall (st : AppState) (questions : list (string * Date)),
    (chatEnabled st = false -> sendAll st questions = st)
    /\ (chatEnabled st = true ->
        is_Some (companyContext st) ->
        messages (sendAll st questions)
        = (messages st ++ flat_map exchange questions)%list
        /\ length (messages (sendAll st questions))
           = (length (messages st) + 2 * length questions)%nat
        /\ chatEnabled (sendAll st questions) = true
        /\ (messages st = [] ->
            spaced (map snd questions) ->
            NoDup (map Message.id (messages (sendAll st questions))))
        /\ (forall (first second : string) (now : Date),
              ~ NoDup (map Message.id
                         (messages (sendAll st [(first, now);
                                                (second, now + 1)]))))).
Proof.
  intros st questions. split.
  - intros Hoff. induction questions as [| [message now] rest IH];
      [reflexivity |].
    change (sendAll st ((message, now) :: rest))
      with (sendAll (sendMessage st message now) rest).
    rewrite sendMessage_rejected by (left; exact Hoff). exact IH.
  - intros Hon Hctx.
    destruct (sendAll_messages questions st Hon Hctx) as [Hmsgs Hon'].
    split; [exact Hmsgs |]. split; [| split; [exact Hon' | split]].
    + rewrite Hmsgs, length_app. f_equal.
      clear. induction questions as [| q rest IH]; [reflexivity |].
      simpl. rewrite IH. lia.
    + intros Hempty Hsp. rewrite Hmsgs, Hempty. simpl.
      rewrite exchange_ids.
      apply (NoDup_fmap_2 (pretty : Z -> string)), spaced_NoDup, Hsp.
    + intros first second now Hnd.
      destruct (sendAll_messages [(first, now); (second, now + 1)] st Hon
                  Hctx) as [Hpair _].
      rewrite Hpair, map_app in Hnd.
      apply NoDup_app in Hnd as (_ & _ & Hnd). simpl in Hnd.
      apply NoDup_cons in Hnd as [_ Hnd].
      apply NoDup_cons in Hnd as [Hfresh _].
      apply Hfresh. apply elem_of_cons. left. reflexivity.
Qed.

(** Witness for X12: two questions to ACME, three seconds apart. *)
Lemma X12_witness_two_questions :
  chatEnabled chatACME = true
  /\ is_Some (companyContext chatACME)
  /\ messages chatACME = []
  /\ spaced (map snd [("What was revenue last year?", 9000);
                      ("Show me the key risks", 12000)])
  /\ NoDup (map Message.id
              (messages (sendAll chatACME
                           [("What was revenue last year?", 9000);
                            ("Show me the key risks", 12000)]))).
Proof.
  assert (Hon : chatEnabled chatACME = true) by reflexivity.
  assert (Hctx : is_Some (companyContext chatACME))
    by (exists contextACME; reflexivity).
  assert (Hempty : messages chatACME = []) by reflexivity.
  assert (Hsp : spaced (map snd [("What was revenue last year?", 9000);
                                 ("Show me the key risks", 12000)]))
    by (simpl; split; [lia | exact I]).
  split; [exact Hon |]. split; [exact Hctx |]. split; [exact Hempty |].
  split; [exact Hsp |].
  exact (proj1 (proj2 (proj2 (proj2
           (proj2 (X12_transcript_of_a_run chatACME
                     [("What was revenue last year?", 9000);
                      ("Show me the key risks", 12000)]) Hon Hctx))))
           Hempty Hsp).
Defined.

(** * Further properties of the status panel *)

(** X13: the overall progress is a percentage.  [getPhaseProgress] never
    exceeds 100, and it is not negative when the counters are not negative.
    It is 0 in the complete and error phases, so the bar shows 100 for a
    complete job and falls to 0 for a failed one, whatever had been done.
    With counters in range each phase has its own quarter of the scale:
    0 to 25 while scraping, 25 to 50 while parsing, 75 to 100 while
    vectorizing. *)
Theorem X13_progress_is_a_percentage :
  forall s : ProcessingStatus,
    let found := ProcessingStatus.documentsFound s in
    let processed := ProcessingStatus.documentsProcessed s in
    let created := ProcessingStatus.chunksCreated s in
    let vectorized := ProcessingStatus.chunksVectorized s in
    (getPhaseProgress s <= 100)%Q
    /\ (0 <= processed -> 0 <= created -> 0 <= vectorized ->
        (0 <= getPhaseProgress s)%Q)
    /\ (ProcessingStatus.phase s = Complete ->
        getPhaseProgress s = 0%Q /\ displayedProgress s = 100%Q)
    /\ (ProcessingStatus.phase s = Error ->
        getPhaseProgress s = 0%Q /\ displayedProgress s = 0%Q)
    /\ (0 <= processed <= found ->
        0 <= vectorized <= created ->
        match ProcessingStatus.phase s with
        | Scraping => (0 <= getPhaseProgress s <= 25)%Q
        | Parsing => (25 <= getPhaseProgress s <= 50)%Q
        | Vectorizing => (75 <= getPhaseProgress s <= 100)%Q
        | _ => True
        end).
Proof.
  intros s found processed created vectorized.
  subst found processed created vectorized.
  pose proof (getPhaseProgress_cases s) as Hcases. cbv zeta in Hcases.
  split; [| split; [| split; [| split]]].
  - destruct (ProcessingStatus.phase s); try rewrite Hcases;
      try apply Q.le_min_r; discriminate.
  - intros Hprocessed Hcreated Hvectorized.
    pose proof (counterRatio_nonneg (ProcessingStatus.documentsProcessed s)
                  (ProcessingStatus.documentsFound s) Hprocessed).
    pose proof (counterRatio_nonneg (ProcessingStatus.chunksCreated s)
                  (ProcessingStatus.documentsProcessed s * 10) Hcreated).
    pose proof (counterRatio_nonneg (ProcessingStatus.chunksVectorized s)
                  (ProcessingStatus.chunksCreated s) Hvectorized).
    destruct (ProcessingStatus.phase s); rewrite Hcases;
      try (apply Q.min_glb; lra); discriminate.
  - intros Hphase. rewrite Hphase in Hcases. split; [exact Hcases |].
    unfold displayedProgress. rewrite Hphase. reflexivity.
  - intros Hphase. rewrite Hphase in Hcases. split; [exact Hcases |].
    unfold displayedProgress. rewrite Hphase. exact Hcases.
  - intros Hdocs Hchunks.
    pose proof (counterRatio_bounds _ _ Hdocs) as [Hd0 Hd1].
    pose proof (counterRatio_bounds _ _ Hchunks) as [Hc0 Hc1].
    destruct (ProcessingStatus.phase s); try exact I; rewrite Hcases;
      rewrite Q.min_l by lra; lra.
Qed.

(** Witness for X13: parsing AAPL with 3 of 10 documents lies between 25
    and 50. *)
Lemma X13_witness_parsing_band :
  0 <= 3 <= 10
  /\ 0 <= 0 <= 0
  /\ (25 <= getPhaseProgress (parsingAAPL 10 3) <= 50)%Q.
Proof.
  assert (Hdocs : 0 <= 3 <= 10) by lia.
  assert (Hchunks : 0 <= 0 <= 0) by lia.
  split; [exact Hdocs |]. split; [exact Hchunks |].
  exact (proj2 (proj2 (proj2 (proj2
           (X13_progress_is_a_percentage (parsingAAPL 10 3))))) Hdocs
           Hchunks).
Defined.

(** X14: the chunking phase assumes ten chunks per document.  With
    documents processed, its progress starts at 50 with no chunk created and
    stays in the third quarter (50 to 75) as long as there are at most ten
    chunks per document.  From eleven chunks per document on it is 76 or
    more, so when the vectorizing phase then starts with no chunk
    vectorized, the bar moves backwards to 75. *)
Theorem X14_chunking_progress_overshoots :
  forall s : ProcessingStatus,
    let processed := ProcessingStatus.documentsProcessed s in
    let created := ProcessingStatus.chunksCreated s in
    ProcessingStatus.phase s = Chunking ->
    0 < processed ->
    0 <= created ->
    (50 <= getPhaseProgress s <= 100)%Q
    /\ (created = 0 -> (getPhaseProgress s == 50)%Q)
    /\ (created <= 10 * processed -> (getPhaseProgress s <= 75)%Q)
    /\ (11 * processed <= created ->
        (76 <= getPhaseProgress s)%Q
        /\ forall next : ProcessingStatus,
             ProcessingStatus.phase next = Vectorizing ->
             ProcessingStatus.chunksVectorized next = 0 ->
             (getPhaseProgress next == 75)%Q
             /\ (getPhaseProgress next < getPhaseProgress s)%Q).
Proof.
  intros s processed created Hphase Hprocessed Hcreated.
  subst processed created.
  pose proof (getPhaseProgress_cases s) as Hcases. cbv zeta in Hcases.
  rewrite Hphase in Hcases.
  set (p := ProcessingStatus.documentsProcessed s) in *.
  set (c := ProcessingStatus.chunksCreated s) in *.
  assert (Hden : 0 < p * 10) by lia.
  pose proof (counterRatio_nonneg c (p * 10) Hcreated) as Hnonneg.
  split; [| split; [| split]].
  - split; [| rewrite Hcases; apply Q.le_min_r].
    rewrite Hcases. apply Q.min_glb; lra.
  - intros Hzero. rewrite Hcases, Hzero, counterRatio_nothing_done.
    rewrite Q.min_l by lra. ring.
  - intros Hten.
    assert (Hcount : 0 <= c <= p * 10) by lia.
    pose proof (counterRatio_bounds c (p * 10) Hcount) as [_ Hone].
    rewrite Hcases. rewrite Q.min_l by lra. lra.
  - intros Heleven.
    assert (Hover : (11 # 10 <= counterRatio c (p * 10))%Q).
    { assert (Hfrac : (counterRatio 11 10 == 11 # 10)%Q) by reflexivity.
      rewrite <- Hfrac. apply counterRatio_le; lia. }
    assert (Hs : (76 <= getPhaseProgress s)%Q).
    { rewrite Hcases. apply Q.min_glb; lra. }
    split; [exact Hs |].
    intros next Hnext Hzero.
    pose proof (getPhaseProgress_cases next) as Hvec. cbv zeta in Hvec.
    rewrite Hnext, Hzero in Hvec.
    assert (Hnext75 : (getPhaseProgress next == 75)%Q).
    { rewrite Hvec, counterRatio_nothing_done. rewrite Q.min_l; lra. }
    split; [exact Hnext75 |]. rewrite Hnext75. lra.
Qed.

(** Witness for X14: 10 documents gave 150 chunks; chunking shows 76 or
    more and the vectorizing phase starts below it. *)
Lemma X14_witness_fifteen_chunks_per_document :
  ProcessingStatus.phase (chunkingAAPL 10 150) = Chunking
  /\ 0 < 10
  /\ 0 <= 150
  /\ 11 * 10 <= 150
  /\ (getPhaseProgress (vectorizingAAPL 150 0)
      < getPhaseProgress (chunkingAAPL 10 150))%Q.
Proof.
  assert (Hphase : ProcessingStatus.phase (chunkingAAPL 10 150) = Chunking)
    by reflexivity.
  assert (Hp : 0 < 10) by lia.
  assert (Hc : 0 <= 150) by lia.
  assert (Hover : 11 * 10 <= 150) by lia.
  split; [exact Hphase |]. split; [exact Hp |]. split; [exact Hc |].
  split; [exact Hover |].
  exact (proj2 (proj2 (proj2 (proj2 (proj2
           (X14_chunking_progress_overshoots (chunkingAAPL 10 150)
              Hphase Hp Hc))) Hover)
           (vectorizingAAPL 150 0) eq_refl eq_refl)).
Defined.

(** X15: which estimate is shown.  An estimate sent by the server wins
    whenever it is not zero, whatever the panel has measured; a server
    estimate of zero counts as absent and the panel computes its own.  Of
    two statuses measured at the same moment, the one further along gets
    the smaller computed estimate. *)
Theorem X15_server_estimate_first_and_monotone :
  forall (s : ProcessingStatus) (p : PanelState),
    (forall e : Q,
       ProcessingStatus.estimatedTimeRemaining s = Some e ->
       ~ (e == 0)%Q ->
       calculateEstimatedTimeRemaining s p = Some e)
    /\ (forall e : Q,
          ProcessingStatus.estimatedTimeRemaining s = Some e ->
          (e == 0)%Q ->
          calculateEstimatedTimeRemaining s p
          = calculateEstimatedTimeRemaining
              (ProcessingStatus.withEstimate s None) p)
    /\ (forall (further : ProcessingStatus) (e1 e2 : Q),
          ProcessingStatus.estimatedTimeRemaining s = None ->
          ProcessingStatus.estimatedTimeRemaining further = None ->
          calculateEstimatedTimeRemaining s p = Some e1 ->
          calculateEstimatedTimeRemaining further p = Some e2 ->
          (getPhaseProgress s <= getPhaseProgress further)%Q ->
          (e2 <= e1)%Q).
Proof.
  intros s p. split; [| split].
  - intros e He Hnz. unfold calculateEstimatedTimeRemaining, truthyNumber.
    rewrite He.
    destruct (Qeq_bool e 0) eqn:Hb; [| reflexivity].
    apply Qeq_bool_iff in Hb. contradiction.
  - intros e He Hz. unfold calculateEstimatedTimeRemaining, truthyNumber.
    rewrite He. apply Qeq_bool_iff in Hz. rewrite Hz. simpl.
    destruct s; reflexivity.
  - intros further e1 e2 Hnone Hnone' He1 He2 Hle.
    unfold calculateEstimatedTimeRemaining in He1, He2.
    rewrite Hnone in He1. rewrite Hnone' in He2.
    apply estimateFromRate_some in He1 as (Hel & _ & Hlo1 & Hhi1 & ->).
    apply estimateFromRate_some in He2 as (_ & _ & Hlo2 & Hhi2 & ->).
    set (g1 := getPhaseProgress s) in *.
    set (g2 := getPhaseProgress further) in *.
    set (t := inject_Z (elapsedTime p)).
    assert (Ht : (0 <= t)%Q).
    { subst t. change 0%Q with (inject_Z 0). rewrite <- Zle_Qle. lia. }
    apply Q.max_le_compat_r.
    apply Qmult_le_compat_r; [| exact Ht].
    apply Qle_shift_div_r; [exact Hlo2 |].
    assert (Hback : ((100 - g1) / g1 * g1 == 100 - g1)%Q).
    { field. intros H0. rewrite H0 in Hlo1. lra. }
    assert (Hratio : (0 <= (100 - g1) / g1)%Q).
    { apply Qle_shift_div_l; [exact Hlo1 | lra]. }
    assert (Hgrow : ((100 - g1) / g1 * g1 <= (100 - g1) / g1 * g2)%Q).
    { rewrite (Qmult_comm _ g1), (Qmult_comm _ g2).
      apply Qmult_le_compat_r; assumption. }
    lra.
Qed.

(** Witness for X15: the server says 180 seconds for AAPL. *)
Lemma X15_witness_server_estimate :
  ProcessingStatus.estimatedTimeRemaining
    (ProcessingStatus.withEstimate (scrapingAAPL 2 1) (Some 180%Q))
  = Some 180%Q
  /\ ~ (180 == 0)%Q
  /\ calculateEstimatedTimeRemaining
       (ProcessingStatus.withEstimate (scrapingAAPL 2 1) (Some 180%Q))
       panelAfter40s
     = Some 180%Q.
Proof.
  assert (He :
    ProcessingStatus.estimatedTimeRemaining
      (ProcessingStatus.withEstimate (scrapingAAPL 2 1) (Some 180%Q))
    = Some 180%Q) by reflexivity.
  assert (Hnz : ~ (180 == 0)%Q) by (intros H; discriminate H).
  split; [exact He |]. split; [exact Hnz |].
  exact (proj1 (X15_server_estimate_first_and_monotone
                  (ProcessingStatus.withEstimate (scrapingAAPL 2 1)
                     (Some 180%Q)) panelAfter40s) 180%Q He Hnz).
Defined.

(** ** Formatting a duration *)

Lemma secondsField_digits (r : Z) :
  0 <= r < 60 -> secondsField r = pretty (r / 10) ++ pretty (r mod 10).
Proof.
  intros Hr.
  assert (Hall : forallb
            (fun x => String.eqb (secondsField x)
                        (pretty (x / 10) ++ pretty (x mod 10)))
            (seqZ 0 60) = true) by (vm_compute; reflexivity).
  rewrite forallb_forall in Hall.
  apply String.eqb_eq, Hall, list_elem_of_In, elem_of_seqZ. lia.
Qed.

Lemma secondsField_inj (r r' : Z) :
  0 <= r < 60 -> 0 <= r' < 60 -> secondsField r = secondsField r' -> r = r'.
Proof.
  intros Hr Hr' Heq.
  assert (Hall : forallb
            (fun x => forallb
               (fun y => implb (String.eqb (secondsField x) (secondsField y))
                           (Z.eqb x y))
               (seqZ 0 60))
            (seqZ 0 60) = true) by (vm_compute; reflexivity).
  rewrite forallb_forall in Hall.
  assert (Hx : In r (seqZ 0 60))
    by (apply list_elem_of_In, elem_of_seqZ; lia).
  assert (Hy : In r' (seqZ 0 60))
    by (apply list_elem_of_In, elem_of_seqZ; lia).
  pose proof (Hall r Hx) as Hrow. rewrite forallb_forall in Hrow.
  pose proof (Hrow r' Hy) as Hcell.
  apply String.eqb_eq in Heq. rewrite Heq in Hcell. simpl in Hcell.
  apply Z.eqb_eq, Hcell.
Qed.

Lemma secondsField_length (r : Z) :
  0 <= r < 60 -> String.length (secondsField r) = 2%nat.
Proof.
  intros Hr.
  assert (Hall : forallb
            (fun x => Nat.eqb (String.length (secondsField x)) 2)
            (seqZ 0 60) = true) by (vm_compute; reflexivity).
  rewrite forallb_forall in Hall.
  apply Nat.eqb_eq, Hall, list_elem_of_In, elem_of_seqZ. lia.
Qed.

Lemma string_app_length (a b : string) :
  String.length (a ++ b) = (String.length a + String.length b)%nat.
Proof. induction a as [| c a IH]; simpl; [reflexivity | rewrite IH; reflexivity]. Qed.

Lemma string_app_inj (a b u v : string) :
  String.length a = String.length b ->
  a ++ u = b ++ v -> a = b /\ u = v.
Proof.
  revert b. induction a as [| c a IH]; intros [| d b] Hlen Heq;
    simpl in *; try discriminate.
  - auto.
  - injection Heq as -> Heq. injection Hlen as Hlen.
    destruct (IH b Hlen Heq) as [-> ->]. auto.
Qed.

(** X16: how a duration is shown.  For a number of seconds that is not
    negative, [formatTime] gives the minutes in decimal, a colon, and the
    seconds within the minute as exactly two decimal digits; different
    durations are shown differently. *)
Theorem X16_formatTime_minutes_and_two_digits :
  forall seconds : Z,
    0 <= seconds ->
    formatTime seconds
    = pretty (seconds / 60) ++ ":"
      ++ pretty (seconds mod 60 / 10) ++ pretty (seconds mod 60 mod 10)
    /\ String.length (formatTime seconds)
       = Nat.add (String.length (pretty (seconds / 60))) 3
    /\ forall other : Z,
         0 <= other -> formatTime seconds = formatTime other ->
         seconds = other.
Proof.
  intros seconds Hnonneg.
  assert (Hshape : forall x : Z,
            0 <= x ->
            formatTime x = pretty (x / 60) ++ ":" ++ secondsField (x mod 60)).
  { intros x Hx. unfold formatTime, secondsField.
    rewrite Z.rem_mod_nonneg by lia. reflexivity. }
  assert (Hmod : forall x : Z, 0 <= x mod 60 < 60)
    by (intros x; apply Z.mod_pos_bound; lia).
  assert (Hlen : forall x : Z,
            0 <= x ->
            String.length (formatTime x)
            = Nat.add (String.length (pretty (x / 60))) 3).
  { intros x Hx. rewrite (Hshape x Hx), !string_app_length.
    rewrite secondsField_length by apply Hmod. reflexivity. }
  split; [| split; [apply Hlen, Hnonneg |]].
  - rewrite (Hshape seconds Hnonneg), secondsField_digits by apply Hmod.
    reflexivity.
  - intros other Hother Heq.
    assert (Hsame : String.length (pretty (seconds / 60))
                    = String.length (pretty (other / 60))).
    { pose proof (Hlen seconds Hnonneg) as H1.
      pose proof (Hlen other Hother) as H2. rewrite Heq in H1. lia. }
    rewrite (Hshape seconds Hnonneg), (Hshape other Hother) in Heq.
    apply (string_app_inj _ _ _ _ Hsame) in Heq as [Hmins Hsecs].
    apply (inj pretty) in Hmins. injection Hsecs as Hsecs.
    apply secondsField_inj in Hsecs; [| apply Hmod | apply Hmod].
    rewrite (Z.div_mod seconds 60), (Z.div_mod other 60) by lia. lia.
Qed.

(** Witness for X16: 125 seconds are shown as 2:05. *)
Lemma X16_witness_two_minutes_five :
  0 <= 125 /\ formatTime 125 = "2:05".
Proof.
  assert (Hnonneg : 0 <= 125) by lia.
  split; [exact Hnonneg |].
  exact (proj1 (X16_formatTime_minutes_and_two_digits 125 Hnonneg)).
Defined.

(** ** The stepper *)

(** X17: the marks of the stepper.  No step is ever marked as failed: the
    error phase is not one of the steps, so in the error phase no step is
    active and none is completed.  In the complete phase every step is
    completed and none is active.  In each of the four working phases the
    step of that phase is the one active step and exactly the steps before
    it are completed. *)
Theorem X17_stepper_marks :
  forall (s : ProcessingStatus) (index : Z),
    0 <= index ->
    hasError s index = false
    /\ (ProcessingStatus.phase s = Error ->
        isActive s index = false /\ isCompleted s index = false)
    /\ (ProcessingStatus.phase s = Complete ->
        isActive s index = false /\ isCompleted s index = true)
    /\ (ProcessingStatus.phase s <> Error ->
        ProcessingStatus.phase s <> Complete ->
        0 <= getCurrentStepIndex s < 4
        /\ (key <$> PHASE_STEPS !! Z.to_nat (getCurrentStepIndex s))
           = Some (ProcessingStatus.phase s)
        /\ isActive s index = Z.eqb index (getCurrentStepIndex s)
        /\ isCompleted s index = Z.ltb index (getCurrentStepIndex s)).
Proof.
  intros s index Hindex.
  unfold hasError, isActive, isCompleted, getCurrentStepIndex.
  destruct (ProcessingStatus.phase s);
    cbn [findIndex findIndexFrom PHASE_STEPS key bool_decide]; simpl;
    repeat split; try discriminate; try contradiction; try lia;
    try (intros; apply orb_false_r);
    try (destruct (Z.eqb_spec index (-1)); [lia | reflexivity]);
    try (destruct (Z.ltb_spec index (-1)); [lia | reflexivity]).
  all: try (apply orb_true_r).
Qed.

(** Witness for X17: on an error status the first step is neither active,
    nor completed, nor marked as failed. *)
Lemma X17_witness_error_status :
  0 <= 0
  /\ hasError (ProcessingStatus.withError (parsingAAPL 10 3) "boom") 0 = false
  /\ isActive (ProcessingStatus.withError (parsingAAPL 10 3) "boom") 0 = false.
Proof.
  assert (Hindex : 0 <= 0) by lia.
  split; [exact Hindex |].
  pose proof (X17_stepper_marks
                (ProcessingStatus.withError (parsingAAPL 10 3) "boom") 0
                Hindex) as (Hmark & Herror & _).
  split; [exact Hmark |]. exact (proj1 (Herror eq_refl)).
Defined.

Lemma progressValue_ratio (s : ProcessingStatus) (step : PhaseStep)
    (num den : Z) :
  key step = ProcessingStatus.phase s ->
  phaseCounters s = Some (num, den) ->
  (progressValue step s == 100 * counterRatio num den)%Q.
Proof.
  intros Hkey Hc. unfold progressValue, counterRatio. rewrite Hkey.
  unfold phaseCounters in Hc.
  destruct (ProcessingStatus.phase s); try discriminate Hc;
    injection Hc as <- <-; destruct (Z.ltb 0 _); ring.
Qed.

(** X18: the bar inside the active step.  It shows 0, an indeterminate
    bar, while chunking, when the denominator of the phase is not positive
    and when nothing of the phase is done; with a positive denominator it is
    positive exactly when the numerator is.  It shows 100 when numerator and
    denominator are equal and stays between 0 and 100 for counters in range.
    Of two snapshots of one phase, the one with the larger fraction shows no
    less on the bar of the step and no less on the overall bar: the two bars
    never disagree on which snapshot is further. *)
Theorem X18_step_bar_and_overall_bar :
  forall (s : ProcessingStatus) (step : PhaseStep),
    key step = ProcessingStatus.phase s ->
    (ProcessingStatus.phase s = Chunking -> progressValue step s = 0%Q)
    /\ forall num den : Z,
         phaseCounters s = Some (num, den) ->
         (den <= 0 -> (progressValue step s == 0)%Q)
         /\ (0 < den -> ((0 < progressValue step s)%Q <-> 0 < num))
         /\ (0 < den -> num = 0 -> (progressValue step s == 0)%Q)
         /\ (0 < den -> num = den -> (progressValue step s == 100)%Q)
         /\ (0 <= num <= den -> (0 <= progressValue step s <= 100)%Q)
         /\ (forall (s' : ProcessingStatus) (num' den' : Z),
               ProcessingStatus.phase s' = ProcessingStatus.phase s ->
               phaseCounters s' = Some (num', den') ->
               0 < den -> 0 < den' ->
               num * den' <= num' * den ->
               (progressValue step s <= progressValue step s')%Q
               /\ (getPhaseProgress s <= getPhaseProgress s')%Q).
Proof.
  intros s step Hkey. split.
  { intros Hphase. unfold progressValue. rewrite Hkey, Hphase. reflexivity. }
  intros num den Hc.
  pose proof (progressValue_ratio s step num den Hkey Hc) as Hv.
  split; [| split; [| split; [| split; [| split]]]].
  - intros Hden. rewrite Hv, (counterRatio_no_denominator num den Hden).
    ring.
  - intros Hden. rewrite Hv, <- (counterRatio_pos num den Hden).
    split; intros H; lra.
  - intros _ ->. rewrite Hv, counterRatio_nothing_done. ring.
  - intros Hden ->. rewrite Hv, (counterRatio_all_done den Hden). ring.
  - intros Hcount.
    pose proof (counterRatio_bounds num den Hcount) as [Hr0 Hr1].
    rewrite Hv. split; lra.
  - intros s' num' den' Hphase Hc' Hden Hden' Hcross.
    pose proof (counterRatio_le num den num' den' Hden Hden' Hcross) as Hle.
    assert (Hkey' : key step = ProcessingStatus.phase s')
      by (rewrite Hphase; exact Hkey).
    split.
    + rewrite Hv, (progressValue_ratio s' step num' den' Hkey' Hc'). lra.
    + rewrite (getPhaseProgress_ratio s num den Hc),
        (getPhaseProgress_ratio s' num' den' Hc'), Hphase.
      apply Q.min_le_compat_r. lra.
Qed.

(** Witness for X18: parsing AAPL with 3 of 10 documents: the bar of the
    step is determinate. *)
Lemma X18_witness_parsing_three_of_ten :
  key (mkPhaseStep Parsing "Parsing Documents"
         "Extracting content from various document formats")
  = ProcessingStatus.phase (parsingAAPL 10 3)
  /\ phaseCounters (parsingAAPL 10 3) = Some (3, 10)
  /\ 0 < 10
  /\ 0 < 3
  /\ (0 < progressValue
            (mkPhaseStep Parsing "Parsing Documents"
               "Extracting content from various document formats")
            (parsingAAPL 10 3))%Q.
Proof.
  assert (Hkey :
    key (mkPhaseStep Parsing "Parsing Documents"
           "Extracting content from various document formats")
    = ProcessingStatus.phase (parsingAAPL 10 3)) by reflexivity.
  assert (Hc : phaseCounters (parsingAAPL 10 3) = Some (3, 10))
    by reflexivity.
  assert (Hden : 0 < 10) by lia.
  assert (Hnum : 0 < 3) by lia.
  split; [exact Hkey |]. split; [exact Hc |]. split; [exact Hden |].
  split; [exact Hnum |].
  exact (proj2 (proj1 (proj2
           (proj2 (X18_step_bar_and_overall_bar (parsingAAPL 10 3)
              (mkPhaseStep Parsing "Parsing Documents"
                 "Extracting content from various document formats")
              Hkey) 3 10 Hc)) Hden) Hnum).
Defined.

(** * Further properties of the components *)

(** ** Cancelling from the panel *)

(** X19: the cancel button of the panel inside the shell.  When the cancel
    request succeeds, what remains is exactly [resetWorkflow] of the state
    before: the cancelled status with its reason is wiped at once, the
    workflow is back in the input phase, the panel is gone, polling has
    stopped, and a new submission is accepted.  When the request fails, the
    failure is swallowed: store and refs stay as they were, so the job is
    still shown as running and polled.  Without an [onCancel] prop the
    cancelled status stays recorded. *)
Theorem X19_cancel_button_in_the_shell :
  forall (st : AppState) (r : Refs) (rendered : option ProcessingStatus)
         (status : ProcessingStatus) (response : ApiResult unit),
    let o := handleCancel st r rendered status response
               (Some handleCancelProcessing) in
    settled o = Some tt
    /\ issued o = [PostCompanyCancel (ProcessingStatus.ticker status)]
    /\ (response = Resolved tt ->
        store o = resetWorkflow st
        /\ currentPhase (store o) = Input
        /\ processingStatus (store o) = None
        /\ panelShown (store o) = false
        /\ isPollingRef (refs o) = false
        /\ intervalRef (refs o) = None
        /\ forall (request : CompanyProcessingRequest) (t0 : Date)
                  (answer : ApiResult string) (t1 : Date),
             snd (handleProcessingRequest (store o) request t0 answer t1)
             = [PostCompaniesProcess request])
    /\ (response <> Resolved tt -> store o = st /\ refs o = r)
    /\ (forall ps : ProcessingStatus,
          rendered = Some ps ->
          processingStatus
            (store (handleCancel st r rendered status (Resolved tt) None))
          = Some (ProcessingStatus.withError ps cancellationReason)).
Proof.
  intros st r rendered status response o. subst o.
  assert (Hreset : forall x : ProcessingStatus,
            resetWorkflow
              (updateProcessingStatus st
                 (ProcessingStatus.withError x cancellationReason))
            = resetWorkflow st).
  { intros x. rewrite updateProcessingStatus_incomplete by discriminate.
    destruct st; reflexivity. }
  unfold handleCancel, handleCancelProcessing, cancelProcessing.
  destruct response as [[] | message |]; cbn [settled store refs issued].
  - split; [reflexivity |]. split; [reflexivity |].
    assert (Hstore :
      resetWorkflow
        (match rendered with
         | Some ps =>
             updateProcessingStatus st
               (ProcessingStatus.withError ps cancellationReason)
         | None => st
         end) = resetWorkflow st)
      by (destruct rendered; [apply Hreset | reflexivity]).
    rewrite Hstore.
    split; [| split; [intros Hne; contradiction |]].
    + intros _. split; [reflexivity |].
      do 3 (split; [destruct st; reflexivity |]).
      do 2 (split; [reflexivity |]).
      intros request t0 answer t1.
      apply startProcessing_accepted. destruct st; reflexivity.
    + intros ps ->. apply updateProcessingStatus_records.
  - split; [reflexivity |]. split; [reflexivity |].
    split; [discriminate |]. split; [auto |].
    intros ps ->. apply updateProcessingStatus_records.
  - split; [reflexivity |]. split; [reflexivity |].
    split; [discriminate |]. split; [auto |].
    intros ps ->. apply updateProcessingStatus_records.
Qed.

(** Witness for X19: the parsing of AAPL is cancelled from the panel. *)
Lemma X19_witness_cancel_while_parsing :
  Resolved tt = Resolved tt
  /\ store (handleCancel
              (updateProcessingStatus submittedAAPL (parsingAAPL 10 3))
              (mkRefs (Some 7%nat) true {[7%nat]})
              (Some (parsingAAPL 10 3)) (parsingAAPL 10 3) (Resolved tt)
              (Some handleCancelProcessing))
     = resetWorkflow
         (updateProcessingStatus submittedAAPL (parsingAAPL 10 3)).
Proof.
  split; [reflexivity |].
  exact (proj1 (proj1 (proj2 (proj2
           (X19_cancel_button_in_the_shell
              (updateProcessingStatus submittedAAPL (parsingAAPL 10 3))
              (mkRefs (Some 7%nat) true {[7%nat]})
              (Some (parsingAAPL 10 3)) (parsingAAPL 10 3) (Resolved tt))))
           eq_refl)).
Defined.

(** ** The input form *)

(** X20: what the form lets through.  A blank debounced ticker asks the
    backend nothing and clears the validation; a failed validation request
    leaves an error and no validation; in both cases a submit is refused
    with the message to enter a valid ticker.  After an answered validation
    the submit goes through exactly when the answer says the ticker is
    valid, and it carries the upper-cased text of the field and the selected
    range.  Whenever the button is enabled, the submit goes through. *)
Theorem X20_form_submits_only_validated :
  forall (toUpperCase trim : string -> string) (s : CompanyInputForm.State)
         (debouncedTicker : string)
         (response : ApiResult TickerValidationResponse),
    let after :=
      fst (CompanyInputForm.validateTicker toUpperCase trim s debouncedTicker
             response) in
    let asked :=
      snd (CompanyInputForm.validateTicker toUpperCase trim s debouncedTicker
             response) in
    (truthyString (trim debouncedTicker) = false ->
     asked = None
     /\ CompanyInputForm.validationResult after = None
     /\ snd (CompanyInputForm.handleSubmit toUpperCase after) = None)
    /\ (truthyString (trim debouncedTicker) = true ->
        asked = Some (toUpperCase debouncedTicker)
        /\ CompanyInputForm.isValidating after = false
        /\ match response with
           | Resolved data =>
               CompanyInputForm.validationResult after = Some data
               /\ CompanyInputForm.error after = None
               /\ snd (CompanyInputForm.handleSubmit toUpperCase after)
                  = (if TickerValidationResponse.isValid data
                     then Some (CompanyProcessingRequest.mk
                                  (toUpperCase (CompanyInputForm.ticker s))
                                  (CompanyInputForm.timeRange s))
                     else None)
           | _ =>
               CompanyInputForm.error after
               = Some "Failed to validate ticker. Please try again."
               /\ snd (CompanyInputForm.handleSubmit toUpperCase after)
                  = None
           end)
    /\ (snd (CompanyInputForm.handleSubmit toUpperCase s) = None ->
        CompanyInputForm.error
          (fst (CompanyInputForm.handleSubmit toUpperCase s))
        = Some "Please enter a valid company ticker")
    /\ (forall isProcessing : bool,
          CompanyInputForm.isFormValid s isProcessing = true ->
          snd (CompanyInputForm.handleSubmit toUpperCase s)
          = Some (CompanyProcessingRequest.mk
                    (toUpperCase (CompanyInputForm.ticker s))
                    (CompanyInputForm.timeRange s))).
Proof.
  intros toUpperCase trim s debouncedTicker response after asked.
  subst after asked.
  unfold CompanyInputForm.validateTicker, CompanyInputForm.handleSubmit,
    CompanyInputForm.isFormValid, CompanyInputForm.validated.
  split; [| split; [| split]].
  - intros ->. simpl. auto.
  - intros ->. simpl. destruct response as [data | message |]; simpl.
    + repeat split. destruct (TickerValidationResponse.isValid data);
        reflexivity.
    + repeat split.
    + repeat split.
  - destruct (CompanyInputForm.validationResult s) as [v |]; simpl;
      [destruct (TickerValidationResponse.isValid v); simpl |];
      (discriminate || reflexivity).
  - intros isProcessing.
    destruct (CompanyInputForm.validationResult s) as [v |]; simpl;
      [destruct (TickerValidationResponse.isValid v); simpl |];
      (discriminate || reflexivity).
Qed.

(** Witness for X20: an empty field is validated and submitted. *)
Lemma X20_witness_blank_ticker :
  truthyString (id "") = false
  /\ snd (CompanyInputForm.handleSubmit id
            (fst (CompanyInputForm.validateTicker id id CompanyInputForm.initial
                    "" RejectedOther)))
     = None.
Proof.
  assert (Hblank : truthyString (id "") = false) by reflexivity.
  split; [exact Hblank |].
  exact (proj2 (proj2 (proj1
           (X20_form_submits_only_validated id id CompanyInputForm.initial ""
              RejectedOther) Hblank))).
Defined.

(** X21: the form submits the text of the field, not the ticker that was
    validated.  Editing the field keeps the last validation result, so a
    submit made right after an edit, before the next validation has come
    back, goes through on the strength of the former ticker and carries the
    edited one. *)
Theorem X21_edit_keeps_former_validation :
  forall (toUpperCase trim : string -> string) (s : CompanyInputForm.State)
         (debouncedTicker : string) (data : TickerValidationResponse)
         (value : string),
    truthyString (trim debouncedTicker) = true ->
    TickerValidationResponse.isValid data = true ->
    let validated :=
      fst (CompanyInputForm.validateTicker toUpperCase trim s debouncedTicker
             (Resolved data)) in
    let edited :=
      CompanyInputForm.handleTickerChange toUpperCase validated value in
    CompanyInputForm.validationResult edited = Some data
    /\ CompanyInputForm.ticker edited = toUpperCase value
    /\ CompanyInputForm.isFormValid edited false = true
    /\ snd (CompanyInputForm.handleSubmit toUpperCase edited)
       = Some (CompanyProcessingRequest.mk (toUpperCase (toUpperCase value))
                 (CompanyInputForm.timeRange s)).
Proof.
  intros toUpperCase trim s debouncedTicker data value Hfilled Hvalid
    validated edited.
  subst validated edited.
  unfold CompanyInputForm.validateTicker, CompanyInputForm.handleSubmit,
    CompanyInputForm.handleTickerChange, CompanyInputForm.isFormValid,
    CompanyInputForm.validated.
  rewrite Hfilled. simpl. rewrite Hvalid. simpl. repeat split.
Qed.

(** Witness for X21: AAPL was validated, then the field was changed to
    XYZ and submitted. *)
Lemma X21_witness_edit_after_validation :
  truthyString (id "AAPL") = true
  /\ TickerValidationResponse.isValid
       (TickerValidationResponse.mk "AAPL" true (Some "Apple Inc.") [])
     = true
  /\ snd (CompanyInputForm.handleSubmit id
            (CompanyInputForm.handleTickerChange id
               (fst (CompanyInputForm.validateTicker id id
                       (CompanyInputForm.mkState "AAPL" Years3 false None None)
                       "AAPL"
                       (Resolved (TickerValidationResponse.mk "AAPL" true
                                    (Some "Apple Inc.") []))))
               "XYZ"))
     = Some (CompanyProcessingRequest.mk "XYZ" Years3).
Proof.
  assert (Hfilled : truthyString (id "AAPL") = true) by reflexivity.
  assert (Hvalid :
    TickerValidationResponse.isValid
      (TickerValidationResponse.mk "AAPL" true (Some "Apple Inc.") [])
    = true) by reflexivity.
  split; [exact Hfilled |]. split; [exact Hvalid |].
  exact (proj2 (proj2 (proj2
           (X21_edit_keeps_former_validation id id
              (CompanyInputForm.mkState "AAPL" Years3 false None None)
              "AAPL"
              (TickerValidationResponse.mk "AAPL" true (Some "Apple Inc.") [])
              "XYZ" Hfilled Hvalid)))).
Defined.

(** ** The company selector *)

Lemma selectCompany_keeps (st : AppState) (company c : Company) :
  c ∈ selectedCompanies st -> c ∈ selectedCompanies (selectCompany st company).
Proof.
  intros Hin. unfold selectCompany.
  destruct (existsb _ (selectedCompanies st)); [exact Hin |].
  destruct st; simpl in *. apply elem_of_app. left. exact Hin.
Qed.

Lemma selectedTickers_elem (st : AppState) (ticker : string) :
  ticker ∈ selectedTickers st
  <-> exists c, c ∈ selectedCompanies st /\ Company.ticker c = ticker.
Proof.
  unfold selectedTickers. rewrite list_elem_of_In, in_map_iff. split.
  - intros (c & Heq & Hc). exists c.
    split; [apply list_elem_of_In, Hc | exact Heq].
  - intros (c & Hc & Heq). exists c.
    split; [exact Heq | apply list_elem_of_In, Hc].
Qed.

Lemma selectOne_fold (rendered : list Company) (value : list Company) :
  forall acc : CompanySelector.Result,
    let res := fold_left (CompanySelector.selectOne rendered) value acc in
    (forall c, c ∈ selectedCompanies (CompanySelector.store acc) ->
               c ∈ selectedCompanies (CompanySelector.store res))
    /\ (NoDup (selectedTickers (CompanySelector.store acc)) ->
        NoDup (selectedTickers (CompanySelector.store res)))
    /\ (forall c, c ∈ value ->
          Company.ticker c ∈ map Company.ticker rendered
          \/ Company.ticker c ∈ selectedTickers (CompanySelector.store res))
    /\ CompanySelector.notified res
       = (CompanySelector.notified acc
          ++ List.filter
               (fun company =>
                  negb (existsb
                          (fun c => String.eqb (Company.ticker c)
                                      (Company.ticker company))
                          rendered))
               value)%list
    /\ CompanySelector.inputValue res = CompanySelector.inputValue acc.
Proof.
  induction value as [| company rest IH]; intros acc res; subst res.
  - simpl. rewrite app_nil_r. repeat split; auto.
    intros c Hc. inversion Hc.
  - change (fold_left (CompanySelector.selectOne rendered) (company :: rest)
              acc)
      with (fold_left (CompanySelector.selectOne rendered) rest
              (CompanySelector.selectOne rendered acc company)).
    destruct (IH (CompanySelector.selectOne rendered acc company))
      as (Hkeep & Hnd & Hsel & Hnote & Hinput).
    unfold CompanySelector.selectOne in *. simpl.
    destruct (existsb _ rendered) eqn:Hex; simpl in *.
    + split; [exact Hkeep |]. split; [exact Hnd |].
      split; [| split; [exact Hnote | exact Hinput]].
      intros c [-> | Hc]%elem_of_cons; [| apply Hsel, Hc].
      left. apply isAlreadySelected_iff in Hex as (c' & Hc' & Heq).
      apply list_elem_of_In, in_map_iff. exists c'.
      split; [exact Heq | apply list_elem_of_In, Hc'].
    + split; [| split; [| split; [| split; [| exact Hinput]]]].
      * intros c Hc. apply Hkeep, selectCompany_keeps, Hc.
      * intros Hstart. apply Hnd, selectCompany_NoDup, Hstart.
      * intros c [-> | Hc]%elem_of_cons; [| apply Hsel, Hc].
        right. apply selectedTickers_elem.
        destruct (selectCompany_selected (CompanySelector.store acc) company)
          as (c' & Hc' & Heq).
        exists c'. split; [apply Hkeep, Hc' | exact Heq].
      * rewrite Hnote, <- app_assoc. reflexivity.
Qed.

(** X22: selecting in the company selector.  In multiple mode, with the
    selection on screen being the one of the store, every company handed
    over ends up with its ticker selected, all former selections stay,
    tickers stay pairwise distinct, and [onCompanySelect] is told of each
    handed-over company whose ticker was not on screen, duplicates among
    them included.  In single mode the chosen company's ticker ends up
    selected, the search box is cleared and [onCompanySelect] is told of
    the company, also when its ticker was selected before and the store
    did not change. *)
Theorem X22_selector_selects_all :
  forall (st : AppState) (inputValue : string) (value : list Company)
         (company : Company),
    let many :=
      CompanySelector.handleCompanySelect_multiple st (selectedCompanies st)
        inputValue (Some value) in
    let one :=
      CompanySelector.handleCompanySelect_single st inputValue (Some company) in
    (forall c, c ∈ value ->
               Company.ticker c ∈ selectedTickers (CompanySelector.store many))
    /\ (forall c, c ∈ selectedCompanies st ->
                  c ∈ selectedCompanies (CompanySelector.store many))
    /\ (NoDup (selectedTickers st) ->
        NoDup (selectedTickers (CompanySelector.store many)))
    /\ CompanySelector.notified many
       = List.filter
           (fun x =>
              negb (existsb
                      (fun c => String.eqb (Company.ticker c)
                                  (Company.ticker x))
                      (selectedCompanies st)))
           value
    /\ CompanySelector.inputValue many = inputValue
    /\ (Company.ticker company ∈ selectedTickers (CompanySelector.store one))
    /\ CompanySelector.notified one = [company]
    /\ CompanySelector.inputValue one = ""
    /\ (Company.ticker company ∈ selectedTickers st ->
        CompanySelector.store one = st).
Proof.
  intros st inputValue value company many one. subst many one.
  unfold CompanySelector.handleCompanySelect_multiple,
    CompanySelector.handleCompanySelect_single.
  destruct (selectOne_fold (selectedCompanies st) value
              (CompanySelector.mkResult st [] inputValue))
    as (Hkeep & Hnd & Hsel & Hnote & Hinput).
  simpl in *.
  split; [| split; [exact Hkeep | split; [exact Hnd |
           split; [exact Hnote | split; [exact Hinput |]]]]].
  - intros c Hc. destruct (Hsel c Hc) as [Hold | Hnew]; [| exact Hnew].
    apply selectedTickers_elem.
    apply list_elem_of_In, in_map_iff in Hold as (c' & Heq & Hc').
    exists c'. split; [apply Hkeep, list_elem_of_In, Hc' | exact Heq].
  - split; [| split; [reflexivity | split; [reflexivity |]]].
    + apply selectedTickers_elem, selectCompany_selected.
    + intros Hold. apply selectedTickers_elem, isAlreadySelected_iff in Hold.
      unfold selectCompany. rewrite Hold. reflexivity.
Qed.

(** Witness for X22: Apple is on screen and is handed over again together
    with a second record of the same ticker. *)
Lemma X22_witness_same_ticker_handed_over :
  NoDup (selectedTickers (selectCompany initialState apple))
  /\ NoDup (selectedTickers
              (CompanySelector.store
                 (CompanySelector.handleCompanySelect_multiple
                    (selectCompany initialState apple)
                    (selectedCompanies (selectCompany initialState apple))
                    "app" (Some [apple; appleAgain])))).
Proof.
  assert (Hnd : NoDup (selectedTickers (selectCompany initialState apple))).
  { apply NoDup_singleton. }
  split; [exact Hnd |].
  exact (proj1 (proj2 (proj2
           (X22_selector_selects_all (selectCompany initialState apple) "app"
              [apple; appleAgain] apple))) Hnd).
Defined.

(** ** The chat box *)

(** X23: sending from the chat box.  A blank input, or a send made while
    the reply to the former one is awaited, changes neither the store nor
    the input.  Any other send clears the input; the trimmed question and
    its reply enter the transcript when the chat of the store is open, and
    when it is not, the store stays as it is and the question is lost. *)
Theorem X23_chat_box_send :
  forall (trim : string -> string) (st : AppState) (isTyping : bool)
         (inputMessage : string) (now : Date),
    let res :=
      ChatInterface.handleSendMessage trim st isTyping inputMessage now in
    (truthyString (trim inputMessage) = false \/ isTyping = true ->
     res = (st, inputMessage))
    /\ (truthyString (trim inputMessage) = true ->
        isTyping = false ->
        snd res = ""
        /\ (chatEnabled st = true ->
            is_Some (companyContext st) ->
            messages (fst res)
            = (messages st ++ exchange (trim inputMessage, now))%list)
        /\ (chatEnabled st = false \/ companyContext st = None ->
            fst res = st)).
Proof.
  intros trim st isTyping inputMessage now res. subst res.
  unfold ChatInterface.handleSendMessage. split.
  - intros [-> | ->]; [reflexivity |]. rewrite orb_true_r. reflexivity.
  - intros -> ->. simpl. split; [reflexivity |]. split.
    + intros Hon Hctx.
      apply (sendMessage_accepted st (trim inputMessage) now Hon Hctx).
    + apply sendMessage_rejected.
Qed.

(** Witness for X23: a question typed while AAPL is still being processed
    is cleared from the box and not recorded. *)
Lemma X23_witness_question_lost :
  truthyString (id "What was revenue last year?") = true
  /\ ChatInterface.handleSendMessage id submittedAAPL false
       "What was revenue last year?" 9000
     = (submittedAAPL, "").
Proof.
  assert (Hfilled : truthyString (id "What was revenue last year?") = true)
    by reflexivity.
  split; [exact Hfilled |].
  pose proof (proj2 (X23_chat_box_send id submittedAAPL false
                       "What was revenue last year?" 9000) Hfilled eq_refl)
    as (Hinput & _ & Hlost).
  rewrite (surjective_pairing
             (ChatInterface.handleSendMessage id submittedAAPL false
                "What was revenue last year?" 9000)).
  rewrite Hinput, (Hlost (or_introl eq_refl)). reflexivity.
Defined.

(** ** The citation panel *)

Lemma dispatch_citation (st : AppState) (a : Action) :
  (citationPanelOpen (dispatch st a), currentCitation (dispatch st a))
  = match a with
    | AopenCitation citation => (true, Some citation)
    | AcloseCitationPanel => (false, None)
    | _ => (citationPanelOpen st, currentCitation st)
    end.
Proof.
  destruct a;
    unfold dispatch, startProcessing, startProcessing_begin,
      startProcessing_settle, retryFromError, startProcessing,
      startProcessing_begin, startProcessing_settle, updateProcessingStatus,
      transitionToPhase, setWorkflowPhase, sendMessage, failProcessing,
      completeProcessing, updateProcessingProgress, clearWorkflowError,
      enableChat, selectCompany, markCompanyAsProcessed;
    destruct st; cbn; split_guards; reflexivity.
Qed.

(** X24: the citation panel and its citation go together.  In every state
    the store can reach, the panel is open exactly when a citation is
    current; [openCitation] shows the given citation, and closing after
    opening is the same as closing. *)
Theorem X24_citation_panel_coherent :
  forall (st : AppState) (citation : Citation),
    (reachable st -> citationPanelCoherent st)
    /\ currentCitation (openCitation st citation) = Some citation
    /\ citationPanelOpen (openCitation st citation) = true
    /\ closeCitationPanel (openCitation st citation) = closeCitationPanel st
    /\ (forall a : Action,
          citationPanelCoherent st -> citationPanelCoherent (dispatch st a)).
Proof.
  intros st citation.
  assert (Hstep : forall (s : AppState) (a : Action),
            citationPanelCoherent s -> citationPanelCoherent (dispatch s a)).
  { intros s a Hco. unfold citationPanelCoherent.
    pose proof (f_equal fst (dispatch_citation s a)) as Hopen.
    pose proof (f_equal snd (dispatch_citation s a)) as Hcit.
    cbn [fst snd] in Hopen, Hcit. rewrite Hopen, Hcit.
    destruct a; try exact Hco; cbn [fst snd].
    - split; eauto.
    - split; [discriminate | intros [c Hc]; discriminate]. }
  split; [| split; [| split; [| split; [| apply Hstep]]]];
    try (destruct st; reflexivity).
  induction 1 as [| s a Hreach IH].
  - split; [discriminate | intros [c Hc]; discriminate].
  - apply Hstep, IH.
Qed.

(** Witness for X24: a citation is opened during the ACME chat and the
    workflow is reset; the panel is still open on that citation. *)
Lemma X24_witness_citation_survives_reset :
  reachable
    (dispatch
       (dispatch chatACME
          (AopenCitation (Citation.mk "c1" "10-K 2023" "Item 7" (Some 42)
                            "Revenue grew" (7 # 10) None)))
       AresetWorkflow)
  /\ citationPanelCoherent
       (dispatch
          (dispatch chatACME
             (AopenCitation (Citation.mk "c1" "10-K 2023" "Item 7" (Some 42)
                               "Revenue grew" (7 # 10) None)))
          AresetWorkflow).
Proof.
  assert (Hreach :
    reachable
      (dispatch
         (dispatch chatACME
            (AopenCitation (Citation.mk "c1" "10-K 2023" "Item 7" (Some 42)
                              "Revenue grew" (7 # 10) None)))
         AresetWorkflow)).
  { unfold chatACME. do 4 apply reachable_step. apply reachable_init. }
  split; [exact Hreach |].
  exact (proj1 (X24_citation_panel_coherent _
                  (Citation.mk "c1" "10-K 2023" "Item 7" (Some 42)
                     "Revenue grew" (7 # 10) None)) Hreach).
Defined.
